(** * schedule-text-generator: a shallow embedding and its verified properties

    The development follows the JavaScript sources class by class:

    - [JS]: the fragment of the ECMAScript runtime the program relies on
      (numbers with NaN, strings as sequences of UTF-16 code units,
      [split], [trim], [parseInt], [padStart], a stable [sort]);
    - [JSDate]: the [Date] built-in (ECMA-262, "Date Objects"): day
      numbers, the proleptic Gregorian calendar, local time as a fixed
      offset from UTC, [new Date(y, m, d)], [setDate], [toISOString];
    - [HolidayService], [Scheduler], [TextGenerator], [ScheduleApp] and
      [HolidayFetcher]: the classes of the repository.

    Modelling conventions.  A JavaScript number is an integer or NaN
    ([option Z], [None] being NaN); fractional values and the rounding of
    doubles above 2^53 are outside the model.  A [Date] is a time value
    in milliseconds since the epoch, or [InvalidDate]; the range limit of
    8.64e15 ms on time values is not modelled.  The local time zone is a
    fixed offset [tza] (milliseconds east of UTC), so daylight saving
    transitions are outside the model.  Of the DOM, only the time cells
    are modelled, by the classes and [dataset] entries that the selection
    logic writes and reads back; [console] output is recorded as a list
    of log entries.  The holiday file, when it is JSON with a [holidays]
    property, maps each year to an array of [{date, name}] objects or to
    [null]; other shapes of its values are outside the model. *)

From Stdlib Require Import ZArith List Lia Bool String Ascii Sorted Permutation.
From stdpp Require Import gmap list strings.

Local Open Scope Z_scope.

(* ================================================================== *)
(** * The ECMAScript runtime fragment *)
(* ================================================================== *)

Module JS.

(** A number: an integer, or NaN. *)
Abbreviation number := (option Z).
Abbreviation NaN := (@None Z).

(** A string: its UTF-16 code units. *)
Abbreviation jsstring := (list N).

(** An ASCII literal as a JavaScript string. *)
Definition lit (s : string) : jsstring :=
  (fun a => N_of_ascii a) <$> list_ascii_of_string s.

(** Strict equality [a === b] on numbers: NaN differs from everything. *)
Definition strictEq (a b : number) : bool :=
  match a, b with
  | Some x, Some y => x =? y
  | _, _ => false
  end.

(** [a !== b] on numbers. *)
Definition strictNe (a b : number) : bool := negb (strictEq a b).

(** [a < b] on numbers: false as soon as one side is NaN. *)
Definition lessThan (a b : number) : bool :=
  match a, b with
  | Some x, Some y => x <? y
  | _, _ => false
  end.

(** Binary arithmetic lifted to numbers, NaN being absorbing. *)
Definition arith (op : Z -> Z -> Z) (a b : number) : number :=
  match a, b with
  | Some x, Some y => Some (op x y)
  | _, _ => NaN
  end.

(** The remainder operator [%] on integers: the sign follows the
    dividend; [x % 0] is NaN. *)
Definition remainder (x y : Z) : number :=
  if y =? 0 then NaN else Some (Z.rem x y).

(** The code unit of the decimal digit [d]. *)
Definition digitChar (d : Z) : N := Z.to_N (48 + d).

(** The decimal digits of a natural number, most significant first, as
    code units; [fuel] bounds the number of digits. *)
Fixpoint digitsOf (fuel : nat) (n : Z) : jsstring :=
  match fuel with
  | O => []
  | S fuel' => (if n <? 10 then [] else digitsOf fuel' (n / 10)) ++ [digitChar (n mod 10)]
  end.

(** [String(z)] / [z.toString()] for an integer below 1e21: a number
    has at most [1 + log2] decimal digits. *)
Definition intToString (z : Z) : jsstring :=
  if z <? 0 then 45%N :: digitsOf (S (Z.to_nat (Z.log2 (- z)))) (- z)
  else digitsOf (S (Z.to_nat (Z.log2 z))) z.

(** [String(x)] for a number. *)
Definition numberToString (x : number) : jsstring :=
  match x with
  | Some z => intToString z
  | None => lit "NaN"
  end.

(** [s.padStart(n, c)] for a one-character filler. *)
Definition padStart (n : nat) (c : N) (s : jsstring) : jsstring :=
  replicate (n - length s) c ++ s.

(** WhiteSpace and LineTerminator code units (ECMA-262, 12.2 and 12.3):
    the characters removed by [trim] and skipped by [parseInt]. *)
Definition isWhiteSpace (c : N) : bool :=
  ((c =? 9) || (c =? 10) || (c =? 11) || (c =? 12) || (c =? 13) ||
   (c =? 32) || (c =? 160) || (c =? 5760) ||
   ((8192 <=? c) && (c <=? 8202)) ||
   (c =? 8232) || (c =? 8233) || (c =? 8239) || (c =? 8287) ||
   (c =? 12288) || (c =? 65279))%N.

(** [s.trimStart()]. *)
Fixpoint trimStart (s : jsstring) : jsstring :=
  match s with
  | c :: s' => if isWhiteSpace c then trimStart s' else s
  | [] => []
  end.

(** [s.trim()]. *)
Definition trim (s : jsstring) : jsstring :=
  rev (trimStart (rev (trimStart s))).

(** [s.split(sep)] for a one-character separator: the pieces between the
    occurrences of [sep]; never empty ([''.split(',')] is [['']]). *)
Fixpoint split (sep : N) (s : jsstring) : list jsstring :=
  match s with
  | [] => [[]]
  | c :: s' =>
      if (c =? sep)%N then [] :: split sep s'
      else match split sep s' with
           | piece :: rest => (c :: piece) :: rest
           | [] => [[c]]
           end
  end.

(** [pieces[0]] for the result of [split], which is never empty. *)
Definition first (pieces : list jsstring) : jsstring := hd [] pieces.

(** [s.replace(/c/g, '')]: every occurrence of [c] removed. *)
Definition removeAll (c : N) (s : jsstring) : jsstring :=
  filter (fun x => x <> c) s.

(** Value of a code unit as a digit in radix 10 or 16. *)
Definition digitValue (radix : Z) (c : N) : option Z :=
  let v :=
    if ((48 <=? c) && (c <=? 57))%N then Some (Z.of_N c - 48)
    else if ((97 <=? c) && (c <=? 122))%N then Some (Z.of_N c - 87)
    else if ((65 <=? c) && (c <=? 90))%N then Some (Z.of_N c - 55)
    else None in
  match v with
  | Some d => if d <? radix then Some d else None
  | None => None
  end.

(** The longest prefix of radix-[radix] digits of [s], read as an
    integer, starting from the accumulator [acc]; [seen] records whether
    a digit has been read. *)
Fixpoint parseDigits (radix : Z) (s : jsstring) (seen : bool) (acc : Z) : number :=
  match s with
  | c :: s' =>
      match digitValue radix c with
      | Some d => parseDigits radix s' true (acc * radix + d)
      | None => if seen then Some acc else NaN
      end
  | [] => if seen then Some acc else NaN
  end.

(** [parseInt(s)] with no radix argument (ECMA-262, 19.2.5): leading
    white space is skipped, then an optional sign, then an optional
    [0x]/[0X] prefix selecting radix 16, then the longest run of digits;
    NaN when that run is empty. *)
Definition parseInt (s : jsstring) : number :=
  let s0 := trimStart s in
  let '(sign, s1) :=
    match s0 with
    | 45%N :: s' => (-1, s')
    | 43%N :: s' => (1, s')
    | _ => (1, s0)
    end in
  let '(radix, s2) :=
    match s1 with
    | 48%N :: 120%N :: s' => (16, s')
    | 48%N :: 88%N :: s' => (16, s')
    | _ => (10, s1)
    end in
  (fun m => sign * m) <$> parseDigits radix s2 false 0.

(** [a <= b] and [a >= b] on numbers: false as soon as one side is
    NaN. *)
Definition lessEq (a b : number) : bool :=
  match a, b with
  | Some x, Some y => x <=? y
  | _, _ => false
  end.

Definition greaterEq (a b : number) : bool := lessEq b a.

(** [Math.round(x / y)] for an integer [x] and a positive integer [y]:
    the nearest integer, a tie going up. *)
Definition roundDiv (x y : Z) : Z := (2 * x + y) / (2 * y).

(** Insertion of [x] in front of the first element that it does not
    compare greater than; [gt a b] is the test [comparator(a, b) > 0]. *)
Fixpoint insertSorted {A} (gt : A -> A -> bool) (x : A) (l : list A) : list A :=
  match l with
  | [] => [x]
  | y :: l' => if gt x y then y :: insertSorted gt x l' else x :: y :: l'
  end.

(** [Array.prototype.sort(comparator)]: a stable sort (ECMA-262 since
    ES2019).  [gt a b] tells whether [comparator(a, b) > 0].  Each
    element is inserted into the sorted rest of the array, in front of
    its equals, so equal elements keep their order; for a consistent
    comparator every stable sort returns this list. *)
Definition sort {A} (gt : A -> A -> bool) (l : list A) : list A :=
  foldr (fun x acc => insertSorted gt x acc) [] l.

(** How a call completes: normally with a value, or by throwing. *)
Inductive completion (A : Type) : Type :=
  | Normal (a : A)
  | Throw (error : string).
Arguments Normal {A} a.
Arguments Throw {A} error.

(** An entry written to the console. *)
Inductive logEntry : Type :=
  | ConsoleLog (msg : string)
  | ConsoleWarn (msg : string)
  | ConsoleError (msg : string).

(** [l[i]] for an array and a number: [None] stands for [undefined],
    the value at an index that is NaN or outside the array. *)
Definition index {A} (l : list A) (i : number) : option A :=
  match i with
  | Some n => if n <? 0 then None else l !! Z.to_nat n
  | None => None
  end.

(** A string or [undefined] inside a template literal: [undefined]
    prints as the word. *)
Definition orUndefined (o : option jsstring) : jsstring :=
  default (lit "undefined") o.

(** [l.join(sep)]. *)
Fixpoint join (sep : jsstring) (l : list jsstring) : jsstring :=
  match l with
  | [] => []
  | s :: l' =>
      match l' with
      | [] => s
      | _ :: _ => s ++ sep ++ join sep l'
      end
  end.

(** The value of [Math.ceil(x / y)] for integers: the quotient by zero
    is an infinity, or NaN for [0 / 0]. *)
Inductive quotient : Type :=
  | Finite (q : Z)
  | PlusInfinity
  | MinusInfinity
  | QuotientNaN.

Definition ceilDiv (x y : Z) : quotient :=
  if y =? 0 then
    if x =? 0 then QuotientNaN else if 0 <? x then PlusInfinity else MinusInfinity
  else Finite (- ((- x) / y)).

End JS.

(* ================================================================== *)
(** * The Date built-in *)
(* ================================================================== *)

Module JSDate.
Import JS.

Definition msPerDay : Z := 86400000.

(** [Day(t)]: the day number of a time value. *)
Definition Day (t : Z) : Z := t / msPerDay.

(** [TimeWithinDay(t)]. *)
Definition TimeWithinDay (t : Z) : Z := t mod msPerDay.

(** [DaysInYear(y)]. *)
Definition DaysInYear (y : Z) : Z :=
  if negb (y mod 4 =? 0) then 365
  else if negb (y mod 100 =? 0) then 366
  else if negb (y mod 400 =? 0) then 365
  else 366.

(** [DayFromYear(y)]: the day number of 1 January of year [y]. *)
Definition DayFromYear (y : Z) : Z :=
  365 * (y - 1970) + (y - 1969) / 4 - (y - 1901) / 100 + (y - 1601) / 400.

(** [YearFromTime], on day numbers: the largest [y] with
    [DayFromYear y <= day], computed from an estimate that is off by at
    most one year (see [YearFromDay_spec]). *)
Definition YearFromDay (day : Z) : Z :=
  let y := 1970 + (400 * day) / 146097 in
  if day <? DayFromYear y then y - 1
  else if DayFromYear (y + 1) <=? day then y + 1
  else y.

(** [InLeapYear], as 0 or 1. *)
Definition InLeapYear (day : Z) : Z :=
  if DaysInYear (YearFromDay day) =? 366 then 1 else 0.

(** [DayWithinYear]. *)
Definition DayWithinYear (day : Z) : Z := day - DayFromYear (YearFromDay day).

(** Day within the year on which month [m] (0 = January) starts, [leap]
    being 1 in a leap year and 0 otherwise; 12 gives the year's length. *)
Definition monthStart (leap m : Z) : Z :=
  if m <=? 0 then 0
  else if m =? 1 then 31
  else if m =? 2 then 59 + leap
  else if m =? 3 then 90 + leap
  else if m =? 4 then 120 + leap
  else if m =? 5 then 151 + leap
  else if m =? 6 then 181 + leap
  else if m =? 7 then 212 + leap
  else if m =? 8 then 243 + leap
  else if m =? 9 then 273 + leap
  else if m =? 10 then 304 + leap
  else if m =? 11 then 334 + leap
  else 365 + leap.

(** [MonthFromTime], on day numbers (0 = January). *)
Definition MonthFromDay (day : Z) : Z :=
  let d := DayWithinYear day in
  let leap := InLeapYear day in
  if d <? 31 then 0
  else if d <? 59 + leap then 1
  else if d <? 90 + leap then 2
  else if d <? 120 + leap then 3
  else if d <? 151 + leap then 4
  else if d <? 181 + leap then 5
  else if d <? 212 + leap then 6
  else if d <? 243 + leap then 7
  else if d <? 273 + leap then 8
  else if d <? 304 + leap then 9
  else if d <? 334 + leap then 10
  else 11.

(** [DateFromTime], on day numbers: the day of the month, from 1. *)
Definition DateFromDay (day : Z) : Z :=
  DayWithinYear day - monthStart (InLeapYear day) (MonthFromDay day) + 1.

(** [WeekDay], on day numbers: 0 = Sunday; day 0 was a Thursday. *)
Definition WeekDay (day : Z) : Z := (day + 4) mod 7.

(** [MakeDay(year, month, date)]: the day number of the [date]-th day
    counted from the first of month [month] (0-based, any integer) of
    [year]; out-of-range months and dates carry over. *)
Definition MakeDay (year month date : Z) : Z :=
  let ym := year + month / 12 in
  let mn := month mod 12 in
  DayFromYear ym + monthStart (if DaysInYear ym =? 366 then 1 else 0) mn + date - 1.

(** [MakeDate(day, time)]. *)
Definition MakeDate (day time : Z) : Z := day * msPerDay + time.

(** Number of days in month [m] (1 = January) of year [y]. *)
Definition daysInMonth (y m : Z) : Z :=
  let leap := if DaysInYear y =? 366 then 1 else 0 in
  monthStart leap m - monthStart leap (m - 1).

(** A date value: a time value (milliseconds since the epoch, UTC), or
    the Invalid Date. *)
Inductive Date : Type :=
  | TimeValue (t : Z)
  | InvalidDate.

(** [d.getTime()]. *)
Definition getTime (d : Date) : number :=
  match d with TimeValue t => Some t | InvalidDate => NaN end.

(** [new Date(d)] for a Date argument: a copy with the same time value. *)
Definition copy (d : Date) : Date := d.

(** [new Date(x)] for a number: the Invalid Date for NaN. *)
Definition ofNumber (x : number) : Date :=
  match x with Some t => TimeValue t | None => InvalidDate end.

Section LocalTime.

(** Offset of local time from UTC, in milliseconds. *)
Variable tza : Z.

Definition LocalTime (t : Z) : Z := t + tza.
Definition UTC (t : Z) : Z := t - tza.

(** The local day number of a valid date. *)
Definition localDay (t : Z) : Z := Day (LocalTime t).

Definition getFullYear (d : Date) : number :=
  match d with TimeValue t => Some (YearFromDay (localDay t)) | InvalidDate => NaN end.

Definition getMonth (d : Date) : number :=
  match d with TimeValue t => Some (MonthFromDay (localDay t)) | InvalidDate => NaN end.

Definition getDate (d : Date) : number :=
  match d with TimeValue t => Some (DateFromDay (localDay t)) | InvalidDate => NaN end.

Definition getDay (d : Date) : number :=
  match d with TimeValue t => Some (WeekDay (localDay t)) | InvalidDate => NaN end.

(** [new Date(year, monthIndex, day)]: local midnight of that day; a
    year from 0 to 99 stands for 1900 + year; NaN in any field gives the
    Invalid Date. *)
Definition ofFields (year monthIndex day : number) : Date :=
  match year, monthIndex, day with
  | Some y, Some m, Some dt =>
      let yr := if (0 <=? y) && (y <=? 99) then 1900 + y else y in
      TimeValue (UTC (MakeDate (MakeDay yr m dt) 0))
  | _, _, _ => InvalidDate
  end.

(** [d.setDate(dt)]: the date after the assignment; the call returns its
    time value.  The local year, month and time of day are kept. *)
Definition setDate (d : Date) (dt : number) : Date :=
  match d, dt with
  | TimeValue t, Some n =>
      let lt := LocalTime t in
      TimeValue (UTC (MakeDate (MakeDay (YearFromDay (Day lt)) (MonthFromDay (Day lt)) n)
                               (TimeWithinDay lt)))
  | _, _ => InvalidDate
  end.

End LocalTime.

(** [MakeTime(hour, min, sec, ms)]. *)
Definition MakeTime (hour min sec ms : Z) : Z :=
  hour * 3600000 + min * 60000 + sec * 1000 + ms.

(** [d.setHours(hour, min, sec, ms)]: the date after the assignment,
    on the same local day. *)
Definition setHours (tza : Z) (d : Date) (hour min sec ms : Z) : Date :=
  match d with
  | TimeValue t =>
      TimeValue (UTC tza (MakeDate (Day (LocalTime tza t)) (MakeTime hour min sec ms)))
  | InvalidDate => InvalidDate
  end.

(** The year field of [toISOString]: four digits from 0 to 9999,
    otherwise a sign and six digits. *)
Definition isoYear (y : Z) : jsstring :=
  if (0 <=? y) && (y <=? 9999) then padStart 4 48%N (intToString y)
  else (if y <? 0 then 45%N else 43%N) :: padStart 6 48%N (intToString (Z.abs y)).

(** The calendar-date part [YYYY-MM-DD] of [toISOString], in UTC. *)
Definition isoDate (t : Z) : jsstring :=
  isoYear (YearFromDay (Day t)) ++ lit "-" ++
  padStart 2 48%N (intToString (MonthFromDay (Day t) + 1)) ++ lit "-" ++
  padStart 2 48%N (intToString (DateFromDay (Day t))).

(** The time part [HH:mm:ss.sssZ] of [toISOString]. *)
Definition isoTime (t : Z) : jsstring :=
  let ms := TimeWithinDay t in
  padStart 2 48%N (intToString (ms / 3600000)) ++ lit ":" ++
  padStart 2 48%N (intToString ((ms / 60000) mod 60)) ++ lit ":" ++
  padStart 2 48%N (intToString ((ms / 1000) mod 60)) ++ lit "." ++
  padStart 3 48%N (intToString (ms mod 1000)) ++ lit "Z".

(** [d.toISOString()]: throws a RangeError on the Invalid Date. *)
Definition toISOString (d : Date) : completion jsstring :=
  match d with
  | TimeValue t => Normal (isoDate t ++ lit "T" ++ isoTime t)
  | InvalidDate => Throw "RangeError: Invalid time value"
  end.

#[global] Instance Date_eq_dec : EqDecision Date.
Proof. solve_decision. Defined.

End JSDate.

(* ================================================================== *)
(** * js/holidayService.js *)
(* ================================================================== *)

Module HolidayService.
Import JS JSDate.

(** One holiday of the cache file: [{date, name}]. *)
Record HolidayEntry : Type := mkHolidayEntry {
  date : jsstring;
  name : jsstring
}.

(** The parsed cache file: [data.holidays] maps a year, as a string, to
    the array of the holidays of that year, or to [null] ([None]). *)
Record HolidayData : Type := mkHolidayData {
  lastUpdated : jsstring;
  holidays : gmap jsstring (option (list HolidayEntry))
}.

(** [this.fallbackHolidays]. *)
Record FallbackHolidays : Type := mkFallbackHolidays {
  fixedHolidays : list jsstring
}.

(** The fields of a [HolidayService] that the lookup reads. *)
Record t : Type := mkService {
  holidayData : option HolidayData;
  fallbackHolidays : option FallbackHolidays;
  isInitialized : bool
}.

(** The state built by the constructor. *)
Definition constructor : t :=
  {| holidayData := None; fallbackHolidays := None; isInitialized := false |}.

(** What [fetch('./assets/holidays.json')] and [response.json()] deliver:
    the request fails, or a response arrives whose body is not JSON
    ([None]), or is a JSON value with or without a [holidays] property;
    a year of that property holds an array of holidays or [null]. *)
Inductive fetched : Type :=
  | FetchRejected (reason : string)
  | Response (ok : bool)
             (body : option (jsstring * option (gmap jsstring (option (list HolidayEntry))))).

(** The statistics that [_loadHolidayJSON] logs: the number of holidays
    of all years.  Reading the [length] of a year that is [null]
    throws. *)
Definition totalHolidays (hs : gmap jsstring (option (list HolidayEntry))) : completion Z :=
  if decide (map_Forall (fun _ entries => is_Some entries) hs)
  then Normal (map_fold (fun _ entries sum => sum + Z.of_nat (length (default [] entries))) 0 hs)
  else Throw "TypeError: Cannot read properties of null (reading 'length')".

(** [_loadHolidayJSON]: the service after the call, and how the call
    completed.  The data is assigned to [this.holidayData] before the
    statistics are computed, so it stays assigned when they throw. *)
Definition _loadHolidayJSON (s : t) (r : fetched) : t * completion unit :=
  match r with
  | FetchRejected reason => (s, Throw reason)
  | Response false _ => (s, Throw "HTTP error")
  | Response true None => (s, Throw "SyntaxError")
  | Response true (Some (_, None)) =>
      (s, Throw "Invalid JSON format: missing holidays property")
  | Response true (Some (updated, Some hs)) =>
      let s' := {| holidayData := Some {| lastUpdated := updated; holidays := hs |};
                   fallbackHolidays := fallbackHolidays s;
                   isInitialized := isInitialized s |} in
      match totalHolidays hs with
      | Normal _ => (s', Normal tt)
      | Throw e => (s', Throw e)
      end
  end.

(** [_initializeFallbackHolidays]. *)
Definition _initializeFallbackHolidays (s : t) : t :=
  {| holidayData := holidayData s;
     fallbackHolidays := Some {| fixedHolidays :=
       [lit "1-1"; lit "2-11"; lit "4-29"; lit "5-3"; lit "5-4"; lit "5-5";
        lit "8-11"; lit "11-3"; lit "11-23"; lit "12-23"] |};
     isInitialized := isInitialized s |}.

(** [_performInitialization]: the load, and the fallback when it
    throws; the fallback is set up in the state that the load left. *)
Definition _performInitialization (s : t) (r : fetched) : t :=
  match _loadHolidayJSON s r with
  | (s', Normal _) =>
      {| holidayData := holidayData s'; fallbackHolidays := fallbackHolidays s';
         isInitialized := true |}
  | (s', Throw _) =>
      let s'' := _initializeFallbackHolidays s' in
      {| holidayData := holidayData s''; fallbackHolidays := fallbackHolidays s'';
         isInitialized := true |}
  end.

Section Lookup.
Variable tza : Z.

(** [_isHolidayFromJSON]. *)
Definition _isHolidayFromJSON (data : HolidayData) (d : Date) : completion bool :=
  let year := numberToString (getFullYear tza d) in
  match toISOString d with
  | Throw e => Throw e
  | Normal iso =>
      let isoDate := first (split 84%N iso) in
      match holidays data !! year with
      | None | Some None => Normal false
      | Some (Some l) =>
          Normal (existsb (fun holiday => bool_decide (date holiday = isoDate)) l)
      end
  end.

(** [_getNthWeekdayOfMonth]. *)
Definition _getNthWeekdayOfMonth (year : number) (month weekday n : Z) : Date :=
  let firstDay := ofFields tza year (Some (month - 1)) (Some 1) in
  let firstWeekday := getDay tza firstDay in
  let offset := firstWeekday ≫= (fun fw => remainder (weekday - fw + 7) 7) in
  let targetDate :=
    ofFields tza year (Some (month - 1))
             (arith Z.add (arith Z.add (Some 1) offset) (Some ((n - 1) * 7))) in
  targetDate.

(** [_isHolidayFromFallback]. *)
Definition _isHolidayFromFallback (fb : FallbackHolidays) (d : Date) : bool :=
  let month := arith Z.add (getMonth tza d) (Some 1) in
  let day := getDate tza d in
  let year := getFullYear tza d in
  let dateKey := numberToString month ++ lit "-" ++ numberToString day in
  if bool_decide (dateKey ∈ fixedHolidays fb) then true
  else if strictEq month (Some 1) && strictEq (getDay tza d) (Some 1) &&
          (let firstMonday := _getNthWeekdayOfMonth year 1 1 1 in
           let secondMonday :=
             setDate tza (copy firstMonday) (arith Z.add (getDate tza firstMonday) (Some 7)) in
           strictEq (getDate tza d) (getDate tza secondMonday)) then true
  else if strictEq month (Some 7) && strictEq (getDay tza d) (Some 1) &&
          (let thirdMonday := _getNthWeekdayOfMonth year 7 1 3 in
           strictEq (getDate tza d) (getDate tza thirdMonday)) then true
  else if strictEq month (Some 9) && strictEq (getDay tza d) (Some 1) &&
          (let thirdMonday := _getNthWeekdayOfMonth year 9 1 3 in
           strictEq (getDate tza d) (getDate tza thirdMonday)) then true
  else if strictEq month (Some 10) && strictEq (getDay tza d) (Some 1) &&
          (let secondMonday := _getNthWeekdayOfMonth year 10 1 2 in
           strictEq (getDate tza d) (getDate tza secondMonday)) then true
  else false.

(** [isHoliday]: how the call completes, and what it writes to the
    console. *)
Definition isHoliday (s : t) (d : Date) : completion bool * list logEntry :=
  if negb (isInitialized s) then
    (Normal false, [ConsoleWarn "⚠️ HolidayService が初期化されていません"])
  else
    match holidayData s with
    | Some data => (_isHolidayFromJSON data d, [])
    | None =>
        match fallbackHolidays s with
        | Some fb => (Normal (_isHolidayFromFallback fb d), [])
        | None => (Normal false, [])
        end
    end.

End Lookup.

(** [{isInitialized, hasJSONData, hasFallbackData, dataSource,
    lastUpdated}], as returned by [getStatus]; [None] stands for
    [null]. *)
Record Status : Type := mkStatus {
  st_isInitialized : bool;
  st_hasJSONData : bool;
  st_hasFallbackData : bool;
  st_dataSource : jsstring;
  st_lastUpdated : option jsstring
}.

(** [getStatus]. *)
Definition getStatus (s : t) : Status :=
  {| st_isInitialized := isInitialized s;
     st_hasJSONData := bool_decide (is_Some (holidayData s));
     st_hasFallbackData := bool_decide (is_Some (fallbackHolidays s));
     st_dataSource := match holidayData s with
                      | Some _ => lit "JSON"
                      | None => lit "fallback"
                      end;
     st_lastUpdated := lastUpdated <$> holidayData s |}.

(** [getHolidays]. *)
Definition getHolidays (s : t) (year : number) : list HolidayEntry :=
  if negb (isInitialized s) || negb (bool_decide (is_Some (holidayData s))) then []
  else
    match holidayData s with
    | Some data =>
        let yearStr := numberToString year in
        default [] (mjoin (holidays data !! yearStr))
    | None => []
    end.

(** A service object in the course of its asynchronous initialization:
    its fields, whether [this.initPromise] is set, and the number of
    requests for the holiday file issued so far (kept for the
    statements; the object has no such field). *)
Record ServiceObject : Type := mkServiceObject {
  service : t;
  initPromise : bool;
  requests : nat
}.

(** The object built by [new HolidayService()]. *)
Definition newServiceObject : ServiceObject :=
  {| service := constructor; initPromise := false; requests := 0 |}.

(** A call of [initialize], up to its first [await]: nothing happens
    when the service is initialized or an initialization is under way;
    otherwise [_performInitialization] starts, [_loadHolidayJSON] issues
    the request, and the promise is stored. *)
Definition initialize (i : ServiceObject) : ServiceObject :=
  if isInitialized (service i) then i
  else if initPromise i then i
  else {| service := service i; initPromise := true; requests := S (requests i) |}.

(** The pending request settles with [r], and the rest of
    [_performInitialization] runs.  Without a pending request nothing
    settles. *)
Definition settle (i : ServiceObject) (r : fetched) : ServiceObject :=
  if initPromise i && negb (isInitialized (service i))
  then {| service := _performInitialization (service i) r;
          initPromise := initPromise i;
          requests := requests i |}
  else i.

(** What happens to a service object: a caller invokes [initialize], or
    the pending request settles. *)
Inductive event : Type :=
  | Initialize
  | Settled (r : fetched).

Definition step (i : ServiceObject) (e : event) : ServiceObject :=
  match e with
  | Initialize => initialize i
  | Settled r => settle i r
  end.

(** The object after a sequence of events. *)
Definition run (i : ServiceObject) (events : list event) : ServiceObject :=
  foldl step i events.

End HolidayService.

(* ================================================================== *)
(** * js/scheduler.js *)
(* ================================================================== *)

Module Scheduler.
Import JS JSDate.

(** [this.timeRange]. *)
Record TimeRange : Type := mkTimeRange {
  startHour : Z;
  endHour : Z;
  minuteInterval : Z
}.

(** A slot of the time column. *)
Record TimeSlot : Type := mkTimeSlot {
  hour : Z;
  minute : Z;
  timeString : jsstring;
  isHourMark : bool
}.

(** [{hour, minute}], as returned by [minutesToTime]. *)
Record HourMinute : Type := mkHourMinute {
  hm_hour : Z;
  hm_minute : Z
}.

(** The fields of a [Scheduler]. *)
Record t : Type := mkScheduler {
  currentWeek : Date;
  timeRange : TimeRange
}.

(** The scheduler built by the constructor at the instant [now]. *)
Definition constructor (now : Date) : t :=
  {| currentWeek := now;
     timeRange := {| startHour := 9; endHour := 18; minuteInterval := 15 |} |}.

(** [setCurrentWeek]. *)
Definition setCurrentWeek (s : t) (d : Date) : t :=
  {| currentWeek := copy d; timeRange := timeRange s |}.

Section LocalTime.
Variable tza : Z.

(** [getMonday(date)]. *)
Definition getMonday (date : Date) : Date :=
  let d := copy date in
  let day := getDay tza d in
  let diff :=
    arith Z.add (arith Z.sub (getDate tza d) day)
          (if strictEq day (Some 0) then Some (-6) else Some 1) in
  ofNumber (getTime (setDate tza d diff)).

(** [getWeekDates]. *)
Definition getWeekDates (s : t) : list Date :=
  let monday := getMonday (currentWeek s) in
  (fun i => setDate tza (copy monday) (arith Z.add (getDate tza monday) (Some i)))
    <$> seqZ 0 7.

(** [_fallbackHolidayCheck]. *)
Definition _fallbackHolidayCheck (d : Date) : bool :=
  let month := arith Z.add (getMonth tza d) (Some 1) in
  let day := getDate tza d in
  let basicHolidays :=
    [lit "1-1"; lit "5-3"; lit "5-4"; lit "5-5"; lit "11-3"; lit "11-23"] in
  let dateKey := numberToString month ++ lit "-" ++ numberToString day in
  bool_decide (dateKey ∈ basicHolidays).

(** [isHoliday]: [service] is [window.holidayService], absent when the
    script defining it was not loaded. *)
Definition isHoliday (service : option HolidayService.t) (d : Date)
  : completion bool * list logEntry :=
  match service with
  | Some hs =>
      if HolidayService.isInitialized hs then HolidayService.isHoliday tza hs d
      else (Normal (_fallbackHolidayCheck d),
            [ConsoleWarn "⚠️ HolidayService が未初期化、基本祝日のみで判定"])
  | None =>
      (Normal (_fallbackHolidayCheck d),
       [ConsoleWarn "⚠️ HolidayService が未初期化、基本祝日のみで判定"])
  end.

(** [getNthWeekdayOfMonth]. *)
Definition getNthWeekdayOfMonth (year month weekday n : Z) : Date :=
  let firstDay := ofFields tza (Some year) (Some (month - 1)) (Some 1) in
  let firstWeekday := getDay tza firstDay in
  let offset := firstWeekday ≫= (fun fw => remainder (weekday - fw + 7) 7) in
  ofFields tza (Some year) (Some (month - 1))
           (arith Z.add (arith Z.add (Some 1) offset) (Some ((n - 1) * 7))).

End LocalTime.

(** The inner loop of [generateTimeSlots] for one [hour], from [minute]:
    [None] when the fuel runs out (the loop does not end when the
    interval is not positive). *)
Fixpoint minuteLoop (fuel : nat) (r : TimeRange) (hour minute : Z) : option (list TimeSlot) :=
  match fuel with
  | O => None
  | S fuel' =>
      if minute <? 60 then
        if (hour =? endHour r) && (0 <? minute) then Some []
        else
          let slot :=
            {| hour := hour;
               minute := minute;
               timeString := intToString hour ++ lit ":" ++ padStart 2 48%N (intToString minute);
               isHourMark := minute =? 0 |} in
          (fun rest => slot :: rest) <$> minuteLoop fuel' r hour (minute + minuteInterval r)
      else Some []
  end.

(** The outer loop of [generateTimeSlots] over the given hours. *)
Fixpoint hourLoop (fuel : nat) (r : TimeRange) (hours : list Z) : option (list TimeSlot) :=
  match hours with
  | [] => Some []
  | hour :: hours' =>
      match minuteLoop fuel r hour 0 with
      | Some slots => (fun rest => slots ++ rest) <$> hourLoop fuel r hours'
      | None => None
      end
  end.

(** [generateTimeSlots]: the hours run from [startHour] to [endHour]
    inclusive; [fuel] bounds the iterations of each inner loop. *)
Definition generateTimeSlots (fuel : nat) (s : t) : option (list TimeSlot) :=
  let r := timeRange s in
  hourLoop fuel r (seqZ (startHour r) (endHour r - startHour r + 1)).

(** [isValidTime]. *)
Definition isValidTime (s : t) (hour minute : Z) : bool :=
  let r := timeRange s in
  (startHour r <=? hour) && (hour <=? endHour r) &&
  (0 <=? minute) && (minute <? 60) &&
  strictEq (remainder minute (minuteInterval r)) (Some 0).

(** [timeToMinutes]. *)
Definition timeToMinutes (hour minute : Z) : Z := hour * 60 + minute.

(** [minutesToTime]: [Math.floor(totalMinutes / 60)] and
    [totalMinutes % 60]. *)
Definition minutesToTime (totalMinutes : Z) : HourMinute :=
  {| hm_hour := totalMinutes / 60; hm_minute := Z.rem totalMinutes 60 |}.

(** [isValidTimeRange]. *)
Definition isValidTimeRange (s : t) (startHour' startMinute endHour' endMinute : Z) : bool :=
  let startTime := timeToMinutes startHour' startMinute in
  let endTime := timeToMinutes endHour' endMinute in
  isValidTime s startHour' startMinute &&
  isValidTime s endHour' endMinute &&
  (startTime <? endTime) &&
  ((endHour' <? endHour (timeRange s)) ||
   ((endHour' =? endHour (timeRange s)) && (endMinute =? 0))).

(** [getTimeSlotIndex]: [Math.floor] of the quotient is the floor
    division, the interval being non-zero for a valid time. *)
Definition getTimeSlotIndex (s : t) (hour minute : Z) : Z :=
  if negb (isValidTime s hour minute) then -1
  else
    let startMinutes := startHour (timeRange s) * 60 in
    let targetMinutes := hour * 60 + minute in
    let relativeMinutes := targetMinutes - startMinutes in
    relativeMinutes / minuteInterval (timeRange s).

(** [getTimeSlotFromIndex]. *)
Definition getTimeSlotFromIndex (s : t) (index : Z) : HourMinute :=
  let totalMinutes := startHour (timeRange s) * 60 + index * minuteInterval (timeRange s) in
  minutesToTime totalMinutes.

(** [this.weekdays] and [this.weekdaysFull]: the names of the days,
    from Monday and from Sunday.  The constructor sets them and nothing
    assigns them again. *)
Definition weekdays : list jsstring :=
  [[26376%N]; [28779%N]; [27700%N]; [26408%N]; [37329%N]; [22303%N]; [26085%N]].

Definition weekdaysFull : list jsstring :=
  [[26085%N]; [26376%N]; [28779%N]; [27700%N]; [26408%N]; [37329%N]; [22303%N]].

(** [{start, end}], as returned by [getWeekBoundaries]. *)
Record WeekBoundaries : Type := mkWeekBoundaries {
  wb_start : Date;
  wb_end : Date
}.

(** [{start, end, isValid}], as returned by [getSelectableRange];
    [None] stands for [null]. *)
Record SelectableRange : Type := mkSelectableRange {
  sr_start : option HourMinute;
  sr_end : option HourMinute;
  sr_isValid : bool
}.

Section Calendar.
Variable tza : Z.

(** [isToday]: [now] is the instant of the call. *)
Definition isToday (now : Z) (date : Date) : bool :=
  let today := TimeValue now in
  strictEq (getDate tza date) (getDate tza today) &&
  strictEq (getMonth tza date) (getMonth tza today) &&
  strictEq (getFullYear tza date) (getFullYear tza today).

(** [isPast]: [now] is the instant of the call. *)
Definition isPast (now : Z) (date : Date) : bool :=
  let today := setHours tza (TimeValue now) 0 0 0 0 in
  let compareDate := setHours tza (copy date) 0 0 0 0 in
  lessThan (getTime compareDate) (getTime today).

(** [isWeekend]. *)
Definition isWeekend (date : Date) : bool :=
  let day := getDay tza date in
  strictEq day (Some 0) || strictEq day (Some 6).

(** [isSaturday]. *)
Definition isSaturday (date : Date) : bool := strictEq (getDay tza date) (Some 6).

(** [isSunday]. *)
Definition isSunday (date : Date) : bool := strictEq (getDay tza date) (Some 0).

(** [getDayName]: [None] stands for [undefined]. *)
Definition getDayName (date : Date) (short : bool) : option jsstring :=
  let dayIndex := getDay tza date in
  if short then index weekdaysFull dayIndex else index weekdaysFull dayIndex.

(** [getMonthName]. *)
Definition getMonthName (date : Date) : jsstring :=
  numberToString (getFullYear tza date) ++ [24180%N] ++
  numberToString (arith Z.add (getMonth tza date) (Some 1)) ++ [26376%N].

(** [moveToPreviousWeek]: the scheduler after the call, and the dates
    returned. *)
Definition moveToPreviousWeek (s : t) : t * list Date :=
  let s' :=
    {| currentWeek :=
         setDate tza (currentWeek s) (arith Z.sub (getDate tza (currentWeek s)) (Some 7));
       timeRange := timeRange s |} in
  (s', getWeekDates tza s').

(** [moveToNextWeek]. *)
Definition moveToNextWeek (s : t) : t * list Date :=
  let s' :=
    {| currentWeek :=
         setDate tza (currentWeek s) (arith Z.add (getDate tza (currentWeek s)) (Some 7));
       timeRange := timeRange s |} in
  (s', getWeekDates tza s').

(** [moveToThisWeek]: [now] is the instant of the call. *)
Definition moveToThisWeek (s : t) (now : Z) : t * list Date :=
  let s' := {| currentWeek := TimeValue now; timeRange := timeRange s |} in
  (s', getWeekDates tza s').

(** [getWeekBoundaries]. *)
Definition getWeekBoundaries (s : t) : WeekBoundaries :=
  let monday := getMonday tza (currentWeek s) in
  let sunday := setDate tza (copy monday) (arith Z.add (getDate tza monday) (Some 6)) in
  {| wb_start := monday; wb_end := sunday |}.

End Calendar.

(** [getTotalTimeSlots]. *)
Definition getTotalTimeSlots (s : t) : quotient :=
  let totalMinutes := (endHour (timeRange s) - startHour (timeRange s)) * 60 in
  ceilDiv totalMinutes (minuteInterval (timeRange s)).

(** [getSelectableRange]. *)
Definition getSelectableRange (s : t) (startTime endTime : Z) : SelectableRange :=
  let startMinutes := Z.min startTime endTime in
  let endMinutes := Z.max startTime endTime in
  let startSlot := minutesToTime startMinutes in
  let endSlot := minutesToTime endMinutes in
  if isValidTimeRange s (hm_hour startSlot) (hm_minute startSlot)
                        (hm_hour endSlot) (hm_minute endSlot)
  then {| sr_start := Some startSlot; sr_end := Some endSlot; sr_isValid := true |}
  else {| sr_start := None; sr_end := None; sr_isValid := false |}.

End Scheduler.

(* ================================================================== *)
(** * The text generator (class TextGenerator) *)
(* ================================================================== *)

Module TextGenerator.
Import JS JSDate.

(** A candidate: a date and a time range.  [isFullDay] is [false] when
    the property is absent; [dayOffset] is [None] when it is absent. *)
Record Candidate : Type := mkCandidate {
  id : Z;
  date : Date;
  startHour : Z;
  startMinute : Z;
  endHour : Z;
  endMinute : Z;
  isFullDay : bool;
  dayOffset : option Z
}.

(** An entry of the list returned by [checkTimeConflicts]; its [type]
    is always ['time_overlap']. *)
Record Conflict : Type := mkConflict {
  candidate1 : Candidate;
  candidate2 : Candidate
}.

(** [startHour * 60 + startMinute] and [endHour * 60 + endMinute]. *)
Definition startMinutes (c : Candidate) : Z := startHour c * 60 + startMinute c.
Definition endMinutes (c : Candidate) : Z := endHour c * 60 + endMinute c.

(** [formatTime]. *)
Definition formatTime (hour minute : Z) (padHour : bool) : jsstring :=
  let hourStr := if padHour then padStart 2 48%N (intToString hour) else intToString hour in
  let minuteStr := padStart 2 48%N (intToString minute) in
  hourStr ++ lit ":" ++ minuteStr.

Section LocalTime.
Variable tza : Z.

(** [getDateKey]: the local date as [YYYY-MM-DD]. *)
Definition getDateKey (d : Date) : jsstring :=
  let year := getFullYear tza d in
  let month := padStart 2 48%N (numberToString (arith Z.add (getMonth tza d) (Some 1))) in
  let day := padStart 2 48%N (numberToString (getDate tza d)) in
  numberToString year ++ lit "-" ++ month ++ lit "-" ++ day.

(** The comparator of [sortCandidates]. *)
Definition compareCandidates (a b : Candidate) : number :=
  let dateCompare := arith Z.sub (getTime (date a)) (getTime (date b)) in
  if strictNe dateCompare (Some 0) then dateCompare
  else
    let aStartMinutes := startHour a * 60 + startMinute a in
    let bStartMinutes := startHour b * 60 + startMinute b in
    Some (aStartMinutes - bStartMinutes).

(** [sortCandidates]: a sorted copy. *)
Definition sortCandidates (candidates : list Candidate) : list Candidate :=
  sort (fun a b => lessThan (Some 0) (compareCandidates a b)) candidates.

(** One step of [groupByDate]: the candidate joins the group of its key,
    or opens a new group after the existing ones (a [Map] keeps its keys
    in insertion order). *)
Fixpoint addToGroup (dateKey : jsstring) (c : Candidate)
    (groups : list (jsstring * list Candidate)) : list (jsstring * list Candidate) :=
  match groups with
  | [] => [(dateKey, [c])]
  | (k, g) :: rest =>
      if decide (k = dateKey) then (k, g ++ [c]) :: rest
      else (k, g) :: addToGroup dateKey c rest
  end.

(** [groupByDate]. *)
Definition groupByDate (candidates : list Candidate) : list (jsstring * list Candidate) :=
  foldl (fun groups c => addToGroup (getDateKey (date c)) c groups) [] candidates.

(** The inner loop of [checkTimeConflicts]: [a] against each later [b]. *)
Definition conflictsWith (a : Candidate) (later : list Candidate) : list Conflict :=
  flat_map (fun b =>
    if decide (getDateKey (date a) = getDateKey (date b)) then
      let aStart := startHour a * 60 + startMinute a in
      let aEnd := endHour a * 60 + endMinute a in
      let bStart := startHour b * 60 + startMinute b in
      let bEnd := endHour b * 60 + endMinute b in
      if (aStart <? bEnd) && (bStart <? aEnd)
      then [{| candidate1 := a; candidate2 := b |}]
      else []
    else []) later.

(** [checkTimeConflicts]: every [i < j], in the order of the two loops. *)
Fixpoint checkTimeConflicts (candidates : list Candidate) : list Conflict :=
  match candidates with
  | [] => []
  | a :: later => conflictsWith a later ++ checkTimeConflicts later
  end.

(** Modelled from the spec: the merged candidate of
    [mergeContinuousCandidates], whose body is not part of the sources.
    "Merged result's range is [min(starts), max(ends)]": the range runs
    from the smaller start to the larger end; the other fields are those
    of [prev]. *)
Definition mergeTwo (prev next : Candidate) : Candidate :=
  let '(sh, sm) :=
    if startMinutes next <? startMinutes prev
    then (startHour next, startMinute next) else (startHour prev, startMinute prev) in
  let '(eh, em) :=
    if endMinutes prev <? endMinutes next
    then (endHour next, endMinute next) else (endHour prev, endMinute prev) in
  {| id := id prev; date := date prev;
     startHour := sh; startMinute := sm; endHour := eh; endMinute := em;
     isFullDay := isFullDay prev; dayOffset := dayOffset prev |}.

(** Modelled from the spec: the merging pass of
    [mergeContinuousCandidates] over the candidates of one date, sorted
    by start time.  "Merge two candidates into one when the next
    candidate's start time <= previous candidate's end time": [current]
    absorbs [next] when [next] starts no later than [current] ends, and
    is emitted otherwise. *)
Fixpoint mergeRun (current : Candidate) (rest : list Candidate) : list Candidate :=
  match rest with
  | [] => [current]
  | next :: rest' =>
      if startMinutes next <=? endMinutes current
      then mergeRun (mergeTwo current next) rest'
      else current :: mergeRun next rest'
  end.

(** Modelled from the spec: the treatment of one date by
    [mergeContinuousCandidates].  "Within a date, sort by start time",
    then merge. *)
Definition mergeGroup (group : list Candidate) : list Candidate :=
  match sort (fun a b => startMinutes b <? startMinutes a) group with
  | [] => []
  | first :: rest => mergeRun first rest
  end.

(** Modelled from the spec: [mergeContinuousCandidates] is called by
    [ScheduleApp] on its text generator, but its body is not part of the
    sources.  The spec (4.3, mergeContiguous): group by calendar date;
    within a date, sort by start time; merge two candidates into one when
    the next candidate's start time is at most the previous candidate's
    end time; the merged range is [min(starts), max(ends)].  The dates
    are taken in the order [groupByDate] yields them, and a merged
    candidate keeps the identity and date of the earliest one. *)
Definition mergeContinuousCandidates (candidates : list Candidate) : list Candidate :=
  flat_map (fun kg => mergeGroup kg.2) (groupByDate candidates).

End LocalTime.

(** [this.weekdays]: the names of the days from Sunday.  The
    constructor sets the array and nothing assigns it again. *)
Definition weekdays : list jsstring :=
  [[26085%N]; [26376%N]; [28779%N]; [27700%N]; [26408%N]; [37329%N]; [22303%N]].

(** [{total, dates, totalDuration, averageDuration, conflicts}], as
    returned by [generateStats]. *)
Record Stats : Type := mkStats {
  total : Z;
  dates : Z;
  totalDuration : Z;
  averageDuration : Z;
  conflicts : Z
}.

Section Formatting.
Variable tza : Z.

(** [formatStandard]: year, month and day with their signs, the name of
    the day in full-width parentheses, a space, and the two times around
    a wave dash. *)
Definition formatStandard (candidate : Candidate) : jsstring :=
  let date := date candidate in
  let year := getFullYear tza date in
  let month := arith Z.add (getMonth tza date) (Some 1) in
  let day := getDate tza date in
  let weekday := index weekdays (getDay tza date) in
  let startTime := formatTime (startHour candidate) (startMinute candidate) false in
  let endTime := formatTime (endHour candidate) (endMinute candidate) false in
  numberToString year ++ [24180%N] ++ numberToString month ++ [26376%N] ++
  numberToString day ++ [26085%N; 65288%N] ++ orUndefined weekday ++ [65289%N; 32%N] ++
  startTime ++ [12316%N] ++ endTime.

(** [formatSimple]. *)
Definition formatSimple (candidate : Candidate) : jsstring :=
  let date := date candidate in
  let month := arith Z.add (getMonth tza date) (Some 1) in
  let day := getDate tza date in
  let weekday := index weekdays (getDay tza date) in
  let startTime := formatTime (startHour candidate) (startMinute candidate) false in
  let endTime := formatTime (endHour candidate) (endMinute candidate) false in
  numberToString month ++ lit "/" ++ numberToString day ++ [65288%N] ++
  orUndefined weekday ++ [65289%N; 32%N] ++ startTime ++ [12316%N] ++ endTime.

(** [formatDetailed]. *)
Definition formatDetailed (candidate : Candidate) : jsstring :=
  let date := date candidate in
  let year := getFullYear tza date in
  let month := padStart 2 48%N (numberToString (arith Z.add (getMonth tza date) (Some 1))) in
  let day := padStart 2 48%N (numberToString (getDate tza date)) in
  let weekday := orUndefined (index weekdays (getDay tza date)) ++ [26332%N; 26085%N] in
  let startTime := formatTime (startHour candidate) (startMinute candidate) true in
  let endTime := formatTime (endHour candidate) (endMinute candidate) true in
  numberToString year ++ [24180%N] ++ month ++ [26376%N] ++
  day ++ [26085%N; 65288%N] ++ weekday ++ [65289%N; 32%N] ++
  startTime ++ [12316%N] ++ endTime.

(** [formatCandidate]: a candidate of the model always is an object
    with a date, so the guard that returns the empty string never
    applies. *)
Definition formatCandidate (candidate : Candidate) (format : jsstring) : jsstring :=
  if decide (format = lit "standard") then formatStandard candidate
  else if decide (format = lit "simple") then formatSimple candidate
  else if decide (format = lit "detailed") then formatDetailed candidate
  else formatStandard candidate.

(** [formatCandidates]. *)
Definition formatCandidates (candidates : list Candidate) (format separator : jsstring)
  : jsstring :=
  if bool_decide (candidates = []) then []
  else
    join separator
      (filter (fun text => (0 < length text)%nat)
              ((fun candidate => formatCandidate candidate format) <$> candidates)).

(** The loop of [formatForEmail]: the entries from number [index + 1]
    on, appended to [result]. *)
Fixpoint emailEntries (currentFormat : jsstring) (index : Z) (candidates : list Candidate)
    (result : jsstring) : jsstring :=
  match candidates with
  | [] => result
  | candidate :: rest =>
      emailEntries currentFormat (index + 1) rest
        (result ++ intToString (index + 1) ++ lit ". " ++
         formatCandidate candidate currentFormat ++ [10%N])
  end.

(** [formatForEmail]: [currentFormat] is [this.currentFormat]. *)
Definition formatForEmail (currentFormat : jsstring) (candidates : list Candidate)
    (includeHeader : bool) : jsstring :=
  if bool_decide (candidates = []) then []
  else
    let sortedCandidates := sortCandidates candidates in
    let result := if includeHeader then [20505%N; 35036%N; 26085%N; 26178%N; 65306%N; 10%N] else [] in
    trim (emailEntries currentFormat 0 sortedCandidates result).

(** [formatForChat]. *)
Definition formatForChat (currentFormat : jsstring) (candidates : list Candidate)
    (bullet : jsstring) : jsstring :=
  if bool_decide (candidates = []) then []
  else
    let sortedCandidates := sortCandidates candidates in
    join [10%N] ((fun candidate => bullet ++ formatCandidate candidate currentFormat)
                   <$> sortedCandidates).

(** [generateStats]: the set of date keys is counted without
    repetitions. *)
Definition generateStats (candidates : list Candidate) : Stats :=
  if bool_decide (candidates = []) then
    {| total := 0; dates := 0; totalDuration := 0; averageDuration := 0; conflicts := 0 |}
  else
    let uniqueDates := remove_dups ((fun c => getDateKey tza (date c)) <$> candidates) in
    let totalDuration :=
      foldl (fun totalDuration candidate =>
               let startMinutes := startHour candidate * 60 + startMinute candidate in
               let endMinutes := endHour candidate * 60 + endMinute candidate in
               totalDuration + (endMinutes - startMinutes)) 0 candidates in
    let conflicts := checkTimeConflicts tza candidates in
    {| total := Z.of_nat (length candidates);
       dates := Z.of_nat (length uniqueDates);
       totalDuration := totalDuration;
       averageDuration := roundDiv totalDuration (Z.of_nat (length candidates));
       conflicts := Z.of_nat (length conflicts) |}.

End Formatting.

#[global] Instance Candidate_eq_dec : EqDecision Candidate.
Proof. solve_decision. Defined.

End TextGenerator.

(* ================================================================== *)
(** * The application (class ScheduleApp) *)
(* ================================================================== *)

Module ScheduleApp.
Import JS JSDate TextGenerator.

(** A cell of the grid under the pointer: [{day, hour, minute}]. *)
Record Cell : Type := mkCell {
  day : Z;
  hour : Z;
  minute : Z
}.

(** The fields of a [ScheduleApp] that the selection logic uses. *)
Record t : Type := mkApp {
  scheduler : Scheduler.t;
  selectedCandidates : list Candidate;
  isSelecting : bool;
  selectionStart : option Cell;
  selectionEnd : option Cell
}.

Section LocalTime.
Variable tza : Z.

(** [weekDates[i]], then [new Date(...)] of it: the Invalid Date when
    the index is outside the array ([new Date(undefined)]). *)
Definition dateAt (weekDates : list Date) (i : Z) : Date :=
  if i <? 0 then InvalidDate
  else match weekDates !! Z.to_nat i with
       | Some d => copy d
       | None => InvalidDate
       end.

(** The object literal built by [addCandidate] for the selection from
    [first] to [last]; [now] is [Date.now()]. *)
Definition newCandidate (app : t) (now : Z) (first last : Cell) : Candidate :=
  let startTime := hour first * 60 + minute first in
  let endTime := hour last * 60 + minute last in
  let minTime := Z.min startTime endTime in
  let maxTime := Z.max startTime endTime in
  let maxTime := if startTime =? endTime then minTime + 15 else maxTime + 15 in
  let weekDates := Scheduler.getWeekDates tza (scheduler app) in
  {| id := now;
     date := dateAt weekDates (day first);
     startHour := minTime / 60;
     startMinute := Z.rem minTime 60;
     endHour := maxTime / 60;
     endMinute := Z.rem maxTime 60;
     isFullDay := false;
     dayOffset := Some (day first) |}.

(** [addCandidate]: the application after the call. *)
Definition addCandidate (app : t) (now : Z) : t :=
  match selectionStart app, selectionEnd app with
  | Some first, Some last =>
      let candidate := newCandidate app now first last in
      {| scheduler := scheduler app;
         selectedCandidates := sortCandidates (selectedCandidates app ++ [candidate]);
         isSelecting := isSelecting app;
         selectionStart := None;
         selectionEnd := None |}
  | _, _ => app
  end.


End LocalTime.

(** A time cell of the grid, as far as the application reads and
    writes it: the three entries of its [dataset] that name its place,
    the classes [hour-boundary], [selecting] and [selected], and
    [dataset.candidateId] ([None] when absent). *)
Record TimeCell : Type := mkTimeCell {
  data_day : jsstring;
  data_hour : jsstring;
  data_minute : jsstring;
  hourBoundary : bool;
  selecting : bool;
  selected : bool;
  candidateId : option jsstring
}.

(** The cell that [renderDaysGrid] creates for [slot] in the column
    [dayOffset]: numbers stored in a [dataset] become strings. *)
Definition renderCell (dayOffset : Z) (slot : Scheduler.TimeSlot) : TimeCell :=
  {| data_day := intToString dayOffset;
     data_hour := intToString (Scheduler.hour slot);
     data_minute := intToString (Scheduler.minute slot);
     hourBoundary := Scheduler.minute slot =? 45;
     selecting := false;
     selected := false;
     candidateId := None |}.

(** [renderDaysGrid]: the seven columns of cells; [fuel] is that of
    [generateTimeSlots]. *)
Definition renderDaysGrid (fuel : nat) (app : t) : option (list (list TimeCell)) :=
  (fun timeSlots : list Scheduler.TimeSlot =>
     (fun dayOffset => renderCell dayOffset <$> timeSlots) <$> seqZ 0 7)
    <$> Scheduler.generateTimeSlots fuel (scheduler app).

(** The loop of [renderTimeColumn]: the rows appended to the time
    column, each with its label or empty ([None]); [skipNext] slots are
    passed over after a labelled row. *)
Fixpoint timeColumnRows (timeSlots : list Scheduler.TimeSlot) (skipNext : Z)
  : list (option jsstring) :=
  match timeSlots with
  | [] => []
  | slot :: rest =>
      if 0 <? skipNext then timeColumnRows rest (skipNext - 1)
      else if Scheduler.isHourMark slot
           then Some (Scheduler.timeString slot) :: timeColumnRows rest 3
           else None :: timeColumnRows rest skipNext
  end.

(** [renderTimeColumn]. *)
Definition renderTimeColumn (fuel : nat) (app : t) : option (list (option jsstring)) :=
  (fun timeSlots : list Scheduler.TimeSlot => timeColumnRows timeSlots 0)
    <$> Scheduler.generateTimeSlots fuel (scheduler app).

(** The three [parseInt] calls by which [startSelection] and
    [updateSelection] read the place of a cell. *)
Definition readCell (cell : TimeCell) : number * number * number :=
  (parseInt (data_day cell), parseInt (data_hour cell), parseInt (data_minute cell)).

(** [isSelectedCell]: the class is present and the identifier is a
    non-empty string. *)
Definition isSelectedCell (cell : TimeCell) : bool :=
  selected cell &&
  match candidateId cell with
  | Some s => negb (bool_decide (s = []))
  | None => false
  end.

(** [findCandidateByCell]: [parseInt(undefined)] is NaN. *)
Definition findCandidateByCell (app : t) (cell : TimeCell) : option Candidate :=
  let candidateId :=
    match candidateId cell with
    | Some s => parseInt s
    | None => NaN
    end in
  List.find (fun candidate => strictEq (Some (id candidate)) candidateId)
            (selectedCandidates app).

(** [removeCandidate]: the application after the call. *)
Definition removeCandidate (app : t) (id' : Z) : t :=
  {| scheduler := scheduler app;
     selectedCandidates := filter (fun c => id c <> id') (selectedCandidates app);
     isSelecting := isSelecting app;
     selectionStart := selectionStart app;
     selectionEnd := selectionEnd app |}.

(** [startSelection] on the cell under the pointer.  The result is
    [None] when a number of the cell's place reads as NaN, a selection
    that the model does not represent. *)
Definition startSelection (app : t) (cell : TimeCell) : option t :=
  if isSelectedCell cell then
    match findCandidateByCell app cell with
    | Some candidate => Some (removeCandidate app (id candidate))
    | None => Some app
    end
  else
    match readCell cell with
    | (Some day', Some hour', Some minute') =>
        Some {| scheduler := scheduler app;
                selectedCandidates := selectedCandidates app;
                isSelecting := true;
                selectionStart := Some (mkCell day' hour' minute');
                selectionEnd := Some (mkCell day' hour' minute') |}
    | _ => None
    end.


(** The time of a cell, in minutes, as the display functions compute
    it. *)
Definition cellTime (cell : TimeCell) : number :=
  arith Z.add (arith Z.mul (parseInt (data_hour cell)) (Some 60)) (parseInt (data_minute cell)).

(** [updateSelectionDisplay], for one cell: the class [selecting] goes,
    and comes back on the cells of the selected day between the two
    ends of the selection. *)
Definition updateSelectionDisplay (app : t) (cell : TimeCell) : TimeCell :=
  let cleared :=
    {| data_day := data_day cell; data_hour := data_hour cell;
       data_minute := data_minute cell; hourBoundary := hourBoundary cell;
       selecting := false; selected := selected cell; candidateId := candidateId cell |} in
  match selectionStart app, selectionEnd app with
  | Some first, Some last =>
      let startTime := hour first * 60 + minute first in
      let endTime := hour last * 60 + minute last in
      let minTime := Z.min startTime endTime in
      let maxTime := Z.max startTime endTime in
      if bool_decide (data_day cell = intToString (day first)) &&
         greaterEq (cellTime cell) (Some minTime) && lessEq (cellTime cell) (Some maxTime)
      then {| data_day := data_day cell; data_hour := data_hour cell;
              data_minute := data_minute cell; hourBoundary := hourBoundary cell;
              selecting := true; selected := selected cell;
              candidateId := candidateId cell |}
      else cleared
  | _, _ => cleared
  end.

(** [markSelectedCells], for one cell: the cells of the candidate's
    column from its start up to, not including, its end are marked and
    carry its identifier. *)
Definition markSelectedCells (candidate : Candidate) (cell : TimeCell) : TimeCell :=
  let startMinutes := startHour candidate * 60 + startMinute candidate in
  let endMinutes := endHour candidate * 60 + endMinute candidate in
  let column :=
    match dayOffset candidate with
    | Some d => intToString d
    | None => lit "undefined"
    end in
  if bool_decide (data_day cell = column) &&
     greaterEq (cellTime cell) (Some startMinutes) && lessThan (cellTime cell) (Some endMinutes)
  then {| data_day := data_day cell; data_hour := data_hour cell;
          data_minute := data_minute cell; hourBoundary := hourBoundary cell;
          selecting := selecting cell; selected := true;
          candidateId := Some (intToString (id candidate)) |}
  else cell.

(** [removeMergedCandidate]: the application after the call.  The
    candidates of the list are distinct objects, so those that
    [includes] finds among the ones to remove are those that satisfy the
    test. *)
Definition removeMergedCandidate (tza : Z) (app : t) (mergedCandidate : Candidate) : t :=
  let startMinutes := startHour mergedCandidate * 60 + startMinute mergedCandidate in
  let endMinutes := endHour mergedCandidate * 60 + endMinute mergedCandidate in
  let dateKey := getDateKey tza (date mergedCandidate) in
  let candidatesToRemove :=
    filter (fun candidate =>
              getDateKey tza (date candidate) = dateKey /\
              startMinutes <= startHour candidate * 60 + startMinute candidate /\
              endHour candidate * 60 + endMinute candidate <= endMinutes)
           (selectedCandidates app) in
  {| scheduler := scheduler app;
     selectedCandidates :=
       filter (fun candidate => candidate ∉ candidatesToRemove) (selectedCandidates app);
     isSelecting := isSelecting app;
     selectionStart := selectionStart app;
     selectionEnd := selectionEnd app |}.

(** [selectFullDay]: [now] is [Date.now()].  The result is [None] when
    [dayIndex] is not an index of the week, so that the date of the
    candidate would be [undefined], which the model does not
    represent. *)
Definition selectFullDay (tza : Z) (app : t) (now : Z) (dayIndex : Z) : option t :=
  let weekDates := Scheduler.getWeekDates tza (scheduler app) in
  match index weekDates (Some dayIndex) with
  | None => None
  | Some selectedDate =>
      let existingCandidate :=
        List.find (fun candidate =>
                     isFullDay candidate &&
                     bool_decide (dayOffset candidate = Some dayIndex) &&
                     bool_decide (getDateKey tza (date candidate) =
                                  getDateKey tza selectedDate))
                  (selectedCandidates app) in
      match existingCandidate with
      | Some existing =>
          Some {| scheduler := scheduler app;
                  selectedCandidates :=
                    filter (fun c => id c <> id existing) (selectedCandidates app);
                  isSelecting := isSelecting app;
                  selectionStart := selectionStart app;
                  selectionEnd := selectionEnd app |}
      | None =>
          let candidate :=
            {| id := now; date := selectedDate;
               startHour := 9; startMinute := 0; endHour := 18; endMinute := 0;
               isFullDay := true; dayOffset := Some dayIndex |} in
          Some {| scheduler := scheduler app;
                  selectedCandidates := selectedCandidates app ++ [candidate];
                  isSelecting := isSelecting app;
                  selectionStart := selectionStart app;
                  selectionEnd := selectionEnd app |}
      end
  end.

End ScheduleApp.

(* ================================================================== *)
(** * The refresh script (class HolidayFetcher) *)
(* ================================================================== *)

Module HolidayFetcher.
Import JS JSDate.
Import HolidayService (HolidayEntry, mkHolidayEntry).

(** Rank of a code unit in the default collation, for the characters of
    an ISO date: the hyphen, then the plus sign, then the digits. *)
Definition collationRank (c : N) : N :=
  if (c =? 45)%N then 0%N
  else if (c =? 43)%N then 1%N
  else if ((48 <=? c) && (c <=? 57))%N then (c - 46)%N
  else (c + 12)%N.

(** [a.localeCompare(b)], as -1, 0 or 1, for strings made of digits,
    hyphens and plus signs, which the default collation compares
    character by character. *)
Fixpoint localeCompare (a b : jsstring) : Z :=
  match a, b with
  | [], [] => 0
  | [], _ :: _ => -1
  | _ :: _, [] => 1
  | x :: a', y :: b' =>
      if (collationRank x <? collationRank y)%N then -1
      else if (collationRank y <? collationRank x)%N then 1
      else localeCompare a' b'
  end.

(** The body of the loop of [parseCSV] for one line: the year, as a
    property key, and the entry to record, or [None] when the line is
    skipped ([continue]). *)
Definition parseLine (tza currentYear : Z) (rawLine : jsstring)
  : completion (option (jsstring * HolidayEntry)) :=
  let line := trim rawLine in
  if bool_decide (line = []) then Normal None
  else
    match split 44%N line with
    | dateStr :: nameStr :: _ =>
        if bool_decide (dateStr = []) || bool_decide (nameStr = []) then Normal None
        else
          match split 47%N (trim dateStr) with
          | [p0; p1; p2] =>
              let year := parseInt p0 in
              let month := parseInt p1 in
              let day := parseInt p2 in
              if lessThan year (Some currentYear) then Normal None
              else
                let dateObj := ofFields tza year (arith Z.sub month (Some 1)) day in
                if strictNe (getFullYear tza dateObj) year ||
                   strictNe (getMonth tza dateObj) (arith Z.sub month (Some 1)) ||
                   strictNe (getDate tza dateObj) day
                then Normal None
                else
                  match toISOString dateObj with
                  | Throw e => Throw e
                  | Normal iso =>
                      let isoDate := first (split 84%N iso) in
                      let holidayName := trim (removeAll 34%N nameStr) in
                      Normal (Some (numberToString year, mkHolidayEntry isoDate holidayName))
                  end
          | _ => Normal None
          end
    | _ => Normal None
    end.

(** [holidays[year].push(entry)], creating the list when the year has
    none yet. *)
Definition pushHoliday (holidays : gmap jsstring (list HolidayEntry))
    (key : jsstring) (entry : HolidayEntry) : gmap jsstring (list HolidayEntry) :=
  match holidays !! key with
  | Some l => <[key := l ++ [entry]]> holidays
  | None => <[key := [entry]]> holidays
  end.

(** The loop of [parseCSV] over the lines after the header. *)
Fixpoint parseLines (tza currentYear : Z) (lines : list jsstring)
    (holidays : gmap jsstring (list HolidayEntry))
  : completion (gmap jsstring (list HolidayEntry)) :=
  match lines with
  | [] => Normal holidays
  | line :: lines' =>
      match parseLine tza currentYear line with
      | Throw e => Throw e
      | Normal None => parseLines tza currentYear lines' holidays
      | Normal (Some (year, entry)) =>
          parseLines tza currentYear lines' (pushHoliday holidays year entry)
      end
  end.

(** [parseCSV]: [currentYear] is [new Date().getFullYear()] at the time
    of the call. *)
Definition parseCSV (tza currentYear : Z) (csvText : jsstring)
  : completion (gmap jsstring (list HolidayEntry)) :=
  let lines := split 10%N csvText in
  match parseLines tza currentYear (tail lines) ∅ with
  | Throw e => Throw e
  | Normal holidays =>
      Normal ((fun l =>
                 sort (fun a b => 0 <? localeCompare (HolidayService.date a) (HolidayService.date b)) l)
                <$> holidays)
  end.

End HolidayFetcher.

(* ================================================================== *)
(** * Vocabulary of the specification *)
(* ================================================================== *)

Module Spec.
Import JS JSDate.

(** The year that [new Date(year, ...)] denotes: a year from 0 to 99
    stands for 1900 + year. *)
Definition constructedYear (y : Z) : Z :=
  if (0 <=? y) && (y <=? 99) then 1900 + y else y.

(** Spec 4.2, nthWeekdayOfMonth: the day of the month of the [n]-th
    [weekday] of a month whose first day falls on [firstDayWeekday]. *)
Definition nthWeekdayDate (firstDayWeekday weekday n : Z) : Z :=
  1 + (weekday - firstDayWeekday + 7) mod 7 + (n - 1) * 7.

(** The weekday of the first day of month [month] (1 = January) of
    [year]. *)
Definition firstDayWeekday (year month : Z) : Z :=
  WeekDay (MakeDay year (month - 1) 1).

(** The ten fixed holidays of the fallback mode, as (month, day). *)
Definition fixedPairs : list (Z * Z) :=
  [(1, 1); (2, 11); (4, 29); (5, 3); (5, 4); (5, 5); (8, 11); (11, 3); (11, 23); (12, 23)].

(** The six holidays known to the scheduler's own check. *)
Definition basicPairs : list (Z * Z) :=
  [(1, 1); (5, 3); (5, 4); (5, 5); (11, 3); (11, 23)].

(** The local calendar date of a [Date]: year, month (0 = January) and
    day of the month, each NaN for the Invalid Date. *)
Definition calendarDate (tza : Z) (d : Date) : number * number * number :=
  (getFullYear tza d, getMonth tza d, getDate tza d).

(** All pairs [(l[i], l[j])] with [i < j], by increasing [i], then [j]. *)
Fixpoint orderedPairs {A} (l : list A) : list (A * A) :=
  match l with
  | [] => []
  | a :: l' => map (pair a) l' ++ orderedPairs l'
  end.

(** Spec 4.3, detectConflicts: same calendar date, and
    [startA < endB] and [endA > startB]. *)
Definition overlapping (tza : Z) (ab : TextGenerator.Candidate * TextGenerator.Candidate) : Prop :=
  calendarDate tza (TextGenerator.date ab.1) = calendarDate tza (TextGenerator.date ab.2) /\
  TextGenerator.startMinutes ab.1 < TextGenerator.endMinutes ab.2 /\
  TextGenerator.endMinutes ab.1 > TextGenerator.startMinutes ab.2.

(** Fallback mode: the state in which the initialization leaves a new
    service when loading the holiday file failed and no holiday data was
    stored, the one state in which the lookup uses the fallback
    holidays. *)
Definition fallbackMode (s : HolidayService.t) : Prop :=
  HolidayService.holidayData s = None /\
  exists r, s = HolidayService._performInitialization HolidayService.constructor r.

#[global] Instance overlapping_dec tza ab : Decision (overlapping tza ab).
Proof. unfold overlapping. apply _. Defined.

(** Two candidates that stay apart: the second starts no earlier than
    the first starts, and after the first ends. *)
Definition separated (a b : TextGenerator.Candidate) : Prop :=
  TextGenerator.startMinutes a <= TextGenerator.startMinutes b /\
  TextGenerator.endMinutes a < TextGenerator.startMinutes b.

(** The groups of a [Map] built by [groupByDate]: distinct keys, no
    empty group, and in each group only candidates of its key. *)
Definition wellGrouped (tza : Z) (groups : list (jsstring * list TextGenerator.Candidate)) : Prop :=
  NoDup groups.*1 /\
  Forall (fun kg => kg.2 <> [] /\
                    Forall (fun c => TextGenerator.getDateKey tza (TextGenerator.date c) = kg.1)
                           kg.2) groups.

(** The step of the loop of [groupByDate]. *)
Definition groupStep (tza : Z) (groups : list (jsstring * list TextGenerator.Candidate))
    (c : TextGenerator.Candidate) : list (jsstring * list TextGenerator.Candidate) :=
  TextGenerator.addToGroup (TextGenerator.getDateKey tza (TextGenerator.date c)) c groups.

(** A candidate of the given date from [sh:sm] to [eh:em]. *)
Definition candidateAt (id : Z) (d : Date) (sh sm eh em : Z) : TextGenerator.Candidate :=
  TextGenerator.mkCandidate id d sh sm eh em false None.

(** A well-formed row of the holiday CSV, read as the year [y], the
    month [m], the day [d] and the name field [nameStr]: after trimming,
    the line has a date field and a name field, both non-empty; the date
    field, trimmed, consists of three parts separated by slashes, which
    [parseInt] reads as [y], [m] and [d]; and [y]-[m]-[d] is a genuine
    calendar date. *)
Definition holidayRow (rawLine : jsstring) (y m d : Z) (nameStr : jsstring) : Prop :=
  exists dateStr others p0 p1 p2,
    split 44%N (trim rawLine) = dateStr :: nameStr :: others /\
    dateStr <> [] /\ nameStr <> [] /\
    split 47%N (trim dateStr) = [p0; p1; p2] /\
    parseInt p0 = Some y /\ parseInt p1 = Some m /\ parseInt p2 = Some d /\
    1 <= m <= 12 /\ 1 <= d <= daysInMonth y m.

(** The entry recorded for a row: the calendar-date part of the ISO
    string of local midnight of the day, and the name without double
    quotes and surrounding white space. *)
Definition rowEntry (tza y m d : Z) (nameStr : jsstring) : HolidayService.HolidayEntry :=
  HolidayService.mkHolidayEntry
    (isoDate (MakeDay y (m - 1) d * msPerDay - tza))
    (trim (removeAll 34%N nameStr)).

(** The entry [e] is in the list that the mapping holds for [key]. *)
Definition recorded (holidays : gmap jsstring (list HolidayService.HolidayEntry))
    (key : jsstring) (e : HolidayService.HolidayEntry) : Prop :=
  exists entries, holidays !! key = Some entries /\ e ∈ entries.

(** Inputs of the worked examples: a holiday file with one entry and
    the service that loaded it; the service after a failed load; local
    time in Japan; an application with a drag from 9:30 back to 9:00. *)
Definition exampleData : HolidayService.HolidayData :=
  HolidayService.mkHolidayData (lit "2025-01-01")
    {[ lit "1970" :=
         Some [HolidayService.mkHolidayEntry (lit "1970-01-01") (lit "New Year")] ]}.

Definition examplePrimary : HolidayService.t :=
  HolidayService._performInitialization HolidayService.constructor
    (HolidayService.Response true
       (Some (HolidayService.lastUpdated exampleData,
              Some (HolidayService.holidays exampleData)))).

Definition exampleFallback : HolidayService.t :=
  HolidayService._performInitialization HolidayService.constructor
    (HolidayService.FetchRejected "TypeError: Failed to fetch").

Definition japanTime : Z := 9 * 3600000.

(** An application whose grid steps by 30 minutes, with a drag from
    9:00 to 10:00. *)
Definition exampleHalfHours : ScheduleApp.t :=
  ScheduleApp.mkApp
    (Scheduler.mkScheduler (TimeValue 0) (Scheduler.mkTimeRange 9 18 30)) [] true
    (Some (ScheduleApp.mkCell 0 9 0)) (Some (ScheduleApp.mkCell 0 10 0)).

Definition exampleDrag : ScheduleApp.t :=
  ScheduleApp.mkApp (Scheduler.constructor (TimeValue 0)) [] true
    (Some (ScheduleApp.mkCell 0 9 30)) (Some (ScheduleApp.mkCell 0 9 0)).

(** The number that a string of decimal digits denotes. *)
Definition valueOf (s : jsstring) : Z :=
  fold_left (fun acc c => acc * 10 + (Z.of_N c - 48)) s 0.

(** A day number read as the decimal number [YYYYMMDD] of its calendar
    date. *)
Definition dateNumber (D : Z) : Z :=
  YearFromDay D * 10000 + (MonthFromDay D + 1) * 100 + DateFromDay D.

(** The date [k] days later, at the same time of day. *)
Definition addDays (k : Z) (d : Date) : Date :=
  match d with
  | TimeValue t => TimeValue (t + k * msPerDay)
  | InvalidDate => InvalidDate
  end.

(** The slot that [generateTimeSlots] pushes for [hour]:[minute]. *)
Definition slotOf (hour minute : Z) : Scheduler.TimeSlot :=
  Scheduler.mkTimeSlot hour minute
    (intToString hour ++ lit ":" ++ padStart 2 48%N (intToString minute)) (minute =? 0).

(** The order of [sortCandidates] on two candidates with valid dates:
    the first date is earlier, or the dates are equal and the first
    start is not later.  An Invalid Date compares as equal to every
    date. *)
Definition earlier (a b : TextGenerator.Candidate) : Prop :=
  match getTime (TextGenerator.date a), getTime (TextGenerator.date b) with
  | Some ta, Some tb =>
      ta < tb \/ (ta = tb /\ TextGenerator.startMinutes a <= TextGenerator.startMinutes b)
  | _, _ => True
  end.

(** The distinct elements of a list, in the order of their first
    occurrences. *)
Fixpoint firstOccurrences `{EqDecision A} (l : list A) : list A :=
  match l with
  | [] => []
  | x :: l' => x :: filter (fun y => y <> x) (firstOccurrences l')
  end.

(** The code units of a printed number: the digits, the minus sign, and
    the letters of [NaN]. *)
Definition numeralChar (c : N) : Prop :=
  (48 <= c <= 57)%N \/ c = 45%N \/ c = 78%N \/ c = 97%N.


(** The place of the cell of [slot] in the column [dayOffset]. *)
Definition placeOf (dayOffset : Z) (slot : Scheduler.TimeSlot) : ScheduleApp.Cell :=
  ScheduleApp.mkCell dayOffset (Scheduler.hour slot) (Scheduler.minute slot).

(** The candidate that [selectFullDay] adds for the date [d] of the
    column [dayIndex]. *)
Definition fullDayCandidate (now : Z) (d : Date) (dayIndex : Z) : TextGenerator.Candidate :=
  TextGenerator.mkCandidate now d 9 0 18 0 true (Some dayIndex).

(** The range of [c] lies within that of [merged], on the same
    calendar date: the test of [removeMergedCandidate]. *)
Definition within (tza : Z) (merged c : TextGenerator.Candidate) : Prop :=
  calendarDate tza (TextGenerator.date c) = calendarDate tza (TextGenerator.date merged) /\
  TextGenerator.startMinutes merged <= TextGenerator.startMinutes c /\
  TextGenerator.endMinutes c <= TextGenerator.endMinutes merged.

#[global] Instance within_dec tza merged c : Decision (within tza merged c).
Proof. unfold within. apply _. Defined.

(** The entries of a numbered list: each text after its number, a full
    stop and a space, the numbers running from [index + 1]. *)
Fixpoint numberedFrom {A} (text : A -> jsstring) (index : Z) (l : list A) : list jsstring :=
  match l with
  | [] => []
  | x :: rest =>
      (intToString (index + 1) ++ lit ". " ++ text x) :: numberedFrom text (index + 1) rest
  end.

(** Further inputs of the worked examples: a holiday file of one row
    after its header, and that row; a candidate, and another one of the
    same day and times with a different identifier and instant; an
    application with one candidate, and a cell marked for it; an
    application with no candidate. *)
Definition exampleRow : jsstring := lit "2025/1/13,Coming of Age Day".

Definition exampleCSV : jsstring := lit "date,name" ++ [10%N] ++ exampleRow.

Definition exampleCandidate : TextGenerator.Candidate :=
  candidateAt 1 (TimeValue 0) 9 0 10 0.

Definition exampleTwin : TextGenerator.Candidate :=
  candidateAt 2 (TimeValue 3600000) 9 0 10 0.

Definition exampleList : ScheduleApp.t :=
  ScheduleApp.mkApp (Scheduler.constructor (TimeValue 0)) [exampleCandidate] false None None.

Definition exampleMarkedCell : ScheduleApp.TimeCell :=
  ScheduleApp.mkTimeCell (lit "0") (lit "9") (lit "0") false false true (Some (lit "1")).

Definition exampleEmpty : ScheduleApp.t :=
  ScheduleApp.mkApp (Scheduler.constructor (TimeValue 0)) [] false None None.

End Spec.

(* ================================================================== *)
(** * Facts about the calendar *)
(* ================================================================== *)

Import JS JSDate.

Ltac z_cases :=
  repeat match goal with
  | |- context [?a <? ?b] => destruct (Z.ltb_spec a b); cbv iota; try lia
  | |- context [?a <=? ?b] => destruct (Z.leb_spec a b); cbv iota; try lia
  | |- context [?a =? ?b] => destruct (Z.eqb_spec a b); cbv iota; try lia
  end.

Ltac twelve_months m :=
  let H := fresh "Hcases" in
  assert (m = 0 \/ m = 1 \/ m = 2 \/ m = 3 \/ m = 4 \/ m = 5 \/ m = 6 \/ m = 7 \/
          m = 8 \/ m = 9 \/ m = 10 \/ m = 11) as H by lia;
  decompose [or] H; clear H; subst m.

Lemma DayFromYear_succ y : DayFromYear (y + 1) = DayFromYear y + DaysInYear y.
Proof.
  unfold DayFromYear, DaysInYear.
  repeat match goal with |- context [?a =? ?b] => destruct (Z.eqb_spec a b) end; simpl;
  Z.div_mod_to_equations; lia.
Qed.

Lemma DaysInYear_cases y : DaysInYear y = 365 \/ DaysInYear y = 366.
Proof.
  unfold DaysInYear.
  repeat match goal with |- context [?a =? ?b] => destruct (Z.eqb_spec a b) end; simpl; auto.
Qed.

Lemma DayFromYear_lt y1 y2 : y1 < y2 -> DayFromYear y1 < DayFromYear y2.
Proof. unfold DayFromYear. intros. Z.div_mod_to_equations. lia. Qed.

(** [YearFromDay] is the year whose days contain [d]. *)
Lemma YearFromDay_spec d :
  DayFromYear (YearFromDay d) <= d < DayFromYear (YearFromDay d + 1).
Proof.
  unfold YearFromDay.
  set (y := 1970 + 400 * d / 146097).
  destruct (Z.ltb_spec d (DayFromYear y)) as [Hlt | Hge].
  - replace (y - 1 + 1) with y by lia. split; [|lia].
    revert Hlt. unfold DayFromYear, y. Z.div_mod_to_equations. lia.
  - destruct (Z.leb_spec (DayFromYear (y + 1)) d) as [Hle | Hgt].
    + split; [lia|]. revert Hle. unfold DayFromYear, y. Z.div_mod_to_equations. lia.
    + lia.
Qed.

Lemma YearFromDay_unique d y :
  DayFromYear y <= d < DayFromYear (y + 1) -> YearFromDay d = y.
Proof.
  intros H. pose proof (YearFromDay_spec d) as Hs.
  destruct (Z.lt_trichotomy (YearFromDay d) y) as [Hlt | [Heq | Hgt]]; [|done|].
  - assert (DayFromYear (YearFromDay d + 1) <= DayFromYear y).
    { destruct (Z.eq_dec (YearFromDay d + 1) y) as [->|]; [lia|].
      apply Z.lt_le_incl, DayFromYear_lt. lia. }
    lia.
  - assert (DayFromYear (y + 1) <= DayFromYear (YearFromDay d)).
    { destruct (Z.eq_dec (y + 1) (YearFromDay d)) as [->|]; [lia|].
      apply Z.lt_le_incl, DayFromYear_lt. lia. }
    lia.
Qed.

Lemma DayWithinYear_range d : 0 <= DayWithinYear d < DaysInYear (YearFromDay d).
Proof.
  unfold DayWithinYear. pose proof (YearFromDay_spec d) as H.
  rewrite DayFromYear_succ in H. lia.
Qed.

Lemma MonthFromDay_range d : 0 <= MonthFromDay d <= 11.
Proof. unfold MonthFromDay. z_cases. Qed.

(** The fields of a day number give that day back. *)
Lemma MakeDay_fields d :
  MakeDay (YearFromDay d) (MonthFromDay d) (DateFromDay d) = d.
Proof.
  pose proof (MonthFromDay_range d) as Hm.
  unfold MakeDay. rewrite Z.div_small, Z.mod_small by lia.
  rewrite Z.add_0_r. unfold DateFromDay, InLeapYear, DayWithinYear. lia.
Qed.

Lemma MakeDay_date y m dt : MakeDay y m dt = MakeDay y m 1 + dt - 1.
Proof. unfold MakeDay. lia. Qed.

(** The day of the month lies within the month. *)
Lemma DateFromDay_range d :
  1 <= DateFromDay d <= daysInMonth (YearFromDay d) (MonthFromDay d + 1).
Proof.
  pose proof (DayWithinYear_range d) as Hr.
  pose proof (DaysInYear_cases (YearFromDay d)) as Hc.
  unfold DateFromDay, daysInMonth, MonthFromDay, InLeapYear.
  generalize dependent (DayWithinYear d). generalize dependent (DaysInYear (YearFromDay d)).
  intros Y Hc w Hr.
  destruct Hc as [-> | ->]; simpl (_ =? _); cbv iota;
    z_cases; unfold monthStart; simpl; lia.
Qed.

Lemma MakeDay_in_year y m dt :
  0 <= m <= 11 -> 1 <= dt <= daysInMonth y (m + 1) ->
  MakeDay y m dt = DayFromYear y + monthStart (if DaysInYear y =? 366 then 1 else 0) m + dt - 1 /\
  monthStart (if DaysInYear y =? 366 then 1 else 0) m <= MakeDay y m dt - DayFromYear y
    < monthStart (if DaysInYear y =? 366 then 1 else 0) (m + 1).
Proof.
  intros Hm Hd. unfold MakeDay, daysInMonth in *.
  rewrite Z.div_small, Z.mod_small, Z.add_0_r by lia.
  replace (m + 1 - 1) with m in Hd by lia. lia.
Qed.

(** A genuine calendar date is recovered from its day number. *)
Lemma fields_MakeDay y m dt :
  0 <= m <= 11 -> 1 <= dt <= daysInMonth y (m + 1) ->
  YearFromDay (MakeDay y m dt) = y /\
  MonthFromDay (MakeDay y m dt) = m /\
  DateFromDay (MakeDay y m dt) = dt.
Proof.
  intros Hm Hd.
  destruct (MakeDay_in_year y m dt Hm Hd) as [Hday Hin].
  pose proof (DaysInYear_cases y) as Hc.
  assert (Hy : YearFromDay (MakeDay y m dt) = y).
  { apply YearFromDay_unique. rewrite DayFromYear_succ.
    clear Hday Hd. revert Hin. generalize (MakeDay y m dt). intros D.
    destruct Hc as [-> | ->]; simpl (_ =? _); cbv iota;
      twelve_months m; unfold monthStart; simpl; lia. }
  assert (Hmonth : MonthFromDay (MakeDay y m dt) = m).
  { unfold MonthFromDay, InLeapYear, DayWithinYear. rewrite Hy.
    clear Hday Hd Hy. revert Hin. generalize (MakeDay y m dt - DayFromYear y). intros w.
    destruct Hc as [-> | ->]; simpl (_ =? _); cbv iota;
      twelve_months m; unfold monthStart; simpl; intros Hin; z_cases. }
  split; [done | split; [done |]].
  unfold DateFromDay, InLeapYear, DayWithinYear. rewrite Hmonth, Hy. lia.
Qed.

Lemma daysInMonth_ge_28 y m : 1 <= m <= 12 -> 28 <= daysInMonth y m <= 31.
Proof.
  intros Hm. unfold daysInMonth.
  destruct (DaysInYear_cases y) as [-> | ->]; simpl (_ =? _); cbv iota;
    assert (m - 1 = 0 \/ m - 1 = 1 \/ m - 1 = 2 \/ m - 1 = 3 \/ m - 1 = 4 \/ m - 1 = 5 \/
            m - 1 = 6 \/ m - 1 = 7 \/ m - 1 = 8 \/ m - 1 = 9 \/ m - 1 = 10 \/ m - 1 = 11)
      as Hcases by lia;
    decompose [or] Hcases; clear Hcases;
    match goal with H : m - 1 = ?k |- _ =>
      assert (m = k + 1) as -> by lia end; vm_compute; split; discriminate.
Qed.

Lemma Day_MakeDate day time :
  0 <= time < msPerDay -> Day (MakeDate day time) = day.
Proof.
  intros H. unfold Day, MakeDate, msPerDay in *.
  Z.div_mod_to_equations. lia.
Qed.

Lemma TimeWithinDay_MakeDate day time :
  0 <= time < msPerDay -> TimeWithinDay (MakeDate day time) = time.
Proof.
  intros H. unfold TimeWithinDay, MakeDate, msPerDay in *.
  Z.div_mod_to_equations. lia.
Qed.

Lemma TimeWithinDay_range t : 0 <= TimeWithinDay t < msPerDay.
Proof. unfold TimeWithinDay, msPerDay. apply Z.mod_pos_bound. lia. Qed.

Lemma MakeDate_Day t : MakeDate (Day t) (TimeWithinDay t) = t.
Proof. unfold MakeDate, Day, TimeWithinDay, msPerDay. Z.div_mod_to_equations. lia. Qed.

Lemma WeekDay_range d : 0 <= WeekDay d <= 6.
Proof. unfold WeekDay. pose proof (Z.mod_pos_bound (d + 4) 7). lia. Qed.

Lemma WeekDay_shift d k : WeekDay (d + 7 * k) = WeekDay d.
Proof.
  unfold WeekDay. replace (d + 7 * k + 4) with (d + 4 + k * 7) by lia.
  apply Z_mod_plus_full.
Qed.

(* ================================================================== *)
(** * Facts about local time *)
(* ================================================================== *)

Section LocalTimeFacts.
Variable tza : Z.

Lemma localDay_shift t k : localDay tza (t + k * msPerDay) = localDay tza t + k.
Proof.
  unfold localDay, LocalTime, Day, msPerDay.
  replace (t + k * 86400000 + tza) with (t + tza + k * 86400000) by lia.
  apply Z.div_add. lia.
Qed.

Lemma LocalTime_shift t k :
  TimeWithinDay (LocalTime tza (t + k * msPerDay)) = TimeWithinDay (LocalTime tza t).
Proof.
  unfold LocalTime, TimeWithinDay, msPerDay.
  replace (t + k * 86400000 + tza) with (t + tza + k * 86400000) by lia.
  apply Z_mod_plus_full.
Qed.

(** [setDate] moves a date by whole days within its local calendar. *)
Lemma setDate_shift t n :
  setDate tza (TimeValue t) (Some n) =
  TimeValue (t + (n - DateFromDay (localDay tza t)) * msPerDay).
Proof.
  unfold setDate, localDay. f_equal.
  set (lt := LocalTime tza t).
  rewrite (MakeDay_date _ _ n), <- (Z.add_0_r (MakeDay _ _ 1)).
  replace (MakeDay (YearFromDay (Day lt)) (MonthFromDay (Day lt)) 1 + 0)
    with (Day lt - DateFromDay (Day lt) + 1).
  2:{ pose proof (MakeDay_fields (Day lt)) as H. rewrite MakeDay_date in H. lia. }
  pose proof (MakeDate_Day lt) as Hlt.
  unfold UTC, MakeDate in *. unfold lt, LocalTime in *. lia.
Qed.

(** [new Date(y, m, d)] is local midnight of day [MakeDay y m d]. *)
Lemma localDay_ofFields y m dt :
  ofFields tza (Some y) (Some m) (Some dt) =
    TimeValue (MakeDay (Spec.constructedYear y) m dt * msPerDay - tza) /\
  localDay tza (MakeDay (Spec.constructedYear y) m dt * msPerDay - tza) =
    MakeDay (Spec.constructedYear y) m dt.
Proof.
  split.
  - unfold ofFields, Spec.constructedYear, UTC, MakeDate. f_equal. lia.
  - unfold localDay, LocalTime.
    replace (MakeDay (Spec.constructedYear y) m dt * msPerDay - tza + tza)
      with (MakeDate (MakeDay (Spec.constructedYear y) m dt) 0)
      by (unfold MakeDate; lia).
    apply Day_MakeDate. unfold msPerDay. lia.
Qed.

Lemma monday_diff dom w :
  0 <= w <= 6 ->
  arith Z.add (arith Z.sub (Some dom) (Some w))
        (if strictEq (Some w) (Some 0) then Some (-6) else Some 1)
  = Some (dom - (w + 6) mod 7).
Proof.
  intros Hw.
  assert (w = 0 \/ w = 1 \/ w = 2 \/ w = 3 \/ w = 4 \/ w = 5 \/ w = 6) as Hc by lia.
  decompose [or] Hc; subst w; cbn; f_equal; Z.div_mod_to_equations; lia.
Qed.

(** [getMonday] goes back [(weekday + 6) mod 7] days. *)
Lemma getMonday_shift t :
  Scheduler.getMonday tza (TimeValue t) =
  TimeValue (t - ((WeekDay (localDay tza t) + 6) mod 7) * msPerDay).
Proof.
  unfold Scheduler.getMonday, copy. cbn [getDay getDate].
  rewrite monday_diff by apply WeekDay_range.
  rewrite setDate_shift. cbn [getTime ofNumber]. f_equal. lia.
Qed.

End LocalTimeFacts.

(* ================================================================== *)
(** * The week of a date (Scheduler.getMonday, Scheduler.getWeekDates) *)
(* ================================================================== *)

Lemma monday_is_monday D : WeekDay (D - (WeekDay D + 6) mod 7) = 1.
Proof. unfold WeekDay. Z.div_mod_to_equations. lia. Qed.

Lemma getWeekDates_shift tza s t :
  Scheduler.getWeekDates tza (Scheduler.setCurrentWeek s (TimeValue t)) =
  (fun i => TimeValue (t + (i - (WeekDay (localDay tza t) + 6) mod 7) * msPerDay))
    <$> seqZ 0 7.
Proof.
  unfold Scheduler.getWeekDates, Scheduler.setCurrentWeek, copy.
  cbn [Scheduler.currentWeek]. rewrite getMonday_shift.
  apply list_fmap_ext. intros _ i _. cbn [getDate arith].
  rewrite setDate_shift. f_equal. lia.
Qed.

(** C4.  For every date, the week computed for it ([setCurrentWeek]
    followed by [getWeekDates]) consists of exactly seven dates, on seven
    consecutive local calendar days; the first is [getMonday] of the
    date, falls on a Monday, and lies [(weekday + 6) mod 7] days before
    the date (weekday 0 being Sunday); the date itself lies within these
    seven days. *)
Theorem week_of_a_date (tza : Z) (s : Scheduler.t) (t : Z) :
  let D := localDay tza t in
  let monday := D - (WeekDay D + 6) mod 7 in
  exists ts : list Z,
    Scheduler.getWeekDates tza (Scheduler.setCurrentWeek s (TimeValue t)) = TimeValue <$> ts /\
    localDay tza <$> ts =
      [monday; monday + 1; monday + 2; monday + 3; monday + 4; monday + 5; monday + 6] /\
    TimeValue <$> head ts = Some (Scheduler.getMonday tza (TimeValue t)) /\
    getDay tza (Scheduler.getMonday tza (TimeValue t)) = Some 1 /\
    monday <= D <= monday + 6.
Proof.
  intros D monday.
  exists ((fun i => t + (i - (WeekDay D + 6) mod 7) * msPerDay) <$> seqZ 0 7).
  split; [| split; [| split; [| split]]].
  - rewrite getWeekDates_shift, <- list_fmap_compose. reflexivity.
  - rewrite <- list_fmap_compose.
    change (seqZ 0 7) with [0; 1; 2; 3; 4; 5; 6]. cbn [fmap list_fmap compose].
    rewrite !localDay_shift. fold D. unfold monday.
    repeat (apply (f_equal2 cons); [lia |]). reflexivity.
  - rewrite getMonday_shift. fold D.
    change (seqZ 0 7) with [0; 1; 2; 3; 4; 5; 6]. cbn [fmap list_fmap head option_fmap option_map].
    do 2 f_equal. lia.
  - rewrite getMonday_shift. cbn [getDay]. f_equal.
    replace (t - (WeekDay (localDay tza t) + 6) mod 7 * msPerDay)
      with (t + (- ((WeekDay (localDay tza t) + 6) mod 7)) * msPerDay) by lia.
    rewrite localDay_shift. apply monday_is_monday.
  - unfold monday. pose proof (Z.mod_pos_bound (WeekDay D + 6) 7). lia.
Qed.

(* ================================================================== *)
(** * Time slots (Scheduler.generateTimeSlots and the slot index) *)
(* ================================================================== *)

(** C5.  With the configuration [{startHour: 9, endHour: 18,
    minuteInterval: 15}] of the constructor, [generateTimeSlots] returns
    (the inner loops ending within five iterations) the slots 9:00,
    9:15, ..., 18:00 in this order: slot [k] lies [15 * k] minutes
    after 9:00, for [k] from 0 to 36, so the last slot is 18:00 and none
    lies beyond it; a slot has [isHourMark = true] exactly when its
    minute is 0, and the hour marks are 9:00, 10:00, ..., 18:00. *)
Theorem generateTimeSlots_default (now : Date) (fuel : nat) :
  (5 <= fuel)%nat ->
  exists slots : list Scheduler.TimeSlot,
    Scheduler.generateTimeSlots fuel (Scheduler.constructor now) = Some slots /\
    (fun sl => Scheduler.hour sl * 60 + Scheduler.minute sl) <$> slots =
      (fun k => 9 * 60 + 15 * k) <$> seqZ 0 37 /\
    Forall (fun sl => 0 <= Scheduler.minute sl < 60 /\
                      (Scheduler.isHourMark sl = true <-> Scheduler.minute sl = 0) /\
                      Scheduler.timeString sl =
                        intToString (Scheduler.hour sl) ++ lit ":" ++
                        padStart 2 48%N (intToString (Scheduler.minute sl))) slots /\
    (fun sl => (Scheduler.hour sl, Scheduler.minute sl)) <$>
      List.filter Scheduler.isHourMark slots = (fun h => (h, 0)) <$> seqZ 9 10.
Proof.
  intros Hfuel.
  do 5 (destruct fuel as [| fuel]; [lia |]). clear Hfuel.
  eexists. split; [vm_compute; reflexivity |].
  split; [vm_compute; reflexivity |].
  split; [| vm_compute; reflexivity].
  repeat (apply List.Forall_cons;
          [cbn [Scheduler.minute Scheduler.isHourMark Scheduler.hour Scheduler.timeString];
           split; [lia | split; [split; intro; first [reflexivity | discriminate | lia]
                                | vm_compute; reflexivity]] |]).
  apply List.Forall_nil.
Qed.

(** The theorem at the fuel 5 and the epoch. *)
Lemma generateTimeSlots_default_witness :
  (5 <= 5)%nat /\
  exists slots : list Scheduler.TimeSlot,
    Scheduler.generateTimeSlots 5 (Scheduler.constructor (TimeValue 0)) = Some slots /\
    (fun sl => Scheduler.hour sl * 60 + Scheduler.minute sl) <$> slots =
      (fun k => 9 * 60 + 15 * k) <$> seqZ 0 37 /\
    Forall (fun sl => 0 <= Scheduler.minute sl < 60 /\
                      (Scheduler.isHourMark sl = true <-> Scheduler.minute sl = 0) /\
                      Scheduler.timeString sl =
                        intToString (Scheduler.hour sl) ++ lit ":" ++
                        padStart 2 48%N (intToString (Scheduler.minute sl))) slots /\
    (fun sl => (Scheduler.hour sl, Scheduler.minute sl)) <$>
      List.filter Scheduler.isHourMark slots = (fun h => (h, 0)) <$> seqZ 9 10.
Proof.
  split; [lia |]. apply (generateTimeSlots_default (TimeValue 0) 5). lia.
Defined.

(** C10.  Under the configuration of the constructor, the slot index
    and the slot time are inverse to each other on the times that
    [isValidTime] accepts, and [getTimeSlotIndex] returns -1 on the times
    that it rejects. *)
Theorem slot_index_roundtrip (now : Date) (hour minute : Z) :
  let s := Scheduler.constructor now in
  (Scheduler.isValidTime s hour minute = true ->
   Scheduler.getTimeSlotFromIndex s (Scheduler.getTimeSlotIndex s hour minute) =
     Scheduler.mkHourMinute hour minute) /\
  (Scheduler.isValidTime s hour minute = false ->
   Scheduler.getTimeSlotIndex s hour minute = -1).
Proof.
  cbv zeta. split; intros Hvalid.
  - unfold Scheduler.getTimeSlotFromIndex, Scheduler.getTimeSlotIndex, Scheduler.minutesToTime.
    rewrite Hvalid. cbn [negb].
    unfold Scheduler.isValidTime in Hvalid.
    cbn [Scheduler.constructor Scheduler.timeRange Scheduler.startHour Scheduler.endHour
         Scheduler.minuteInterval] in *.
    unfold remainder in Hvalid. change (15 =? 0) with false in Hvalid. cbn [strictEq] in Hvalid.
    repeat (apply andb_prop in Hvalid; destruct Hvalid as [Hvalid ?]).
    assert (Hsum : 9 * 60 + (hour * 60 + minute - 9 * 60) / 15 * 15 = hour * 60 + minute).
    { Z.to_euclidean_division_equations. lia. }
    rewrite Hsum. f_equal; Z.to_euclidean_division_equations; lia.
  - unfold Scheduler.getTimeSlotIndex. rewrite Hvalid. reflexivity.
Qed.

(* ================================================================== *)
(** * Facts about strings *)
(* ================================================================== *)

Lemma valueOf_snoc s c : Spec.valueOf (s ++ [c]) = Spec.valueOf s * 10 + (Z.of_N c - 48).
Proof. unfold Spec.valueOf. by rewrite fold_left_app. Qed.

Lemma digitChar_value d : 0 <= d -> Z.of_N (digitChar d) - 48 = d.
Proof. unfold digitChar. lia. Qed.

Lemma valueOf_digitsOf fuel n :
  0 <= n < 10 ^ Z.of_nat fuel -> Spec.valueOf (digitsOf fuel n) = n.
Proof.
  revert n. induction fuel as [| fuel IH]; intros n Hn.
  - change (10 ^ Z.of_nat 0) with 1 in Hn. assert (n = 0) as -> by lia. reflexivity.
  - cbn [digitsOf]. rewrite valueOf_snoc, digitChar_value by (apply Z.mod_pos_bound; lia).
    destruct (Z.ltb_spec n 10).
    + cbn. rewrite Z.mod_small by lia. lia.
    + rewrite IH.
      * Z.div_mod_to_equations. lia.
      * rewrite Nat2Z.inj_succ, Z.pow_succ_r in Hn by lia.
        Z.div_mod_to_equations. lia.
Qed.

Lemma enough_fuel n : 0 <= n -> 0 <= n < 10 ^ Z.of_nat (S (Z.to_nat (Z.log2 n))).
Proof.
  intros Hn. split; [done |].
  rewrite Nat2Z.inj_succ, Z2Nat.id by apply Z.log2_nonneg.
  destruct (Z.eq_dec n 0) as [-> | Hne]; [reflexivity |].
  pose proof (Z.log2_spec n ltac:(lia)) as [_ Hlt].
  eapply Z.lt_le_trans; [exact Hlt |].
  apply Z.pow_le_mono_l. lia.
Qed.

Lemma digitsOf_chars fuel n : Forall (fun c => (48 <= c <= 57)%N) (digitsOf fuel n).
Proof.
  revert n. induction fuel as [| fuel IH]; intros n; cbn [digitsOf]; [constructor |].
  apply Forall_app. split.
  - destruct (n <? 10); [constructor | apply IH].
  - constructor; [| constructor]. unfold digitChar.
    pose proof (Z.mod_pos_bound n 10 ltac:(lia)). lia.
Qed.

Lemma digitsOf_not_nil fuel n : digitsOf (S fuel) n <> [].
Proof. cbn [digitsOf]. intros H. by apply app_eq_nil in H as [_ [=]]. Qed.

Lemma valueOf_intDigits n :
  0 <= n -> Spec.valueOf (digitsOf (S (Z.to_nat (Z.log2 n))) n) = n.
Proof. intros Hn. apply valueOf_digitsOf, enough_fuel, Hn. Qed.

(** Distinct integers print differently. *)
Lemma intToString_inj z1 z2 : intToString z1 = intToString z2 -> z1 = z2.
Proof.
  unfold intToString.
  destruct (Z.ltb_spec z1 0) as [H1 | H1], (Z.ltb_spec z2 0) as [H2 | H2]; intros H.
  - apply (f_equal (@tail N)) in H. cbn [tail] in H.
    pose proof (valueOf_intDigits (- z1) ltac:(lia)) as V1.
    pose proof (valueOf_intDigits (- z2) ltac:(lia)) as V2.
    rewrite H in V1. lia.
  - exfalso. pose proof (digitsOf_chars (S (Z.to_nat (Z.log2 z2))) z2) as Hc.
    rewrite <- H in Hc. apply Forall_cons in Hc as [Hc _]. lia.
  - exfalso. pose proof (digitsOf_chars (S (Z.to_nat (Z.log2 z1))) z1) as Hc.
    rewrite H in Hc. apply Forall_cons in Hc as [Hc _]. lia.
  - pose proof (valueOf_intDigits z1 ltac:(lia)) as V1.
    pose proof (valueOf_intDigits z2 ltac:(lia)) as V2.
    rewrite H in V1. lia.
Qed.

(** The characters of a printed integer: digits and the minus sign. *)
Lemma intToString_chars z : Forall (fun c => (48 <= c <= 57)%N \/ c = 45%N) (intToString z).
Proof.
  unfold intToString. destruct (z <? 0).
  - constructor; [by right |].
    eapply Forall_impl; [apply digitsOf_chars |]. cbv beta. intros; lia.
  - eapply Forall_impl; [apply digitsOf_chars |]. cbv beta. intros; lia.
Qed.

(** A check over a rectangle of integers, settled by evaluation. *)
Lemma check_rectangle (P : Z -> Z -> bool) (a n b k : Z) :
  forallb (fun m => forallb (P m) (seqZ b k)) (seqZ a n) = true ->
  forall m d, a <= m < a + n -> b <= d < b + k -> P m d = true.
Proof.
  intros H m d Hm Hd.
  rewrite forallb_forall in H. specialize (H m).
  rewrite <- list_elem_of_In, elem_of_seqZ in H. specialize (H Hm).
  rewrite forallb_forall in H. apply H.
  rewrite <- list_elem_of_In, elem_of_seqZ. exact Hd.
Qed.

(** The key [`${month}-${day}`] of a month and a day. *)
Lemma monthDayKey_fixed m d :
  1 <= m <= 12 -> 1 <= d <= 31 ->
  numberToString (Some m) ++ lit "-" ++ numberToString (Some d) ∈
    [lit "1-1"; lit "2-11"; lit "4-29"; lit "5-3"; lit "5-4"; lit "5-5";
     lit "8-11"; lit "11-3"; lit "11-23"; lit "12-23"]
  <-> (m, d) ∈ Spec.fixedPairs.
Proof.
  intros Hm Hd.
  pose proof (check_rectangle
    (fun m d => Bool.eqb
       (bool_decide (numberToString (Some m) ++ lit "-" ++ numberToString (Some d) ∈
          [lit "1-1"; lit "2-11"; lit "4-29"; lit "5-3"; lit "5-4"; lit "5-5";
           lit "8-11"; lit "11-3"; lit "11-23"; lit "12-23"]))
       (bool_decide ((m, d) ∈ Spec.fixedPairs))) 1 12 1 31 eq_refl m d) as H.
  cbv beta in H. apply eqb_prop in H; [| lia | lia].
  rewrite <- (bool_decide_eq_true (_ ∈ Spec.fixedPairs)), <- H.
  symmetry. apply bool_decide_eq_true.
Qed.

Lemma monthDayKey_basic m d :
  1 <= m <= 12 -> 1 <= d <= 31 ->
  numberToString (Some m) ++ lit "-" ++ numberToString (Some d) ∈
    [lit "1-1"; lit "5-3"; lit "5-4"; lit "5-5"; lit "11-3"; lit "11-23"]
  <-> (m, d) ∈ Spec.basicPairs.
Proof.
  intros Hm Hd.
  pose proof (check_rectangle
    (fun m d => Bool.eqb
       (bool_decide (numberToString (Some m) ++ lit "-" ++ numberToString (Some d) ∈
          [lit "1-1"; lit "5-3"; lit "5-4"; lit "5-5"; lit "11-3"; lit "11-23"]))
       (bool_decide ((m, d) ∈ Spec.basicPairs))) 1 12 1 31 eq_refl m d) as H.
  cbv beta in H. apply eqb_prop in H; [| lia | lia].
  rewrite <- (bool_decide_eq_true (_ ∈ Spec.basicPairs)), <- H.
  symmetry. apply bool_decide_eq_true.
Qed.

Lemma month_day_range D :
  1 <= MonthFromDay D + 1 <= 12 /\ 1 <= DateFromDay D <= 31.
Proof.
  pose proof (MonthFromDay_range D).
  pose proof (DateFromDay_range D).
  pose proof (daysInMonth_ge_28 (YearFromDay D) (MonthFromDay D + 1)).
  lia.
Qed.

(** The local month and day of a valid date, as JavaScript sees them. *)
Lemma local_month_day tza t :
  1 <= MonthFromDay (localDay tza t) + 1 <= 12 /\
  1 <= DateFromDay (localDay tza t) <= 31.
Proof. apply month_day_range. Qed.

Lemma split_first sep s1 s2 :
  Forall (fun c => c <> sep) s1 ->
  split sep (s1 ++ sep :: s2) = s1 :: split sep s2.
Proof.
  induction 1 as [| c s1 Hc _ IH]; cbn [app split].
  - by rewrite N.eqb_refl.
  - rewrite IH. by destruct (N.eqb_spec c sep).
Qed.

Lemma padStart_chars (P : N -> Prop) n c s :
  P c -> Forall P s -> Forall P (padStart n c s).
Proof.
  intros Hc Hs. unfold padStart. apply Forall_app. split; [| done].
  by apply Forall_replicate.
Qed.

(** The calendar-date part of an ISO string holds digits, hyphens and at
    most a plus sign. *)
Lemma isoDate_chars t :
  Forall (fun c => (48 <= c <= 57)%N \/ c = 45%N \/ c = 43%N) (isoDate t).
Proof.
  assert (Hint : forall z, Forall (fun c => (48 <= c <= 57)%N \/ c = 45%N \/ c = 43%N)
                             (intToString z)).
  { intros z. eapply Forall_impl; [apply intToString_chars |]. cbv beta. intros; lia. }
  assert (Hsep : Forall (fun c => (48 <= c <= 57)%N \/ c = 45%N \/ c = 43%N) (lit "-")).
  { change (lit "-") with [45%N]. constructor; [lia | constructor]. }
  unfold isoDate, isoYear.
  repeat (apply Forall_app_2); try assumption; try apply Hint;
    try (apply Forall_replicate; lia).
  destruct (_ && _).
  - apply padStart_chars; [lia | apply Hint].
  - constructor; [destruct (_ <? _); lia |]. apply padStart_chars; [lia | apply Hint].
Qed.

(** [toISOString().split('T')[0]] is the calendar-date part. *)
Lemma toISOString_date t :
  exists iso, toISOString (TimeValue t) = Normal iso /\ first (split 84%N iso) = isoDate t.
Proof.
  eexists. split; [reflexivity |].
  change (lit "T" ++ isoTime t) with (84%N :: isoTime t).
  rewrite split_first; [reflexivity |].
  eapply Forall_impl; [apply isoDate_chars |]. cbv beta. intros; lia.
Qed.

(* ================================================================== *)
(** * The holiday lookup before and after initialization *)
(* ================================================================== *)

(** The scheduler's own check knows six fixed holidays. *)
Lemma fallbackHolidayCheck_spec tza d :
  Scheduler._fallbackHolidayCheck tza d = true <->
  exists t, d = TimeValue t /\
    (MonthFromDay (localDay tza t) + 1, DateFromDay (localDay tza t)) ∈ Spec.basicPairs.
Proof.
  unfold Scheduler._fallbackHolidayCheck. rewrite bool_decide_eq_true.
  destruct d as [t |]; cbn [getMonth getDate arith].
  - destruct (local_month_day tza t) as [Hm Hd].
    rewrite monthDayKey_basic by assumption.
    split; [intros H; exists t; by split | intros (t' & [= <-] & H); exact H].
  - split; [| by intros (t & [=] & _)].
    intros H. exfalso. revert H. vm_compute. intros H.
    repeat (apply elem_of_cons in H as [[=] | H]). by apply elem_of_nil in H.
Qed.

(** C2, as the claim states it, fails for the scheduler's [isHoliday]:
    before initialization it answers [true] on 1 January 1970. *)
Lemma isHoliday_before_initialization_counterexample :
  HolidayService.isInitialized HolidayService.constructor = false /\
  Scheduler.isHoliday 0 (Some HolidayService.constructor) (TimeValue 0) =
    (Normal true, [ConsoleWarn "⚠️ HolidayService が未初期化、基本祝日のみで判定"]).
Proof. split; reflexivity. Qed.

(** C2, amended.  Before the initialization of the holiday service has
    completed, for every date (the Invalid Date included):
    [HolidayService.isHoliday] returns [false] and logs a warning;
    [Scheduler.isHoliday] logs a warning and returns the answer of its
    own basic check, which is [true] exactly on 1/1, 5/3, 5/4, 5/5, 11/3
    and 11/23; neither throws. *)
Theorem isHoliday_before_initialization (tza : Z) (service : HolidayService.t) (d : Date) :
  HolidayService.isInitialized service = false ->
  HolidayService.isHoliday tza service d =
    (Normal false, [ConsoleWarn "⚠️ HolidayService が初期化されていません"]) /\
  exists b : bool,
    Scheduler.isHoliday tza (Some service) d =
      (Normal b, [ConsoleWarn "⚠️ HolidayService が未初期化、基本祝日のみで判定"]) /\
    (b = true <->
     exists t, d = TimeValue t /\
       (MonthFromDay (localDay tza t) + 1, DateFromDay (localDay tza t)) ∈ Spec.basicPairs).
Proof.
  intros Hinit. split.
  - unfold HolidayService.isHoliday. by rewrite Hinit.
  - exists (Scheduler._fallbackHolidayCheck tza d). split.
    + unfold Scheduler.isHoliday. by rewrite Hinit.
    + apply fallbackHolidayCheck_spec.
Qed.

(** The theorem at the service just constructed and 3 May 2025. *)
Lemma isHoliday_before_initialization_witness :
  HolidayService.isInitialized HolidayService.constructor = false /\
  HolidayService.isHoliday 0 HolidayService.constructor (TimeValue 1746230400000) =
    (Normal false, [ConsoleWarn "⚠️ HolidayService が初期化されていません"]) /\
  exists b : bool,
    Scheduler.isHoliday 0 (Some HolidayService.constructor) (TimeValue 1746230400000) =
      (Normal b, [ConsoleWarn "⚠️ HolidayService が未初期化、基本祝日のみで判定"]) /\
    (b = true <->
     exists t, TimeValue 1746230400000 = TimeValue t /\
       (MonthFromDay (localDay 0 t) + 1, DateFromDay (localDay 0 t)) ∈ Spec.basicPairs).
Proof.
  split; [reflexivity |].
  apply (isHoliday_before_initialization 0 HolidayService.constructor
           (TimeValue 1746230400000)).
  reflexivity.
Defined.

(** C3.  In primary mode (the service is initialized and holds the
    holiday mapping), for every date [isHoliday] looks up the local year
    of the date, written in decimal; it returns [false] when the mapping
    has no entry for it (the year is absent or [null]), and otherwise
    returns [true] exactly when the calendar-date part [YYYY-MM-DD] of
    the date's ISO string (its UTC date) is the [date] of an entry of
    that year's list.  Nothing is logged. *)
Theorem isHoliday_primary (tza : Z) (service : HolidayService.t)
    (data : HolidayService.HolidayData) (t : Z) :
  HolidayService.isInitialized service = true ->
  HolidayService.holidayData service = Some data ->
  exists b : bool,
    HolidayService.isHoliday tza service (TimeValue t) = (Normal b, []) /\
    match HolidayService.holidays data !! intToString (YearFromDay (localDay tza t)) with
    | None | Some None => b = false
    | Some (Some entries) =>
        b = true <-> exists h, h ∈ entries /\ HolidayService.date h = isoDate t
    end.
Proof.
  intros Hinit Hdata.
  unfold HolidayService.isHoliday. rewrite Hinit, Hdata. cbn [negb].
  unfold HolidayService._isHolidayFromJSON.
  destruct (toISOString_date t) as (iso & -> & ->).
  cbn [getFullYear numberToString].
  destruct (HolidayService.holidays data !! _) as [[entries |] |]; [| by eexists |].
  - eexists. split; [reflexivity |].
    rewrite existsb_exists. split.
    + intros (h & Hin & Hh). exists h. split; [by apply list_elem_of_In |].
      by apply bool_decide_eq_true in Hh.
    + intros (h & Hin & Hh). exists h. split; [by apply list_elem_of_In |].
      by apply bool_decide_eq_true.
  - by eexists.
Qed.

(** The theorem for the mapping [{"1970": [{date: "1970-01-01", ...}]}]
    loaded by the initialization, at the epoch. *)
Lemma isHoliday_primary_witness :
  HolidayService.isInitialized Spec.examplePrimary = true /\
  HolidayService.holidayData Spec.examplePrimary = Some Spec.exampleData /\
  exists b : bool,
    HolidayService.isHoliday 0 Spec.examplePrimary (TimeValue 0) = (Normal b, []) /\
    match HolidayService.holidays Spec.exampleData
            !! intToString (YearFromDay (localDay 0 0)) with
    | None | Some None => b = false
    | Some (Some entries) =>
        b = true <-> exists h, h ∈ entries /\ HolidayService.date h = isoDate 0
    end.
Proof.
  split; [reflexivity |]. split; [reflexivity |].
  apply (isHoliday_primary 0 Spec.examplePrimary Spec.exampleData 0); reflexivity.
Defined.

(* ================================================================== *)
(** * The fallback holidays (HolidayService._isHolidayFromFallback) *)
(* ================================================================== *)

Lemma nthWeekdayDate_range fw weekday n :
  1 <= n <= 4 -> 1 <= Spec.nthWeekdayDate fw weekday n <= 28.
Proof.
  intros Hn. unfold Spec.nthWeekdayDate.
  pose proof (Z.mod_pos_bound (weekday - fw + 7) 7). lia.
Qed.

(** The day of the month of local midnight of a day within a month. *)
Lemma getDate_midnight tza y m k :
  0 <= m <= 11 -> 1 <= k <= 28 ->
  getDate tza (TimeValue (MakeDay y m k * msPerDay - tza)) = Some k.
Proof.
  intros Hm Hk. cbn [getDate]. f_equal.
  assert (Hloc : localDay tza (MakeDay y m k * msPerDay - tza) = MakeDay y m k).
  { unfold localDay, LocalTime.
    replace (MakeDay y m k * msPerDay - tza + tza) with (MakeDate (MakeDay y m k) 0)
      by (unfold MakeDate; lia).
    apply Day_MakeDate. unfold msPerDay. lia. }
  rewrite Hloc. apply fields_MakeDay; [lia |].
  pose proof (daysInMonth_ge_28 y (m + 1)). lia.
Qed.

(** [_getNthWeekdayOfMonth] is local midnight of the day of the month
    that the specification computes, in the year that the [Date]
    constructor makes of [year]. *)
Lemma getNthWeekdayOfMonth_value tza y month weekday n :
  0 <= weekday <= 6 ->
  HolidayService._getNthWeekdayOfMonth tza (Some y) month weekday n =
  TimeValue (MakeDay (Spec.constructedYear y) (month - 1)
               (Spec.nthWeekdayDate (Spec.firstDayWeekday (Spec.constructedYear y) month)
                                    weekday n) * msPerDay - tza).
Proof.
  intros Hw. unfold HolidayService._getNthWeekdayOfMonth.
  destruct (localDay_ofFields tza y (month - 1) 1) as [-> Hloc].
  cbn [getDay]. rewrite Hloc. fold (Spec.firstDayWeekday (Spec.constructedYear y) month).
  pose proof (WeekDay_range (MakeDay (Spec.constructedYear y) (month - 1) 1)) as Hfw.
  fold (Spec.firstDayWeekday (Spec.constructedYear y) month) in Hfw.
  cbn [mbind option_bind]. unfold remainder. change (7 =? 0) with false. cbv iota.
  rewrite Z.rem_mod_nonneg by lia. cbn [arith].
  destruct (localDay_ofFields tza y (month - 1)
              (1 + (weekday - Spec.firstDayWeekday (Spec.constructedYear y) month + 7) mod 7
               + (n - 1) * 7)) as [-> _].
  reflexivity.
Qed.

Lemma getDate_nthWeekday tza y month weekday n :
  1 <= month <= 12 -> 0 <= weekday <= 6 -> 1 <= n <= 4 ->
  getDate tza (HolidayService._getNthWeekdayOfMonth tza (Some y) month weekday n) =
  Some (Spec.nthWeekdayDate (Spec.firstDayWeekday (Spec.constructedYear y) month) weekday n).
Proof.
  intros Hm Hw Hn. rewrite getNthWeekdayOfMonth_value by assumption.
  apply getDate_midnight; [lia | by apply nthWeekdayDate_range].
Qed.

(** The second Monday of January, as the code reaches it: seven days
    after the first. *)
Lemma getDate_second_monday tza y :
  let firstMonday := HolidayService._getNthWeekdayOfMonth tza (Some y) 1 1 1 in
  getDate tza (setDate tza (copy firstMonday) (arith Z.add (getDate tza firstMonday) (Some 7))) =
  Some (Spec.nthWeekdayDate (Spec.firstDayWeekday (Spec.constructedYear y) 1) 1 2).
Proof.
  cbv zeta. rewrite getDate_nthWeekday by lia.
  rewrite getNthWeekdayOfMonth_value by lia. unfold copy. cbn [arith].
  set (Y := Spec.constructedYear y).
  set (k := Spec.nthWeekdayDate (Spec.firstDayWeekday Y 1) 1 1).
  assert (Hk : 1 <= k <= 7).
  { unfold k, Spec.nthWeekdayDate.
    pose proof (Z.mod_pos_bound (1 - Spec.firstDayWeekday Y 1 + 7) 7). lia. }
  rewrite setDate_shift.
  pose proof (getDate_midnight tza Y 0 k ltac:(lia) ltac:(lia)) as Hd.
  cbn [getDate] in Hd. injection Hd as Hd. change (1 - 1) with 0. rewrite Hd.
  replace (MakeDay Y 0 k * msPerDay - tza + (k + 7 - k) * msPerDay)
    with (MakeDay Y 0 (k + 7) * msPerDay - tza)
    by (rewrite (MakeDay_date Y 0 (k + 7)), (MakeDay_date Y 0 k); lia).
  rewrite getDate_midnight by lia. f_equal.
  unfold k, Spec.nthWeekdayDate. lia.
Qed.

(** In a year that the [Date] constructor does not reinterpret, the
    computed n-th Monday is the Monday among the days [7 (n - 1) + 1] to
    [7 n] of the month, that is, the n-th Monday of the month. *)
Lemma nthMonday_is_nth D n :
  WeekDay D = 1 /\
  DateFromDay D =
    Spec.nthWeekdayDate (Spec.firstDayWeekday (YearFromDay D) (MonthFromDay D + 1)) 1 n
  <-> WeekDay D = 1 /\ 7 * (n - 1) < DateFromDay D <= 7 * n.
Proof.
  unfold Spec.firstDayWeekday, Spec.nthWeekdayDate.
  replace (MonthFromDay D + 1 - 1) with (MonthFromDay D) by lia.
  pose proof (MakeDay_fields D) as HF. rewrite MakeDay_date in HF.
  replace (MakeDay (YearFromDay D) (MonthFromDay D) 1) with (D - DateFromDay D + 1) by lia.
  generalize (DateFromDay D). intros day. unfold WeekDay.
  Z.div_mod_to_equations. lia.
Qed.

Lemma if_true_orb (c d : bool) : (if c then true else d) = c || d.
Proof. by destruct c. Qed.

(** C7.  In fallback mode, for every date, [isHoliday] returns [true]
    exactly when the local (month, day) of the date is one of the ten
    fixed pairs, or the date falls on a Monday and its day of the month
    is that of the computed 2nd Monday of January, 3rd Monday of July,
    3rd Monday of September or 2nd Monday of October; the n-th Monday is
    computed as [1 + (1 - firstDayWeekday + 7) mod 7 + (n - 1) * 7] from
    the weekday of the first day of the month, in the year that the
    [Date] constructor makes of the date's year; when that is the date's
    own year (any year outside 0 to 99), a Monday is the computed n-th
    Monday of its month exactly when its day of the month lies between
    [7 (n - 1) + 1] and [7 n].  It returns [true] for 21 July 2025 and
    [false] for 14 July 2025. *)
Theorem isHoliday_fallback (tza : Z) (service : HolidayService.t) (t : Z) :
  Spec.fallbackMode service ->
  let D := localDay tza t in
  let month := MonthFromDay D + 1 in
  let day := DateFromDay D in
  let nthMonday m n :=
    Spec.nthWeekdayDate (Spec.firstDayWeekday (Spec.constructedYear (YearFromDay D)) m) 1 n in
  (exists b : bool,
     HolidayService.isHoliday tza service (TimeValue t) = (Normal b, []) /\
     (b = true <->
      (month, day) ∈ Spec.fixedPairs \/
      (WeekDay D = 1 /\
       ((month = 1 /\ day = nthMonday 1 2) \/ (month = 7 /\ day = nthMonday 7 3) \/
        (month = 9 /\ day = nthMonday 9 3) \/ (month = 10 /\ day = nthMonday 10 2))))) /\
  (Spec.constructedYear (YearFromDay D) = YearFromDay D ->
   forall n, WeekDay D = 1 /\ day = nthMonday month n <->
             WeekDay D = 1 /\ 7 * (n - 1) < day <= 7 * n) /\
  HolidayService.isHoliday tza service (ofFields tza (Some 2025) (Some 6) (Some 21)) =
    (Normal true, []) /\
  HolidayService.isHoliday tza service (ofFields tza (Some 2025) (Some 6) (Some 14)) =
    (Normal false, []).
Proof.
  intros (Hnone & r & ->).
  assert (Hstate :
    HolidayService._performInitialization HolidayService.constructor r =
    HolidayService.mkService None
      (HolidayService.fallbackHolidays
         (HolidayService._initializeFallbackHolidays HolidayService.constructor)) true).
  { revert Hnone. unfold HolidayService._performInitialization, HolidayService._loadHolidayJSON.
    destruct r as [reason | [] [[updated [hs |]] |]]; try reflexivity.
    destruct (HolidayService.totalHolidays hs); discriminate. }
  clear Hnone.
  assert (Hgen : forall t',
    let D := localDay tza t' in
    let month := MonthFromDay D + 1 in
    let day := DateFromDay D in
    let nthMonday m n :=
      Spec.nthWeekdayDate (Spec.firstDayWeekday (Spec.constructedYear (YearFromDay D)) m) 1 n in
    exists b : bool,
      HolidayService.isHoliday tza
        (HolidayService._performInitialization HolidayService.constructor r)
        (TimeValue t') = (Normal b, []) /\
      (b = true <->
       (month, day) ∈ Spec.fixedPairs \/
       (WeekDay D = 1 /\
        ((month = 1 /\ day = nthMonday 1 2) \/ (month = 7 /\ day = nthMonday 7 3) \/
         (month = 9 /\ day = nthMonday 9 3) \/ (month = 10 /\ day = nthMonday 10 2))))).
  { intros t' D month day nthMonday.
    unfold HolidayService.isHoliday. rewrite Hstate.
    cbn [HolidayService.isInitialized HolidayService.holidayData
      HolidayService.fallbackHolidays HolidayService._initializeFallbackHolidays
      HolidayService.constructor negb].
    eexists. split; [reflexivity |].
    unfold HolidayService._isHolidayFromFallback.
    cbn [getMonth getDate getFullYear getDay arith HolidayService.fixedHolidays].
    rewrite getDate_second_monday, !getDate_nthWeekday by lia.
    fold D. fold month. fold day. cbn [strictEq].
    destruct (local_month_day tza t') as [Hm Hd]. fold D in Hm, Hd. fold month in Hm.
    fold day in Hd.
    destruct (bool_decide_reflect
      (numberToString (Some month) ++ lit "-" ++ numberToString (Some day) ∈
         [lit "1-1"; lit "2-11"; lit "4-29"; lit "5-3"; lit "5-4"; lit "5-5";
          lit "8-11"; lit "11-3"; lit "11-23"; lit "12-23"])) as [Hin | Hnin];
      rewrite monthDayKey_fixed in * by assumption.
    - split; [by left | done].
    - unfold nthMonday.
      rewrite !if_true_orb, orb_false_r, !orb_true_iff, !andb_true_iff, !Z.eqb_eq.
      tauto. }
  split; [apply Hgen |].
  split.
  { intros Hyear n. cbv zeta. rewrite Hyear. apply nthMonday_is_nth. }
  split.
  - destruct (localDay_ofFields tza 2025 6 21) as [-> Hloc].
    destruct (Hgen (MakeDay (Spec.constructedYear 2025) 6 21 * msPerDay - tza))
      as (b & -> & Hb).
    f_equal. f_equal. apply Hb. right. rewrite Hloc. vm_compute. tauto.
  - destruct (localDay_ofFields tza 2025 6 14) as [-> Hloc].
    destruct (Hgen (MakeDay (Spec.constructedYear 2025) 6 14 * msPerDay - tza))
      as (b & -> & Hb).
    f_equal. f_equal. destruct b; [| reflexivity]. exfalso.
    destruct Hb as [Hb _]. specialize (Hb eq_refl). revert Hb. rewrite Hloc.
    vm_compute. intros [Hb | Hb].
    + repeat (apply elem_of_cons in Hb as [[=] | Hb]). by apply elem_of_nil in Hb.
    + intuition discriminate.
Qed.

(** The theorem after a failed fetch, in Japan, on 21 July 2025. *)
Lemma isHoliday_fallback_witness :
  Spec.fallbackMode Spec.exampleFallback /\
  let D := localDay Spec.japanTime 1753023600000 in
  let month := MonthFromDay D + 1 in
  let day := DateFromDay D in
  let nthMonday m n :=
    Spec.nthWeekdayDate (Spec.firstDayWeekday (Spec.constructedYear (YearFromDay D)) m) 1 n in
  (exists b : bool,
     HolidayService.isHoliday Spec.japanTime Spec.exampleFallback (TimeValue 1753023600000) =
       (Normal b, []) /\
     (b = true <->
      (month, day) ∈ Spec.fixedPairs \/
      (WeekDay D = 1 /\
       ((month = 1 /\ day = nthMonday 1 2) \/ (month = 7 /\ day = nthMonday 7 3) \/
        (month = 9 /\ day = nthMonday 9 3) \/ (month = 10 /\ day = nthMonday 10 2))))) /\
  (Spec.constructedYear (YearFromDay D) = YearFromDay D ->
   forall n, WeekDay D = 1 /\ day = nthMonday month n <->
             WeekDay D = 1 /\ 7 * (n - 1) < day <= 7 * n) /\
  HolidayService.isHoliday Spec.japanTime Spec.exampleFallback
    (ofFields Spec.japanTime (Some 2025) (Some 6) (Some 21)) = (Normal true, []) /\
  HolidayService.isHoliday Spec.japanTime Spec.exampleFallback
    (ofFields Spec.japanTime (Some 2025) (Some 6) (Some 14)) = (Normal false, []).
Proof.
  assert (Hmode : Spec.fallbackMode Spec.exampleFallback).
  { split; [reflexivity |].
    by exists (HolidayService.FetchRejected "TypeError: Failed to fetch"). }
  split; [exact Hmode |].
  exact (isHoliday_fallback Spec.japanTime Spec.exampleFallback 1753023600000 Hmode).
Defined.

(* ================================================================== *)
(** * Date keys and conflicts (TextGenerator) *)
(* ================================================================== *)

Lemma check_range (P : Z -> bool) (a n : Z) :
  forallb P (seqZ a n) = true -> forall m, a <= m < a + n -> P m = true.
Proof.
  intros H m Hm. rewrite forallb_forall in H. apply H.
  rewrite <- list_elem_of_In, elem_of_seqZ. exact Hm.
Qed.

Lemma pad2_length k :
  1 <= k <= 31 -> length (padStart 2 48%N (intToString k)) = 2%nat.
Proof.
  intros Hk.
  pose proof (check_range
    (fun k => bool_decide (length (padStart 2 48%N (intToString k)) = 2%nat))
    1 31 eq_refl k ltac:(lia)) as H.
  by apply bool_decide_eq_true in H.
Qed.

Lemma pad2_inj k1 k2 :
  1 <= k1 <= 31 -> 1 <= k2 <= 31 ->
  padStart 2 48%N (intToString k1) = padStart 2 48%N (intToString k2) -> k1 = k2.
Proof.
  intros H1 H2 Heq.
  pose proof (check_rectangle
    (fun a b => implb
       (bool_decide (padStart 2 48%N (intToString a) = padStart 2 48%N (intToString b)))
       (a =? b)) 1 31 1 31 eq_refl k1 k2 ltac:(lia) ltac:(lia)) as H.
  cbv beta in H. rewrite bool_decide_eq_true_2 in H by exact Heq.
  by apply Z.eqb_eq in H.
Qed.

(** Two dates have the same key exactly when they have the same local
    calendar date. *)
Lemma getDateKey_inj tza d1 d2 :
  TextGenerator.getDateKey tza d1 = TextGenerator.getDateKey tza d2 <->
  Spec.calendarDate tza d1 = Spec.calendarDate tza d2.
Proof.
  assert (Hvalid : forall t, Forall (fun c => (48 <= c <= 57)%N \/ c = 45%N)
                               (TextGenerator.getDateKey tza (TimeValue t))).
  { intros t. unfold TextGenerator.getDateKey.
    cbn [getFullYear getMonth getDate arith numberToString].
    change (lit "-") with [45%N].
    repeat (apply Forall_app_2 || apply Forall_cons_2); try apply intToString_chars;
      try (apply Forall_replicate; lia); try lia; try apply Forall_nil_2; by right. }
  assert (Hinvalid : ~ Forall (fun c => (48 <= c <= 57)%N \/ c = 45%N)
                        (TextGenerator.getDateKey tza InvalidDate)).
  { change (TextGenerator.getDateKey tza InvalidDate)
      with (78%N :: lit "aN-NaN-NaN").
    intros H. apply Forall_cons in H as [H _]. lia. }
  unfold Spec.calendarDate.
  destruct d1 as [t1 |], d2 as [t2 |]; cbn [getFullYear getMonth getDate].
  - unfold TextGenerator.getDateKey.
    cbn [getFullYear getMonth getDate arith numberToString].
    destruct (local_month_day tza t1) as [Hm1 Hd1].
    destruct (local_month_day tza t2) as [Hm2 Hd2].
    split.
    + intros H.
      apply app_inj_2 in H as [Hy H];
        [| rewrite !length_app, !pad2_length by lia; reflexivity].
      apply app_inj_1 in H as [_ H]; [| reflexivity].
      apply app_inj_1 in H as [Hm H]; [| rewrite !pad2_length by lia; reflexivity].
      apply app_inj_1 in H as [_ H]; [| reflexivity].
      apply intToString_inj in Hy. apply pad2_inj in Hm; [| lia | lia].
      apply pad2_inj in H; [| lia | lia].
      rewrite Hy, H.
      replace (MonthFromDay (localDay tza t1)) with (MonthFromDay (localDay tza t2)) by lia.
      reflexivity.
    + intros [= -> Hm ->]. by rewrite Hm.
  - split; [| discriminate]. intros H. exfalso. apply Hinvalid. rewrite <- H. apply Hvalid.
  - split; [| discriminate]. intros H. exfalso. apply Hinvalid. rewrite H. apply Hvalid.
  - done.
Qed.

Lemma orderedPairs_lookup {A} (l : list A) a b :
  (a, b) ∈ Spec.orderedPairs l <->
  exists i j, (i < j)%nat /\ l !! i = Some a /\ l !! j = Some b.
Proof.
  induction l as [| x l IH]; cbn [Spec.orderedPairs].
  - split; [intros H; by apply elem_of_nil in H | intros (i & j & _ & H & _); done].
  - rewrite elem_of_app, list_elem_of_fmap, IH. split.
    + intros [(b' & [= -> ->] & Hb) | (i & j & Hij & Hi & Hj)].
      * apply list_elem_of_lookup in Hb as [k Hk]. exists 0%nat, (S k). split; [lia | done].
      * exists (S i), (S j). split; [lia | done].
    + intros (i & j & Hij & Hi & Hj). destruct j as [| j]; [lia |].
      destruct i as [| i].
      * left. injection Hi as ->. exists b. split; [done |].
        apply list_elem_of_lookup. by exists j.
      * right. exists i, j. split; [lia | done].
Qed.

Lemma conflictsWith_filter tza a later :
  TextGenerator.conflictsWith tza a later =
  (fun ab => TextGenerator.mkConflict ab.1 ab.2) <$>
    filter (Spec.overlapping tza) (pair a <$> later).
Proof.
  unfold TextGenerator.conflictsWith.
  induction later as [| b later IH]; [reflexivity |].
  cbn [flat_map fmap list_fmap]. rewrite IH, filter_cons. clear IH.
  destruct (decide (Spec.overlapping tza (a, b))) as [Hov | Hnov].
  - destruct Hov as (Hdate & H1 & H2). cbn [fst snd] in *.
    apply getDateKey_inj in Hdate.
    destruct (decide _) as [_ | Hne]; [| done].
    unfold TextGenerator.startMinutes, TextGenerator.endMinutes in *.
    destruct (Z.ltb_spec (TextGenerator.startHour a * 60 + TextGenerator.startMinute a)
                         (TextGenerator.endHour b * 60 + TextGenerator.endMinute b)); [| lia].
    destruct (Z.ltb_spec (TextGenerator.startHour b * 60 + TextGenerator.startMinute b)
                         (TextGenerator.endHour a * 60 + TextGenerator.endMinute a)); [| lia].
    reflexivity.
  - destruct (decide _) as [Hkey | _]; [| reflexivity].
    apply getDateKey_inj in Hkey.
    destruct (Z.ltb_spec (TextGenerator.startHour a * 60 + TextGenerator.startMinute a)
                         (TextGenerator.endHour b * 60 + TextGenerator.endMinute b));
      [| reflexivity].
    destruct (Z.ltb_spec (TextGenerator.startHour b * 60 + TextGenerator.startMinute b)
                         (TextGenerator.endHour a * 60 + TextGenerator.endMinute a));
      [| reflexivity].
    exfalso. apply Hnov. unfold Spec.overlapping, TextGenerator.startMinutes,
      TextGenerator.endMinutes. cbn [fst snd]. split; [done | lia].
Qed.

Lemma checkTimeConflicts_filter tza candidates :
  TextGenerator.checkTimeConflicts tza candidates =
  (fun ab => TextGenerator.mkConflict ab.1 ab.2) <$>
    filter (Spec.overlapping tza) (Spec.orderedPairs candidates).
Proof.
  induction candidates as [| a later IH]; [reflexivity |].
  cbn [TextGenerator.checkTimeConflicts Spec.orderedPairs].
  by rewrite filter_app, fmap_app, conflictsWith_filter, IH.
Qed.

(** C8.  For every list of candidates, [checkTimeConflicts] reports the
    pairs of positions [i < j], in the order of its two loops, whose
    candidates fall on the same local calendar date and strictly overlap
    ([startA < endB] and [endA > startB]), each such pair once and no
    other pair.  On one date, 09:00-10:00 and 09:30-10:30 give exactly
    one conflict, and the touching ranges 09:00-10:00 and 10:00-11:00
    give none. *)
Theorem checkTimeConflicts_spec (tza : Z) (candidates : list TextGenerator.Candidate) :
  TextGenerator.checkTimeConflicts tza candidates =
    (fun ab => TextGenerator.mkConflict ab.1 ab.2) <$>
      filter (Spec.overlapping tza) (Spec.orderedPairs candidates) /\
  (forall a b,
     TextGenerator.mkConflict a b ∈ TextGenerator.checkTimeConflicts tza candidates <->
     (exists i j, (i < j)%nat /\ candidates !! i = Some a /\ candidates !! j = Some b) /\
     Spec.calendarDate tza (TextGenerator.date a) = Spec.calendarDate tza (TextGenerator.date b) /\
     TextGenerator.startMinutes a < TextGenerator.endMinutes b /\
     TextGenerator.endMinutes a > TextGenerator.startMinutes b) /\
  (forall id1 id2 d,
     TextGenerator.checkTimeConflicts tza
       [Spec.candidateAt id1 d 9 0 10 0; Spec.candidateAt id2 d 9 30 10 30] =
     [TextGenerator.mkConflict (Spec.candidateAt id1 d 9 0 10 0)
                               (Spec.candidateAt id2 d 9 30 10 30)]) /\
  (forall id1 id2 d,
     TextGenerator.checkTimeConflicts tza
       [Spec.candidateAt id1 d 9 0 10 0; Spec.candidateAt id2 d 10 0 11 0] = []).
Proof.
  split; [apply checkTimeConflicts_filter |]. split; [| split].
  - intros a b. rewrite checkTimeConflicts_filter, list_elem_of_fmap. split.
    + intros ([a' b'] & [= -> ->] & Hin). cbn [fst snd] in Hin.
      apply list_elem_of_filter in Hin as [Hov Hin].
      apply orderedPairs_lookup in Hin. split; [exact Hin | exact Hov].
    + intros [Hin Hov]. exists (a, b). split; [reflexivity |].
      apply list_elem_of_filter. split; [exact Hov | by apply orderedPairs_lookup].
  - intros id1 id2 d. cbn [TextGenerator.checkTimeConflicts TextGenerator.conflictsWith flat_map
      Spec.candidateAt TextGenerator.date].
    destruct (decide _) as [_ | Hne]; [reflexivity | done].
  - intros id1 id2 d. cbn [TextGenerator.checkTimeConflicts TextGenerator.conflictsWith flat_map
      Spec.candidateAt TextGenerator.date].
    destruct (decide _) as [_ | Hne]; [reflexivity | done].
Qed.

(* ================================================================== *)
(** * Sorting *)
(* ================================================================== *)

Lemma insertSorted_perm {A} (gt : A -> A -> bool) x l : insertSorted gt x l ≡ₚ x :: l.
Proof.
  induction l as [| y l IH]; cbn [insertSorted]; [done |].
  destruct (gt x y); [| done]. rewrite IH. apply Permutation_swap.
Qed.

(** [sort] rearranges the array. *)
Lemma sort_perm {A} (gt : A -> A -> bool) l : sort gt l ≡ₚ l.
Proof.
  unfold sort. induction l as [| x l IH]; cbn [foldr]; [done |].
  by rewrite insertSorted_perm, IH.
Qed.

(** An array in which no element compares greater than its successor is
    left unchanged. *)
Lemma sort_sorted {A} (gt : A -> A -> bool) l :
  Sorted (fun a b => gt a b = false) l -> sort gt l = l.
Proof.
  unfold sort. induction 1 as [| x l Hs IH Hhd]; cbn [foldr]; [done |].
  rewrite IH. destruct Hhd as [| y l' Hxy]; cbn [insertSorted]; [done |].
  by rewrite Hxy.
Qed.

Lemma insertSorted_sorted {A} (gt : A -> A -> bool) x l :
  (forall a b, gt a b = true -> gt b a = false) ->
  Sorted (fun a b => gt a b = false) l ->
  Sorted (fun a b => gt a b = false) (insertSorted gt x l).
Proof.
  intros Hasym. induction 1 as [| y l Hs IH Hhd]; cbn [insertSorted].
  - repeat constructor.
  - destruct (gt x y) eqn:Hxy.
    + constructor; [exact IH |].
      destruct Hhd as [| z l' Hyz]; cbn [insertSorted].
      * constructor. by apply Hasym.
      * destruct (gt x z); constructor; [done | by apply Hasym].
    + constructor; [by constructor | by constructor].
Qed.

Lemma Sorted_weaken {A} (R R' : A -> A -> Prop) l :
  (forall a b, R a b -> R' a b) -> Sorted R l -> Sorted R' l.
Proof.
  intros HR. induction 1 as [| x l Hs IH Hhd]; constructor; [exact IH |].
  destruct Hhd; constructor. by apply HR.
Qed.

(** For a comparator that never ranks two elements both ways, the sorted
    array has no element that compares greater than its successor. *)
Lemma sort_is_sorted {A} (gt : A -> A -> bool) l :
  (forall a b, gt a b = true -> gt b a = false) ->
  Sorted (fun a b => gt a b = false) (sort gt l).
Proof.
  intros Hasym. unfold sort. induction l as [| x l IH]; cbn [foldr]; [constructor |].
  by apply insertSorted_sorted.
Qed.

(* ================================================================== *)
(** * Adding a candidate (ScheduleApp.addCandidate) *)
(* ================================================================== *)

(** C6, as the claim states it, fails when the configured interval is
    not 15: with [minuteInterval = 30] and a drag from 9:00 to 10:00 the
    candidate ends at 10:15, not at 10:30. *)
Lemma addCandidate_interval_counterexample :
  exists c,
    ScheduleApp.selectedCandidates (ScheduleApp.addCandidate 0 Spec.exampleHalfHours 1) = [c] /\
    TextGenerator.startMinutes c = Z.min (9 * 60 + 0) (10 * 60 + 0) /\
    TextGenerator.endMinutes c = 10 * 60 + 15 /\
    Scheduler.minuteInterval
      (Scheduler.timeRange (ScheduleApp.scheduler Spec.exampleHalfHours)) = 30 /\
    TextGenerator.endMinutes c <>
      Z.max (9 * 60 + 0) (10 * 60 + 0) +
      Scheduler.minuteInterval (Scheduler.timeRange (ScheduleApp.scheduler Spec.exampleHalfHours)).
Proof. eexists. repeat split. vm_compute. discriminate. Qed.

(** C6, amended.  For every drag selection whose endpoints lie at the
    minutes of the day [s] and [e] (not negative), [addCandidate] adds,
    to the sorted list of candidates, one candidate whose start time is
    [min(s, e)] and whose end time is [max(s, e) + 15] minutes, whatever
    the configured interval is; this is one interval step when the
    interval is 15, as the constructor sets it.  The selection is
    cleared. *)
Theorem addCandidate_range (tza : Z) (app : ScheduleApp.t) (now : Z)
    (first last : ScheduleApp.Cell) :
  ScheduleApp.selectionStart app = Some first ->
  ScheduleApp.selectionEnd app = Some last ->
  let s := ScheduleApp.hour first * 60 + ScheduleApp.minute first in
  let e := ScheduleApp.hour last * 60 + ScheduleApp.minute last in
  0 <= s -> 0 <= e ->
  let app' := ScheduleApp.addCandidate tza app now in
  exists c : TextGenerator.Candidate,
    ScheduleApp.selectedCandidates app' =
      TextGenerator.sortCandidates (ScheduleApp.selectedCandidates app ++ [c]) /\
    ScheduleApp.selectedCandidates app' ≡ₚ c :: ScheduleApp.selectedCandidates app /\
    TextGenerator.id c = now /\
    TextGenerator.startMinutes c = Z.min s e /\
    TextGenerator.endMinutes c = Z.max s e + 15 /\
    (Scheduler.minuteInterval (Scheduler.timeRange (ScheduleApp.scheduler app)) = 15 ->
     TextGenerator.endMinutes c =
       Z.max s e + Scheduler.minuteInterval (Scheduler.timeRange (ScheduleApp.scheduler app))) /\
    ScheduleApp.selectionStart app' = None /\ ScheduleApp.selectionEnd app' = None.
Proof.
  intros Hfirst Hlast s e Hs He app'.
  exists (ScheduleApp.newCandidate tza app now first last).
  unfold app', ScheduleApp.addCandidate. rewrite Hfirst, Hlast.
  cbn [ScheduleApp.selectedCandidates ScheduleApp.selectionStart ScheduleApp.selectionEnd].
  assert (Hstart : TextGenerator.startMinutes (ScheduleApp.newCandidate tza app now first last)
                   = Z.min s e).
  { unfold TextGenerator.startMinutes, ScheduleApp.newCandidate.
    cbn [TextGenerator.startHour TextGenerator.startMinute]. fold s. fold e.
    Z.to_euclidean_division_equations. lia. }
  assert (Hend : TextGenerator.endMinutes (ScheduleApp.newCandidate tza app now first last)
                 = Z.max s e + 15).
  { unfold TextGenerator.endMinutes, ScheduleApp.newCandidate.
    cbn [TextGenerator.endHour TextGenerator.endMinute]. fold s. fold e.
    destruct (Z.eqb_spec s e); Z.to_euclidean_division_equations; lia. }
  split; [reflexivity |].
  split.
  { unfold TextGenerator.sortCandidates. rewrite sort_perm.
    by rewrite Permutation_app_comm. }
  split; [reflexivity |]. split; [exact Hstart |]. split; [exact Hend |].
  split; [intros ->; exact Hend |]. split; reflexivity.
Qed.

(** The theorem for a drag from 9:30 back to 9:00 on the first day. *)
Lemma addCandidate_range_witness :
  ScheduleApp.selectionStart Spec.exampleDrag = Some (ScheduleApp.mkCell 0 9 30) /\
  ScheduleApp.selectionEnd Spec.exampleDrag = Some (ScheduleApp.mkCell 0 9 0) /\
  0 <= 9 * 60 + 30 /\ 0 <= 9 * 60 + 0 /\
  exists c : TextGenerator.Candidate,
    ScheduleApp.selectedCandidates (ScheduleApp.addCandidate 0 Spec.exampleDrag 1) =
      TextGenerator.sortCandidates (ScheduleApp.selectedCandidates Spec.exampleDrag ++ [c]) /\
    ScheduleApp.selectedCandidates (ScheduleApp.addCandidate 0 Spec.exampleDrag 1) ≡ₚ
      c :: ScheduleApp.selectedCandidates Spec.exampleDrag /\
    TextGenerator.id c = 1 /\
    TextGenerator.startMinutes c = Z.min (9 * 60 + 30) (9 * 60 + 0) /\
    TextGenerator.endMinutes c = Z.max (9 * 60 + 30) (9 * 60 + 0) + 15 /\
    (Scheduler.minuteInterval (Scheduler.timeRange (ScheduleApp.scheduler Spec.exampleDrag)) = 15 ->
     TextGenerator.endMinutes c =
       Z.max (9 * 60 + 30) (9 * 60 + 0) +
       Scheduler.minuteInterval (Scheduler.timeRange (ScheduleApp.scheduler Spec.exampleDrag))) /\
    ScheduleApp.selectionStart (ScheduleApp.addCandidate 0 Spec.exampleDrag 1) = None /\
    ScheduleApp.selectionEnd (ScheduleApp.addCandidate 0 Spec.exampleDrag 1) = None.
Proof.
  split; [reflexivity |]. split; [reflexivity |]. split; [lia |]. split; [lia |].
  apply (addCandidate_range 0 Spec.exampleDrag 1
           (ScheduleApp.mkCell 0 9 30) (ScheduleApp.mkCell 0 9 0));
    [reflexivity | reflexivity | vm_compute; discriminate | vm_compute; discriminate].
Defined.

(* ================================================================== *)
(** * Merging contiguous candidates (TextGenerator.mergeContinuousCandidates) *)
(* ================================================================== *)

Lemma mergeTwo_range prev next :
  TextGenerator.startMinutes (TextGenerator.mergeTwo prev next) =
    Z.min (TextGenerator.startMinutes prev) (TextGenerator.startMinutes next) /\
  TextGenerator.endMinutes (TextGenerator.mergeTwo prev next) =
    Z.max (TextGenerator.endMinutes prev) (TextGenerator.endMinutes next) /\
  TextGenerator.date (TextGenerator.mergeTwo prev next) = TextGenerator.date prev /\
  TextGenerator.id (TextGenerator.mergeTwo prev next) = TextGenerator.id prev.
Proof.
  unfold TextGenerator.mergeTwo.
  destruct (Z.ltb_spec (TextGenerator.startMinutes next) (TextGenerator.startMinutes prev));
  destruct (Z.ltb_spec (TextGenerator.endMinutes prev) (TextGenerator.endMinutes next));
    unfold TextGenerator.startMinutes, TextGenerator.endMinutes in *;
    cbn [TextGenerator.startHour TextGenerator.startMinute TextGenerator.endHour
         TextGenerator.endMinute TextGenerator.date TextGenerator.id];
    repeat split; lia.
Qed.

(** The merging pass yields candidates that stay apart, the first of
    which starts where the pass started. *)
Lemma mergeRun_separated current rest :
  Sorted (fun a b => TextGenerator.startMinutes a <= TextGenerator.startMinutes b)
         (current :: rest) ->
  Sorted Spec.separated (TextGenerator.mergeRun current rest) /\
  exists first others,
    TextGenerator.mergeRun current rest = first :: others /\
    TextGenerator.startMinutes first = TextGenerator.startMinutes current /\
    TextGenerator.endMinutes current <= TextGenerator.endMinutes first.
Proof.
  revert current. induction rest as [| next rest IH]; intros current Hs;
    cbn [TextGenerator.mergeRun].
  - split; [repeat constructor |]. exists current, []. split; [done | lia].
  - apply Sorted_inv in Hs as [Hs Hhd]. apply HdRel_inv in Hhd.
    destruct (mergeTwo_range current next) as (Hmin & Hmax & _).
    destruct (Z.leb_spec (TextGenerator.startMinutes next) (TextGenerator.endMinutes current))
      as [Hle | Hgt].
    + destruct (IH (TextGenerator.mergeTwo current next)) as [Hsep (f & o & Heq & Hf1 & Hf2)].
      { apply Sorted_inv in Hs as [Hs Hhd']. constructor; [exact Hs |].
        destruct Hhd' as [| z l' Hz]; constructor. lia. }
      split; [exact Hsep |]. exists f, o. split; [exact Heq | lia].
    + destruct (IH next Hs) as [Hsep (f & o & Heq & Hf1 & Hf2)].
      split.
      * constructor; [exact Hsep |]. rewrite Heq. constructor. unfold Spec.separated. lia.
      * exists current, (TextGenerator.mergeRun next rest). split; [done | lia].
Qed.

(** Candidates that stay apart are left as they are by the pass. *)
Lemma mergeRun_fixed current rest :
  Sorted Spec.separated (current :: rest) ->
  TextGenerator.mergeRun current rest = current :: rest.
Proof.
  revert current. induction rest as [| next rest IH]; intros current Hs;
    cbn [TextGenerator.mergeRun]; [done |].
  apply Sorted_inv in Hs as [Hs Hhd]. apply HdRel_inv in Hhd as [_ Hgap].
  destruct (Z.leb_spec (TextGenerator.startMinutes next) (TextGenerator.endMinutes current));
    [lia |].
  by rewrite IH.
Qed.

Lemma sort_by_start_sorted group :
  Sorted (fun a b => TextGenerator.startMinutes a <= TextGenerator.startMinutes b)
    (sort (fun a b => TextGenerator.startMinutes b <? TextGenerator.startMinutes a) group).
Proof.
  eapply Sorted_weaken; [| apply sort_is_sorted].
  - cbv beta. intros a b H. apply Z.ltb_ge in H. exact H.
  - cbv beta. intros a b H. apply Z.ltb_lt in H. apply Z.ltb_ge. lia.
Qed.

Lemma mergeGroup_separated group : Sorted Spec.separated (TextGenerator.mergeGroup group).
Proof.
  unfold TextGenerator.mergeGroup. pose proof (sort_by_start_sorted group) as Hs.
  destruct (sort _ group) as [| first rest]; [constructor |].
  by apply mergeRun_separated.
Qed.

(** One date: merging what is merged changes nothing. *)
Lemma mergeGroup_fixed group :
  Sorted Spec.separated group -> TextGenerator.mergeGroup group = group.
Proof.
  intros Hs. unfold TextGenerator.mergeGroup. rewrite sort_sorted.
  - destruct group as [| first rest]; [done |]. by apply mergeRun_fixed.
  - eapply Sorted_weaken; [| exact Hs]. cbv beta. intros a b [H _]. apply Z.ltb_ge. exact H.
Qed.

Lemma mergeGroup_idempotent group :
  TextGenerator.mergeGroup (TextGenerator.mergeGroup group) = TextGenerator.mergeGroup group.
Proof. apply mergeGroup_fixed, mergeGroup_separated. Qed.

Section Grouping.
Variable tza : Z.

#[local] Abbreviation key c := (TextGenerator.getDateKey tza (TextGenerator.date c)).
#[local] Abbreviation step := (Spec.groupStep tza).

Lemma addToGroup_keys k c groups :
  (TextGenerator.addToGroup k c groups).*1 =
  if decide (k ∈ groups.*1) then groups.*1 else groups.*1 ++ [k].
Proof.
  induction groups as [| [k' g] groups IH]; cbn [TextGenerator.addToGroup].
  - rewrite decide_False; [done | apply not_elem_of_nil].
  - destruct (decide (k' = k)) as [-> | Hne]; rewrite !fmap_cons; cbn [fst].
    + rewrite decide_True; [done | left].
    + rewrite IH. destruct (decide (k ∈ groups.*1)) as [Hin | Hnin].
      * rewrite decide_True; [done | by right].
      * rewrite decide_False; [done |].
        intros H. apply elem_of_cons in H as [-> | H]; done.
Qed.

Lemma addToGroup_wellGrouped c groups :
  Spec.wellGrouped tza groups -> Spec.wellGrouped tza (step groups c).
Proof.
  unfold Spec.wellGrouped, Spec.groupStep. intros [Hnd Hall]. split.
  - rewrite addToGroup_keys. destruct (decide _) as [_ | Hnin]; [done |].
    apply NoDup_app. split; [done |]. split; [| apply NoDup_singleton].
    intros x Hx Hx'. apply list_elem_of_singleton in Hx' as ->. done.
  - clear Hnd. induction Hall as [| [k' g] groups [Hne Hg] Hrest IH];
      cbn [TextGenerator.addToGroup].
    + repeat constructor; done.
    + cbn [fst snd] in *. destruct (decide (k' = key c)) as [-> | Hneq].
      * constructor; [| exact Hrest]. cbn [fst snd]. split.
        -- intros H. by apply app_eq_nil in H as [_ [=]].
        -- apply Forall_app. split; [done |]. by constructor.
      * constructor; [by split | exact IH].
Qed.

(** The groups of [groupByDate] are well formed. *)
Lemma groupByDate_wellGrouped candidates :
  Spec.wellGrouped tza (TextGenerator.groupByDate tza candidates).
Proof.
  unfold TextGenerator.groupByDate.
  assert (H : forall acc, Spec.wellGrouped tza acc ->
                          Spec.wellGrouped tza (foldl step acc candidates)).
  { induction candidates as [| c l IH]; intros acc Hacc; cbn [foldl]; [done |].
    apply IH. by apply addToGroup_wellGrouped. }
  apply (H []). split; [constructor | constructor].
Qed.

Lemma addToGroup_new k c acc :
  k ∉ acc.*1 -> TextGenerator.addToGroup k c acc = acc ++ [(k, [c])].
Proof.
  induction acc as [| [k' g] acc IH]; cbn [TextGenerator.addToGroup fmap list_fmap fst app];
    intros Hk; [done |].
  destruct (decide (k' = k)) as [-> | _].
  - exfalso. apply Hk. left.
  - rewrite IH; [done |]. intros H. apply Hk. by right.
Qed.

Lemma addToGroup_found k c acc g rest :
  k ∉ acc.*1 ->
  TextGenerator.addToGroup k c (acc ++ (k, g) :: rest) = acc ++ (k, g ++ [c]) :: rest.
Proof.
  induction acc as [| [k' g'] acc IH]; cbn [TextGenerator.addToGroup fmap list_fmap fst app];
    intros Hk.
  - destruct (decide (k = k)); done.
  - destruct (decide (k' = k)) as [-> | _].
    + exfalso. apply Hk. left.
    + rewrite IH; [done |]. intros H. apply Hk. by right.
Qed.

Lemma foldl_same_key acc k g g' rest :
  k ∉ acc.*1 -> Forall (fun c => key c = k) g' ->
  foldl step (acc ++ (k, g) :: rest) g' = acc ++ (k, g ++ g') :: rest.
Proof.
  intros Hk Hg'. revert g. induction Hg' as [| c g' Hc _ IH]; intros g; cbn [foldl].
  - by rewrite app_nil_r.
  - unfold Spec.groupStep at 2. rewrite Hc, addToGroup_found by done.
    rewrite IH. by rewrite <- app_assoc.
Qed.

(** Grouping the concatenation of well-formed groups gives them back. *)
Lemma groupByDate_blocks acc groups :
  Spec.wellGrouped tza (acc ++ groups) ->
  foldl step acc (flat_map snd groups) = acc ++ groups.
Proof.
  revert acc. induction groups as [| [k g] groups IH]; intros acc Hw; cbn [flat_map snd].
  - by rewrite app_nil_r.
  - rewrite foldl_app.
    destruct Hw as [Hnd Hall].
    assert (Hk : k ∉ acc.*1).
    { rewrite fmap_app in Hnd. apply NoDup_app in Hnd as (_ & Hdisj & _).
      intros Hin. apply (Hdisj k Hin). cbn. left. }
    pose proof Hall as Hall0.
    apply Forall_app in Hall as [_ Hall'].
    apply Forall_cons in Hall' as [[Hne Hg] _]. cbn [fst snd] in Hne, Hg.
    destruct g as [| c g]; [done |]. cbn [foldl].
    apply Forall_cons in Hg as [Hc Hg].
    unfold Spec.groupStep at 3. rewrite Hc, addToGroup_new by done.
    rewrite foldl_same_key by done. cbn [app].
    rewrite (IH (acc ++ [(k, c :: g)])).
    + by rewrite <- app_assoc.
    + rewrite <- app_assoc. split; [exact Hnd | exact Hall0].
Qed.

End Grouping.

Lemma mergeRun_keys tza k current rest :
  TextGenerator.getDateKey tza (TextGenerator.date current) = k ->
  Forall (fun c => TextGenerator.getDateKey tza (TextGenerator.date c) = k) rest ->
  Forall (fun c => TextGenerator.getDateKey tza (TextGenerator.date c) = k)
         (TextGenerator.mergeRun current rest).
Proof.
  intros Hcur Hrest. revert current Hcur.
  induction Hrest as [| next rest Hnext _ IH]; intros current Hcur;
    cbn [TextGenerator.mergeRun].
  - by repeat constructor.
  - destruct (_ <=? _).
    + apply IH. destruct (mergeTwo_range current next) as (_ & _ & -> & _). exact Hcur.
    + constructor; [exact Hcur | by apply IH].
Qed.

Lemma mergeRun_not_nil current rest : TextGenerator.mergeRun current rest <> [].
Proof.
  revert current. induction rest as [| next rest IH]; intros current;
    cbn [TextGenerator.mergeRun]; [done |].
  destruct (_ <=? _); [apply IH | done].
Qed.

Lemma mergeGroup_keys tza k group :
  Forall (fun c => TextGenerator.getDateKey tza (TextGenerator.date c) = k) group ->
  Forall (fun c => TextGenerator.getDateKey tza (TextGenerator.date c) = k)
         (TextGenerator.mergeGroup group).
Proof.
  intros Hg. unfold TextGenerator.mergeGroup.
  pose proof (sort_perm (fun a b => TextGenerator.startMinutes b <? TextGenerator.startMinutes a)
                        group) as Hp.
  rewrite <- Hp in Hg. destruct (sort _ group) as [| first rest]; [constructor |].
  apply Forall_cons in Hg as [Hf Hr]. by apply mergeRun_keys.
Qed.

Lemma mergeGroup_not_nil group : group <> [] -> TextGenerator.mergeGroup group <> [].
Proof.
  intros Hne. unfold TextGenerator.mergeGroup.
  pose proof (sort_perm (fun a b => TextGenerator.startMinutes b <? TextGenerator.startMinutes a)
                        group) as Hp.
  destruct (sort _ group) as [| first rest].
  - symmetry in Hp. by apply Permutation_nil_r in Hp.
  - apply mergeRun_not_nil.
Qed.

(** Every candidate handed to the pass lies within the range of one of
    the candidates it yields. *)
Lemma mergeRun_covers current rest x :
  x ∈ current :: rest ->
  exists o, o ∈ TextGenerator.mergeRun current rest /\
    TextGenerator.startMinutes o <= TextGenerator.startMinutes x /\
    TextGenerator.endMinutes x <= TextGenerator.endMinutes o.
Proof.
  revert current x. induction rest as [| next rest IH]; intros current x Hx;
    cbn [TextGenerator.mergeRun].
  - apply list_elem_of_singleton in Hx as ->. exists current. split; [left | lia].
  - destruct (mergeTwo_range current next) as (Hmin & Hmax & _).
    destruct (_ <=? _).
    + assert (Hcases : x = current \/ x = next \/ x ∈ rest).
      { apply elem_of_cons in Hx as [-> | Hx]; [by left |].
        apply elem_of_cons in Hx as [-> | Hx]; [by right; left | by right; right]. }
      destruct Hcases as [-> | [-> | Hin]].
      * destruct (IH (TextGenerator.mergeTwo current next) (TextGenerator.mergeTwo current next))
          as (o & Ho & H1 & H2); [left |]. exists o. split; [done | lia].
      * destruct (IH (TextGenerator.mergeTwo current next) (TextGenerator.mergeTwo current next))
          as (o & Ho & H1 & H2); [left |]. exists o. split; [done | lia].
      * apply IH. by right.
    + apply elem_of_cons in Hx as [-> | Hx].
      * exists current. split; [left | lia].
      * destruct (IH next x Hx) as (o & Ho & H1 & H2). exists o. split; [by right | done].
Qed.

Lemma mergeGroup_covers group x :
  x ∈ group ->
  exists o, o ∈ TextGenerator.mergeGroup group /\
    TextGenerator.startMinutes o <= TextGenerator.startMinutes x /\
    TextGenerator.endMinutes x <= TextGenerator.endMinutes o.
Proof.
  intros Hx. unfold TextGenerator.mergeGroup.
  pose proof (sort_perm (fun a b => TextGenerator.startMinutes b <? TextGenerator.startMinutes a)
                        group) as Hp.
  rewrite <- Hp in Hx. destruct (sort _ group) as [| first rest].
  - by apply elem_of_nil in Hx.
  - by apply mergeRun_covers.
Qed.

Lemma addToGroup_member tza c groups x :
  (exists kg, kg ∈ Spec.groupStep tza groups c /\ x ∈ kg.2) <->
  x = c \/ exists kg, kg ∈ groups /\ x ∈ kg.2.
Proof.
  unfold Spec.groupStep.
  generalize (TextGenerator.getDateKey tza (TextGenerator.date c)). intros k.
  induction groups as [| [k' g] groups IH]; cbn [TextGenerator.addToGroup].
  - split.
    + intros (kg & Hkg & Hx). apply list_elem_of_singleton in Hkg as ->.
      left. by apply list_elem_of_singleton in Hx.
    + intros [-> | (kg & Hkg & _)]; [| by apply elem_of_nil in Hkg].
      exists (k, [c]). split; [left | left].
  - destruct (decide (k' = k)) as [-> | Hne].
    + split.
      * intros (kg & Hkg & Hx). apply elem_of_cons in Hkg as [-> | Hkg].
        -- cbn [snd] in Hx. apply elem_of_app in Hx as [Hx | Hx].
           ++ right. exists (k, g). split; [left | done].
           ++ left. by apply list_elem_of_singleton in Hx.
        -- right. exists kg. split; [by right | done].
      * intros [-> | (kg & Hkg & Hx)].
        -- exists (k, g ++ [c]). split; [left |]. cbn [snd]. apply elem_of_app. right. left.
        -- apply elem_of_cons in Hkg as [-> | Hkg].
           ++ exists (k, g ++ [c]). split; [left |]. cbn [snd] in *. apply elem_of_app. by left.
           ++ exists kg. split; [by right | done].
    + split.
      * intros (kg & Hkg & Hx). apply elem_of_cons in Hkg as [-> | Hkg].
        -- right. exists (k', g). split; [left | done].
        -- destruct (proj1 IH) as [-> | (kg' & Hkg' & Hx')]; [by exists kg | by left |].
           right. exists kg'. split; [by right | done].
      * intros [-> | (kg & Hkg & Hx)].
        -- destruct (proj2 IH) as (kg' & Hkg' & Hx'); [by left |].
           exists kg'. split; [by right | done].
        -- apply elem_of_cons in Hkg as [-> | Hkg].
           ++ exists (k', g). split; [left | done].
           ++ destruct (proj2 IH) as (kg' & Hkg' & Hx'); [right; by exists kg |].
              exists kg'. split; [by right | done].
Qed.

(** [groupByDate] keeps every candidate, in the group of its key. *)
Lemma groupByDate_member tza candidates x :
  x ∈ candidates ->
  exists kg, kg ∈ TextGenerator.groupByDate tza candidates /\ x ∈ kg.2.
Proof.
  unfold TextGenerator.groupByDate.
  assert (H : forall acc,
            (exists kg, kg ∈ foldl (Spec.groupStep tza) acc candidates /\ x ∈ kg.2) <->
            x ∈ candidates \/ exists kg, kg ∈ acc /\ x ∈ kg.2).
  { induction candidates as [| c l IH]; intros acc; cbn [foldl].
    - split; [by right |]. intros [Hx | H]; [by apply elem_of_nil in Hx | done].
    - rewrite IH, addToGroup_member, elem_of_cons. tauto. }
  intros Hx. apply (H []). by left.
Qed.

(** The merged groups are the groups of the merged list. *)
Lemma groupByDate_merged tza candidates :
  TextGenerator.groupByDate tza (TextGenerator.mergeContinuousCandidates tza candidates) =
  (fun kg => (kg.1, TextGenerator.mergeGroup kg.2)) <$> TextGenerator.groupByDate tza candidates.
Proof.
  unfold TextGenerator.mergeContinuousCandidates.
  pose proof (groupByDate_wellGrouped tza candidates) as [Hnd Hall].
  set (groups := TextGenerator.groupByDate tza candidates) in *.
  set (merged := (fun kg : jsstring * list TextGenerator.Candidate =>
                    (kg.1, TextGenerator.mergeGroup kg.2)) <$> groups).
  assert (Hflat : flat_map (fun kg => TextGenerator.mergeGroup kg.2) groups
                  = flat_map snd merged).
  { unfold merged. clear. induction groups as [| kg groups IH]; [done |].
    cbn [flat_map fmap list_fmap snd]. by rewrite IH. }
  rewrite Hflat. unfold TextGenerator.groupByDate at 1.
  apply (groupByDate_blocks tza [] merged). cbn [app]. split.
  - unfold merged. rewrite <- list_fmap_compose.
    erewrite list_fmap_ext; [exact Hnd |]. done.
  - unfold merged. apply Forall_fmap. eapply Forall_impl; [exact Hall |].
    intros [k g] [Hne Hg]. cbn [fst snd compose] in *. split.
    + by apply mergeGroup_not_nil.
    + by apply mergeGroup_keys.
Qed.

(** Merging the merged list changes nothing. *)
Lemma mergeContinuousCandidates_idempotent tza candidates :
  TextGenerator.mergeContinuousCandidates tza
    (TextGenerator.mergeContinuousCandidates tza candidates) =
  TextGenerator.mergeContinuousCandidates tza candidates.
Proof.
  unfold TextGenerator.mergeContinuousCandidates at 1. rewrite groupByDate_merged.
  unfold TextGenerator.mergeContinuousCandidates.
  induction (TextGenerator.groupByDate tza candidates) as [| kg groups IH]; [done |].
  cbn [fmap list_fmap flat_map fst snd].
  rewrite mergeGroup_idempotent. f_equal. exact IH.
Qed.

Lemma mergeContinuousCandidates_pair tza a b :
  Spec.calendarDate tza (TextGenerator.date a) = Spec.calendarDate tza (TextGenerator.date b) ->
  let prev := if TextGenerator.startMinutes b <? TextGenerator.startMinutes a then b else a in
  let next := if TextGenerator.startMinutes b <? TextGenerator.startMinutes a then a else b in
  TextGenerator.mergeContinuousCandidates tza [a; b] =
  if TextGenerator.startMinutes next <=? TextGenerator.endMinutes prev
  then [TextGenerator.mergeTwo prev next] else [prev; next].
Proof.
  intros Hdate. apply getDateKey_inj in Hdate.
  unfold TextGenerator.mergeContinuousCandidates, TextGenerator.groupByDate.
  cbn [foldl TextGenerator.addToGroup]. rewrite decide_True by done.
  cbn [app flat_map snd]. rewrite app_nil_r.
  unfold TextGenerator.mergeGroup, sort. cbn [foldr insertSorted].
  destruct (TextGenerator.startMinutes b <? TextGenerator.startMinutes a);
    cbn [TextGenerator.mergeRun]; by destruct (_ <=? _).
Qed.

(** Every candidate that the pass yields is the union of the candidates
    it was made of: one of them starts where it starts, one ends where
    it ends, and each minute of its range lies in one of them. *)
Lemma mergeRun_connected current rest o :
  Sorted (fun a b => TextGenerator.startMinutes a <= TextGenerator.startMinutes b)
         (current :: rest) ->
  o ∈ TextGenerator.mergeRun current rest ->
  (exists c, c ∈ current :: rest /\
     TextGenerator.startMinutes c = TextGenerator.startMinutes o /\
     TextGenerator.endMinutes c <= TextGenerator.endMinutes o) /\
  (exists c, c ∈ current :: rest /\
     TextGenerator.endMinutes c = TextGenerator.endMinutes o /\
     TextGenerator.startMinutes o <= TextGenerator.startMinutes c) /\
  (forall t, TextGenerator.startMinutes o < t <= TextGenerator.endMinutes o ->
     exists c, c ∈ current :: rest /\
       TextGenerator.startMinutes o <= TextGenerator.startMinutes c < t /\
       t <= TextGenerator.endMinutes c <= TextGenerator.endMinutes o).
Proof.
  revert current. induction rest as [| next rest IH]; intros current Hs Ho;
    cbn [TextGenerator.mergeRun] in Ho.
  - apply list_elem_of_singleton in Ho as ->.
    split; [exists current; split; [left | lia] |].
    split; [exists current; split; [left | lia] |].
    intros t Ht. exists current. split; [left | lia].
  - apply Sorted_inv in Hs as [Hs Hhd]. apply HdRel_inv in Hhd.
    destruct (mergeTwo_range current next) as (Hmin & Hmax & _).
    destruct (Z.leb_spec (TextGenerator.startMinutes next) (TextGenerator.endMinutes current))
      as [Hle | Hgt].
    + destruct (IH (TextGenerator.mergeTwo current next)) as (H1 & H2 & H3); [| exact Ho |].
      { apply Sorted_inv in Hs as [Hs Hhd']. constructor; [exact Hs |].
        destruct Hhd' as [| z l' Hz]; constructor. lia. }
      assert (Hin : forall c, c ∈ rest -> c ∈ current :: next :: rest)
        by (intros c Hc; by do 2 right).
      split; [| split].
      * destruct H1 as (c & Hc & Hc1 & Hc2). apply elem_of_cons in Hc as [-> | Hc].
        -- exists current. split; [left | lia].
        -- exists c. split; [by apply Hin | done].
      * destruct H2 as (c & Hc & Hc1 & Hc2). apply elem_of_cons in Hc as [-> | Hc].
        -- destruct (Z.le_ge_cases (TextGenerator.endMinutes next)
                                   (TextGenerator.endMinutes current)).
           ++ exists current. split; [left | lia].
           ++ exists next. split; [right; left | lia].
        -- exists c. split; [by apply Hin | done].
      * intros t Ht. destruct (H3 t Ht) as (c & Hc & Hc1 & Hc2).
        apply elem_of_cons in Hc as [-> | Hc].
        -- destruct (Z.le_gt_cases t (TextGenerator.endMinutes current)).
           ++ exists current. split; [left | lia].
           ++ exists next. split; [right; left | lia].
        -- exists c. split; [by apply Hin | done].
    + apply elem_of_cons in Ho as [-> | Ho].
      * split; [exists current; split; [left | lia] |].
        split; [exists current; split; [left | lia] |].
        intros t Ht. exists current. split; [left | lia].
      * destruct (IH next Hs Ho) as (H1 & H2 & H3).
        split; [| split].
        -- destruct H1 as (c & Hc & Hc'). exists c. split; [by right | done].
        -- destruct H2 as (c & Hc & Hc'). exists c. split; [by right | done].
        -- intros t Ht. destruct (H3 t Ht) as (c & Hc & Hc'). exists c.
           split; [by right | done].
Qed.

Lemma mergeGroup_connected group o :
  o ∈ TextGenerator.mergeGroup group ->
  (exists c, c ∈ group /\
     TextGenerator.startMinutes c = TextGenerator.startMinutes o /\
     TextGenerator.endMinutes c <= TextGenerator.endMinutes o) /\
  (exists c, c ∈ group /\
     TextGenerator.endMinutes c = TextGenerator.endMinutes o /\
     TextGenerator.startMinutes o <= TextGenerator.startMinutes c) /\
  (forall t, TextGenerator.startMinutes o < t <= TextGenerator.endMinutes o ->
     exists c, c ∈ group /\
       TextGenerator.startMinutes o <= TextGenerator.startMinutes c < t /\
       t <= TextGenerator.endMinutes c <= TextGenerator.endMinutes o).
Proof.
  unfold TextGenerator.mergeGroup.
  pose proof (sort_perm (fun a b => TextGenerator.startMinutes b <? TextGenerator.startMinutes a)
                        group) as Hp.
  pose proof (sort_by_start_sorted group) as Hs.
  destruct (sort _ group) as [| first rest]; [by intros ?%elem_of_nil |].
  intros Ho. destruct (mergeRun_connected first rest o Hs Ho) as (H1 & H2 & H3).
  setoid_rewrite <- Hp. done.
Qed.

(** The candidates of the groups of [groupByDate] are candidates of
    the list. *)
Lemma groupByDate_member_inv tza candidates kg x :
  kg ∈ TextGenerator.groupByDate tza candidates -> x ∈ kg.2 -> x ∈ candidates.
Proof.
  unfold TextGenerator.groupByDate.
  assert (H : forall acc,
            (exists kg, kg ∈ foldl (Spec.groupStep tza) acc candidates /\ x ∈ kg.2) <->
            x ∈ candidates \/ exists kg, kg ∈ acc /\ x ∈ kg.2).
  { induction candidates as [| c l IH]; intros acc; cbn [foldl].
    - split; [by right |]. intros [Hx | H]; [by apply elem_of_nil in Hx | done].
    - rewrite IH, addToGroup_member, elem_of_cons. tauto. }
  intros Hkg Hx. destruct (proj1 (H [])) as [Hin | (kg' & Hkg' & _)]; [by exists kg | done |].
  by apply elem_of_nil in Hkg'.
Qed.

(** A candidate of the merged list comes from the group of its date. *)
Lemma mergeContinuousCandidates_group tza candidates o :
  o ∈ TextGenerator.mergeContinuousCandidates tza candidates ->
  exists g,
    o ∈ TextGenerator.mergeGroup g /\
    Forall (fun c => c ∈ candidates /\
                     Spec.calendarDate tza (TextGenerator.date c) =
                     Spec.calendarDate tza (TextGenerator.date o)) g.
Proof.
  unfold TextGenerator.mergeContinuousCandidates.
  intros Ho. apply list_elem_of_In, in_flat_map in Ho as ([k g] & Hkg & Ho).
  apply list_elem_of_In in Hkg, Ho. cbn [snd] in Ho.
  exists g. split; [exact Ho |].
  destruct (groupByDate_wellGrouped tza candidates) as [_ Hall].
  rewrite Forall_forall in Hall. destruct (Hall _ Hkg) as [_ Hkeys]. cbn [fst snd] in Hkeys.
  pose proof (mergeGroup_keys tza k g Hkeys) as Hmerged.
  rewrite Forall_forall in Hkeys, Hmerged. apply Forall_forall. intros c Hc. split.
  - by apply (groupByDate_member_inv tza candidates (k, g)).
  - apply getDateKey_inj. by rewrite (Hkeys c Hc), (Hmerged o Ho).
Qed.

(** The rule of the pass, for a candidate that comes last. *)
Lemma mergeRun_snoc current rest next :
  exists init prev,
    TextGenerator.mergeRun current rest = init ++ [prev] /\
    TextGenerator.mergeRun current (rest ++ [next]) =
      init ++ (if TextGenerator.startMinutes next <=? TextGenerator.endMinutes prev
               then [TextGenerator.mergeTwo prev next] else [prev; next]).
Proof.
  revert current. induction rest as [| x rest IH]; intros current;
    cbn [app TextGenerator.mergeRun].
  - exists [], current. split; [done |]. by destruct (_ <=? _).
  - destruct (TextGenerator.startMinutes x <=? TextGenerator.endMinutes current).
    + apply IH.
    + destruct (IH x) as (init & prev & -> & ->). by exists (current :: init), prev.
Qed.

Lemma insertSorted_snoc {A} (gt : A -> A -> bool) x l last :
  gt x last = false -> insertSorted gt x (l ++ [last]) = insertSorted gt x l ++ [last].
Proof.
  intros Hx. induction l as [| y l IH]; cbn [app insertSorted]; [by rewrite Hx |].
  destruct (gt x y); [by rewrite IH | done].
Qed.

(** An element that no other compares greater than stays last. *)
Lemma sort_snoc {A} (gt : A -> A -> bool) l last :
  Forall (fun x => gt x last = false) l -> sort gt (l ++ [last]) = sort gt l ++ [last].
Proof.
  unfold sort. induction 1 as [| x l Hx _ IH]; cbn [app foldr]; [done |].
  by rewrite IH, insertSorted_snoc.
Qed.

Lemma mergeGroup_snoc group next :
  group <> [] ->
  Forall (fun c => TextGenerator.startMinutes c <= TextGenerator.startMinutes next) group ->
  exists init prev,
    TextGenerator.mergeGroup group = init ++ [prev] /\
    TextGenerator.mergeGroup (group ++ [next]) =
      init ++ (if TextGenerator.startMinutes next <=? TextGenerator.endMinutes prev
               then [TextGenerator.mergeTwo prev next] else [prev; next]).
Proof.
  intros Hne Hle. unfold TextGenerator.mergeGroup.
  rewrite sort_snoc by (eapply Forall_impl; [exact Hle |]; cbv beta; intros c Hc;
                        apply Z.ltb_ge; exact Hc).
  pose proof (sort_perm (fun a b => TextGenerator.startMinutes b <? TextGenerator.startMinutes a)
                        group) as Hp.
  destruct (sort _ group) as [| first rest].
  - symmetry in Hp. by apply Permutation_nil_r in Hp.
  - cbn [app]. apply mergeRun_snoc.
Qed.

Lemma flat_map_mergeGroup_keys tza k groups :
  k ∉ groups.*1 ->
  Forall (fun kg => Forall (fun c => TextGenerator.getDateKey tza (TextGenerator.date c) = kg.1)
                           kg.2) groups ->
  Forall (fun o => TextGenerator.getDateKey tza (TextGenerator.date o) <> k)
         (flat_map (fun kg => TextGenerator.mergeGroup kg.2) groups).
Proof.
  intros Hk Hall. induction Hall as [| [k' g] groups Hg _ IH]; cbn [flat_map]; [constructor |].
  cbn [fst snd] in *. apply Forall_app. split.
  - eapply Forall_impl; [apply (mergeGroup_keys tza k' g Hg) |].
    cbv beta. intros o ->. intros ->. apply Hk. left.
  - apply IH. intros Hin. apply Hk. by right.
Qed.

(** The rule for every list: a candidate that starts no earlier than
    the candidates of its date joins the last candidate of its date in
    the result, or follows it. *)
Lemma mergeContinuousCandidates_snoc tza candidates next :
  let sameDate c :=
    Spec.calendarDate tza (TextGenerator.date c) =
    Spec.calendarDate tza (TextGenerator.date next) in
  Forall (fun c => sameDate c ->
                   TextGenerator.startMinutes c <= TextGenerator.startMinutes next)
         candidates ->
  (Forall (fun c => ~ sameDate c) candidates ->
   TextGenerator.mergeContinuousCandidates tza (candidates ++ [next]) =
     TextGenerator.mergeContinuousCandidates tza candidates ++ [next]) /\
  (Exists sameDate candidates ->
   exists before prev after,
     TextGenerator.mergeContinuousCandidates tza candidates = before ++ prev :: after /\
     sameDate prev /\
     Forall (fun o => ~ sameDate o) after /\
     TextGenerator.mergeContinuousCandidates tza (candidates ++ [next]) =
       before ++
       (if TextGenerator.startMinutes next <=? TextGenerator.endMinutes prev
        then [TextGenerator.mergeTwo prev next] else [prev; next]) ++
       after).
Proof.
  intros sameDate Hlast.
  set (k := TextGenerator.getDateKey tza (TextGenerator.date next)).
  assert (Hsame : forall c, sameDate c <->
                            TextGenerator.getDateKey tza (TextGenerator.date c) = k)
    by (intros c; unfold sameDate, k; by rewrite getDateKey_inj).
  unfold TextGenerator.mergeContinuousCandidates, TextGenerator.groupByDate.
  rewrite foldl_app. cbn [foldl]. fold (TextGenerator.groupByDate tza candidates). fold k.
  pose proof (groupByDate_wellGrouped tza candidates) as [Hnd Hall].
  assert (Hmem : forall kg c, kg ∈ TextGenerator.groupByDate tza candidates -> c ∈ kg.2 ->
                              c ∈ candidates)
    by (intros kg c; apply groupByDate_member_inv).
  set (groups := TextGenerator.groupByDate tza candidates) in *.
  split.
  - intros Hnone.
    assert (Hk : k ∉ groups.*1).
    { intros ([k' g] & Hk' & Hkg)%list_elem_of_fmap. cbn [fst] in Hk'. subst k'.
      rewrite Forall_forall in Hall. destruct (Hall _ Hkg) as [Hne Hkeys]. cbn [fst snd] in *.
      destruct g as [| c g]; [done |]. apply Forall_cons in Hkeys as [Hc _].
      rewrite Forall_forall in Hnone. apply (Hnone c).
      + apply (Hmem (k, c :: g)); [done | left].
      + by apply Hsame. }
    rewrite addToGroup_new by done. rewrite flat_map_app. cbn [flat_map snd]. by rewrite app_nil_r.
  - intros (c & Hc & Hcs)%Exists_exists.
    destruct (groupByDate_member tza candidates c Hc) as ([k' g] & Hkg & Hg). fold groups in Hkg.
    cbn [snd] in Hg.
    assert (k' = k) as ->.
    { rewrite Forall_forall in Hall. destruct (Hall _ Hkg) as [_ Hkeys]. cbn [fst snd] in Hkeys.
      rewrite Forall_forall in Hkeys. rewrite <- (Hkeys c Hg). by apply Hsame. }
    apply list_elem_of_split in Hkg as (acc & rest & Hsplit).
    rewrite Hsplit in Hnd, Hall |- *.
    rewrite fmap_app, fmap_cons in Hnd. cbn [fst] in Hnd.
    apply NoDup_app in Hnd as (_ & Hdisj & Hnd). apply NoDup_cons in Hnd as [Hrest _].
    assert (Hacc : k ∉ acc.*1) by (intros Hin; apply (Hdisj k Hin); left).
    apply Forall_app in Hall as [_ Hall]. apply Forall_cons in Hall as [[Hne Hkeys] Hall].
    cbn [fst snd] in Hne, Hkeys.
    rewrite addToGroup_found by done. rewrite !flat_map_app. cbn [flat_map snd].
    destruct (mergeGroup_snoc g next Hne) as (init & prev & Hg1 & Hg2).
    { rewrite Forall_forall in Hlast, Hkeys |- *. intros x Hx. apply Hlast.
      - apply (Hmem (k, g)); [| done]. fold groups. rewrite Hsplit.
        apply elem_of_app. right. left.
      - apply Hsame. by apply Hkeys. }
    rewrite Hg1, Hg2.
    exists (flat_map (fun kg => TextGenerator.mergeGroup kg.2) acc ++ init), prev,
           (flat_map (fun kg => TextGenerator.mergeGroup kg.2) rest).
    split; [by rewrite <- !app_assoc |]. split; [| split].
    + apply Hsame. pose proof (mergeGroup_keys tza k g Hkeys) as Hm.
      rewrite Hg1 in Hm. apply Forall_app in Hm as [_ Hm]. by apply Forall_cons in Hm as [Hm _].
    + eapply Forall_impl.
      * apply (flat_map_mergeGroup_keys tza k rest Hrest).
        eapply Forall_impl; [exact Hall |]. cbv beta. by intros kg [_ H].
      * cbv beta. intros o Ho Hso. apply Ho. by apply Hsame.
    + by rewrite <- !app_assoc.
Qed.

(** C1.  [mergeContinuousCandidates] is idempotent.  For two candidates
    of one calendar date, taken by start time as previous and next, it
    returns the single merged candidate exactly when the next starts no
    later than the previous ends, and the two candidates unchanged
    otherwise; the merged range runs from the smaller start to the
    larger end.  In the result for any list, the candidates of one date
    stay apart (each starts after its predecessor ends), and every
    candidate of the list lies within the range of a candidate of its
    date in the result.  No candidate of the result spans a gap: among
    the candidates of its date in the list, one starts where it starts,
    one ends where it ends, and every minute of its range lies in one
    that lies within it (after its start, up to its end).  The rule
    holds for every list: the empty list gives the empty list, and for
    a candidate [next] that starts no earlier than the candidates of its
    date in the list, the result for the list followed by [next] is the
    result for the list followed by [next] when the date is new, and
    otherwise the result for the list in which the last candidate
    [prev] of that date is replaced by the merged candidate of [prev]
    and [next] if [next] starts no later than [prev] ends, and is
    followed by [next] if not.  On one date,
    09:00-10:00 and 10:00-11:00 merge into 09:00-11:00, while 09:00-10:00
    and 10:15-11:00 are returned unchanged. *)
Theorem mergeContinuousCandidates_spec (tza : Z) :
  (forall candidates,
     TextGenerator.mergeContinuousCandidates tza
       (TextGenerator.mergeContinuousCandidates tza candidates) =
     TextGenerator.mergeContinuousCandidates tza candidates) /\
  (forall a b,
     Spec.calendarDate tza (TextGenerator.date a) = Spec.calendarDate tza (TextGenerator.date b) ->
     let prev := if TextGenerator.startMinutes b <? TextGenerator.startMinutes a then b else a in
     let next := if TextGenerator.startMinutes b <? TextGenerator.startMinutes a then a else b in
     (TextGenerator.startMinutes next <= TextGenerator.endMinutes prev ->
      TextGenerator.mergeContinuousCandidates tza [a; b] = [TextGenerator.mergeTwo prev next]) /\
     (TextGenerator.startMinutes next > TextGenerator.endMinutes prev ->
      TextGenerator.mergeContinuousCandidates tza [a; b] = [prev; next]) /\
     TextGenerator.startMinutes (TextGenerator.mergeTwo prev next) =
       Z.min (TextGenerator.startMinutes a) (TextGenerator.startMinutes b) /\
     TextGenerator.endMinutes (TextGenerator.mergeTwo prev next) =
       Z.max (TextGenerator.endMinutes a) (TextGenerator.endMinutes b)) /\
  (forall candidates kg,
     kg ∈ TextGenerator.groupByDate tza (TextGenerator.mergeContinuousCandidates tza candidates) ->
     Sorted Spec.separated kg.2) /\
  (forall candidates c,
     c ∈ candidates ->
     exists o,
       o ∈ TextGenerator.mergeContinuousCandidates tza candidates /\
       Spec.calendarDate tza (TextGenerator.date o) = Spec.calendarDate tza (TextGenerator.date c) /\
       TextGenerator.startMinutes o <= TextGenerator.startMinutes c /\
       TextGenerator.endMinutes c <= TextGenerator.endMinutes o) /\
  (forall candidates o,
     o ∈ TextGenerator.mergeContinuousCandidates tza candidates ->
     let ofDate c :=
       c ∈ candidates /\
       Spec.calendarDate tza (TextGenerator.date c) =
       Spec.calendarDate tza (TextGenerator.date o) in
     (exists c, ofDate c /\
        TextGenerator.startMinutes c = TextGenerator.startMinutes o /\
        TextGenerator.endMinutes c <= TextGenerator.endMinutes o) /\
     (exists c, ofDate c /\
        TextGenerator.endMinutes c = TextGenerator.endMinutes o /\
        TextGenerator.startMinutes o <= TextGenerator.startMinutes c) /\
     (forall t,
        TextGenerator.startMinutes o < t <= TextGenerator.endMinutes o ->
        exists c, ofDate c /\
          TextGenerator.startMinutes o <= TextGenerator.startMinutes c < t /\
          t <= TextGenerator.endMinutes c <= TextGenerator.endMinutes o)) /\
  TextGenerator.mergeContinuousCandidates tza [] = [] /\
  (forall candidates next,
     let sameDate c :=
       Spec.calendarDate tza (TextGenerator.date c) =
       Spec.calendarDate tza (TextGenerator.date next) in
     Forall (fun c => sameDate c ->
                      TextGenerator.startMinutes c <= TextGenerator.startMinutes next)
            candidates ->
     (Forall (fun c => ~ sameDate c) candidates ->
      TextGenerator.mergeContinuousCandidates tza (candidates ++ [next]) =
        TextGenerator.mergeContinuousCandidates tza candidates ++ [next]) /\
     (Exists sameDate candidates ->
      exists before prev after,
        TextGenerator.mergeContinuousCandidates tza candidates = before ++ prev :: after /\
        sameDate prev /\
        Forall (fun o => ~ sameDate o) after /\
        TextGenerator.mergeContinuousCandidates tza (candidates ++ [next]) =
          before ++
          (if TextGenerator.startMinutes next <=? TextGenerator.endMinutes prev
           then [TextGenerator.mergeTwo prev next] else [prev; next]) ++
          after)) /\
  (forall id1 id2 d,
     TextGenerator.mergeContinuousCandidates tza
       [Spec.candidateAt id1 d 9 0 10 0; Spec.candidateAt id2 d 10 0 11 0] =
     [Spec.candidateAt id1 d 9 0 11 0]) /\
  (forall id1 id2 d,
     TextGenerator.mergeContinuousCandidates tza
       [Spec.candidateAt id1 d 9 0 10 0; Spec.candidateAt id2 d 10 15 11 0] =
     [Spec.candidateAt id1 d 9 0 10 0; Spec.candidateAt id2 d 10 15 11 0]).
Proof.
  split; [apply mergeContinuousCandidates_idempotent |].
  split; [| split; [| split; [| split; [| split; [reflexivity |]; split; [| split]]]]].
  - intros a b Hdate prev next.
    pose proof (mergeContinuousCandidates_pair tza a b Hdate) as Hpair. cbv zeta in Hpair.
    fold prev next in Hpair. rewrite Hpair.
    destruct (mergeTwo_range prev next) as (Hmin & Hmax & _).
    split; [| split; [| split]].
    + intros H. by rewrite (proj2 (Z.leb_le _ _) H).
    + intros H. by rewrite (proj2 (Z.leb_gt _ _)) by lia.
    + rewrite Hmin. unfold prev, next.
      destruct (Z.ltb_spec (TextGenerator.startMinutes b) (TextGenerator.startMinutes a)); lia.
    + rewrite Hmax. unfold prev, next.
      destruct (Z.ltb_spec (TextGenerator.startMinutes b) (TextGenerator.startMinutes a)); lia.
  - intros candidates kg. rewrite groupByDate_merged.
    intros ([k g] & -> & _)%list_elem_of_fmap. cbn [snd]. apply mergeGroup_separated.
  - intros candidates c Hc.
    destruct (groupByDate_member tza candidates c Hc) as ([k g] & Hkg & Hg). cbn [snd] in Hg.
    destruct (mergeGroup_covers g c Hg) as (o & Ho & Hstart & Hend).
    exists o. split; [| split; [| done]].
    + unfold TextGenerator.mergeContinuousCandidates.
      apply list_elem_of_In, in_flat_map. exists (k, g).
      split; by apply list_elem_of_In.
    + apply getDateKey_inj.
      destruct (groupByDate_wellGrouped tza candidates) as [_ Hall].
      rewrite Forall_forall in Hall. destruct (Hall _ Hkg) as [_ Hkeys]. cbn [fst snd] in Hkeys.
      pose proof (mergeGroup_keys tza k g Hkeys) as Hmerged.
      rewrite Forall_forall in Hkeys, Hmerged.
      by rewrite (Hkeys c Hg), (Hmerged o Ho).
  - intros candidates o Ho ofDate.
    destruct (mergeContinuousCandidates_group tza candidates o Ho) as (g & Hg & Hall).
    rewrite Forall_forall in Hall.
    destruct (mergeGroup_connected g o Hg) as (H1 & H2 & H3).
    split; [| split].
    + destruct H1 as (c & Hc & Hc'). exists c. split; [by apply Hall | done].
    + destruct H2 as (c & Hc & Hc'). exists c. split; [by apply Hall | done].
    + intros t Ht. destruct (H3 t Ht) as (c & Hc & Hc'). exists c.
      split; [by apply Hall | done].
  - intros candidates next. apply mergeContinuousCandidates_snoc.
  - intros id1 id2 d.
    rewrite (mergeContinuousCandidates_pair tza
               (Spec.candidateAt id1 d 9 0 10 0) (Spec.candidateAt id2 d 10 0 11 0) eq_refl).
    reflexivity.
  - intros id1 id2 d.
    rewrite (mergeContinuousCandidates_pair tza
               (Spec.candidateAt id1 d 9 0 10 0) (Spec.candidateAt id2 d 10 15 11 0) eq_refl).
    reflexivity.
Qed.

(* ================================================================== *)
(** * The order of ISO dates *)
(* ================================================================== *)

(** With enough fuel, the digits do not depend on the fuel. *)
Lemma digitsOf_fuel f1 f2 n :
  0 <= n < 10 ^ Z.of_nat (S f1) -> 0 <= n < 10 ^ Z.of_nat (S f2) ->
  digitsOf (S f1) n = digitsOf (S f2) n.
Proof.
  revert f2 n. induction f1 as [| f1 IH]; intros f2 n H1 H2.
  - change (10 ^ Z.of_nat 1) with 10 in H1. cbn [digitsOf].
    destruct (Z.ltb_spec n 10); [done | lia].
  - cbn [digitsOf]. destruct (Z.ltb_spec n 10) as [| Hge]; [done |].
    destruct f2 as [| f2].
    { change (10 ^ Z.of_nat 1) with 10 in H2. lia. }
    f_equal. apply IH.
    + rewrite (Nat2Z.inj_succ (S f1)), Z.pow_succ_r in H1 by lia.
      Z.div_mod_to_equations. lia.
    + rewrite (Nat2Z.inj_succ (S f2)), Z.pow_succ_r in H2 by lia.
      Z.div_mod_to_equations. lia.
Qed.

(** The digits of a number below 10000, padded to four. *)
Lemma pad4_digits n :
  0 <= n <= 9999 ->
  padStart 4 48%N (intToString n) =
  [digitChar (n / 1000); digitChar ((n / 100) mod 10); digitChar ((n / 10) mod 10);
   digitChar (n mod 10)].
Proof.
  intros Hn. unfold intToString. destruct (Z.ltb_spec n 0); [lia |].
  rewrite (digitsOf_fuel _ 3) by (first [apply enough_fuel; lia | change (10 ^ Z.of_nat 4) with 10000; lia]).
  cbn [digitsOf].
  repeat match goal with
  | |- context [?a <? ?b] => destruct (Z.ltb_spec a b); cbv iota
  end;
    unfold padStart; cbn [length Nat.sub replicate app];
    repeat (apply (f_equal2 cons)); try reflexivity;
    try (unfold digitChar; f_equal; Z.div_mod_to_equations; lia).
Qed.

Lemma pad2_digits n :
  0 <= n <= 99 ->
  padStart 2 48%N (intToString n) = [digitChar (n / 10); digitChar (n mod 10)].
Proof.
  intros Hn. unfold intToString. destruct (Z.ltb_spec n 0); [lia |].
  rewrite (digitsOf_fuel _ 1) by (first [apply enough_fuel; lia | change (10 ^ Z.of_nat 2) with 100; lia]).
  cbn [digitsOf].
  repeat match goal with
  | |- context [?a <? ?b] => destruct (Z.ltb_spec a b); cbv iota
  end;
    unfold padStart; cbn [length Nat.sub replicate app];
    repeat (apply (f_equal2 cons)); try reflexivity;
    try (unfold digitChar; f_equal; Z.div_mod_to_equations; lia).
Qed.

Lemma localeCompare_digit a b s1 s2 :
  0 <= a <= 9 -> 0 <= b <= 9 ->
  (0 <? HolidayFetcher.localeCompare (digitChar a :: s1) (digitChar b :: s2)) =
  (b <? a) || ((a =? b) && (0 <? HolidayFetcher.localeCompare s1 s2)).
Proof.
  intros Ha Hb. cbn [HolidayFetcher.localeCompare].
  unfold HolidayFetcher.collationRank, digitChar.
  assert (Hr : forall c, 0 <= c <= 9 ->
     (if (Z.to_N (48 + c) =? 45)%N then 0%N
      else if (Z.to_N (48 + c) =? 43)%N then 1%N
      else if ((48 <=? Z.to_N (48 + c)) && (Z.to_N (48 + c) <=? 57))%N
           then (Z.to_N (48 + c) - 46)%N else (Z.to_N (48 + c) + 12)%N) = Z.to_N (c + 2)).
  { intros c Hc.
    destruct (N.eqb_spec (Z.to_N (48 + c)) 45); [lia |].
    destruct (N.eqb_spec (Z.to_N (48 + c)) 43); [lia |].
    destruct (N.leb_spec 48 (Z.to_N (48 + c))); [| lia].
    destruct (N.leb_spec (Z.to_N (48 + c)) 57); [| lia]. cbn [andb]. lia. }
  rewrite !Hr by lia.
  destruct (N.ltb_spec (Z.to_N (a + 2)) (Z.to_N (b + 2)));
  destruct (N.ltb_spec (Z.to_N (b + 2)) (Z.to_N (a + 2)));
  destruct (Z.ltb_spec b a); destruct (Z.eqb_spec a b); try lia; reflexivity.
Qed.

Lemma localeCompare_hyphen s1 s2 :
  HolidayFetcher.localeCompare (45%N :: s1) (45%N :: s2) = HolidayFetcher.localeCompare s1 s2.
Proof. reflexivity. Qed.

Lemma isoDate_order t1 t2 :
  0 <= YearFromDay (Day t1) <= 9999 -> 0 <= YearFromDay (Day t2) <= 9999 ->
  0 < HolidayFetcher.localeCompare (isoDate t1) (isoDate t2) <->
  Spec.dateNumber (Day t2) < Spec.dateNumber (Day t1).
Proof.
  intros H1 H2. rewrite <- Z.ltb_lt. unfold isoDate, isoYear, Spec.dateNumber.
  rewrite (proj2 (andb_true_iff _ _)), (proj2 (andb_true_iff _ _)) by (split; lia).
  pose proof (month_day_range (Day t1)) as Hm1.
  pose proof (month_day_range (Day t2)) as Hm2.
  rewrite !pad4_digits, !pad2_digits by lia.
  change (lit "-") with [45%N]. cbn [app].
  set (y1 := YearFromDay (Day t1)) in *. set (y2 := YearFromDay (Day t2)) in *.
  set (m1 := MonthFromDay (Day t1) + 1) in *. set (m2 := MonthFromDay (Day t2) + 1) in *.
  set (d1 := DateFromDay (Day t1)) in *. set (d2 := DateFromDay (Day t2)) in *.
  clearbody y1 y2 m1 m2 d1 d2.
  rewrite !localeCompare_digit, !localeCompare_hyphen by (Z.div_mod_to_equations; lia).
  rewrite !localeCompare_digit by (Z.div_mod_to_equations; lia).
  rewrite !localeCompare_hyphen.
  rewrite !localeCompare_digit by (Z.div_mod_to_equations; lia).
  cbn [HolidayFetcher.localeCompare]. change (0 <? 0) with false.
  rewrite !orb_true_iff, !andb_true_iff, !orb_true_iff, !andb_true_iff.
  rewrite !Z.ltb_lt, !Z.eqb_eq.
  Z.div_mod_to_equations. lia.
Qed.

Lemma YearFromDay_mono D1 D2 : D1 <= D2 -> YearFromDay D1 <= YearFromDay D2.
Proof.
  intros H. pose proof (YearFromDay_spec D1) as H1. pose proof (YearFromDay_spec D2) as H2.
  destruct (Z_le_gt_dec (YearFromDay D1) (YearFromDay D2)) as [| Hgt]; [done |].
  exfalso.
  assert (DayFromYear (YearFromDay D2 + 1) <= DayFromYear (YearFromDay D1)).
  { destruct (Z.eq_dec (YearFromDay D2 + 1) (YearFromDay D1)) as [-> |]; [lia |].
    apply Z.lt_le_incl, DayFromYear_lt. lia. }
  lia.
Qed.

Lemma dateNumber_le D1 D2 : D1 <= D2 -> Spec.dateNumber D1 <= Spec.dateNumber D2.
Proof.
  intros H. unfold Spec.dateNumber.
  pose proof (YearFromDay_mono D1 D2 H) as Hy.
  pose proof (month_day_range D1) as Hr1. pose proof (month_day_range D2) as Hr2.
  destruct (Z.eq_dec (YearFromDay D1) (YearFromDay D2)) as [Heq | Hne]; [| lia].
  rewrite Heq.
  assert (Hw : DayWithinYear D1 <= DayWithinYear D2).
  { unfold DayWithinYear. rewrite Heq. lia. }
  clear Hr1 Hr2.
  unfold DateFromDay, MonthFromDay, InLeapYear. rewrite Heq.
  pose proof (DayWithinYear_range D1) as Hw1. pose proof (DayWithinYear_range D2) as Hw2.
  rewrite Heq in Hw1.
  generalize dependent (DayWithinYear D1). generalize dependent (DayWithinYear D2).
  intros w2 Hw2 w1 Hw Hw1.
  destruct (DaysInYear_cases (YearFromDay D2)) as [Hc | Hc]; rewrite Hc in *;
    simpl (_ =? _); cbv iota; z_cases; unfold monthStart; simpl; lia.
Qed.

Lemma dateNumber_inj D1 D2 : Spec.dateNumber D1 = Spec.dateNumber D2 -> D1 = D2.
Proof.
  unfold Spec.dateNumber. intros H.
  pose proof (month_day_range D1) as Hr1. pose proof (month_day_range D2) as Hr2.
  rewrite <- (MakeDay_fields D1), <- (MakeDay_fields D2).
  f_equal; lia.
Qed.

Lemma dateNumber_lt D1 D2 : Spec.dateNumber D1 < Spec.dateNumber D2 <-> D1 < D2.
Proof.
  split.
  - intros H. destruct (Z_lt_ge_dec D1 D2) as [| Hge]; [done |].
    pose proof (dateNumber_le D2 D1 ltac:(lia)). lia.
  - intros H. pose proof (dateNumber_le D1 D2 ltac:(lia)) as Hle.
    destruct (Z.eq_dec (Spec.dateNumber D1) (Spec.dateNumber D2)) as [Heq |]; [| lia].
    apply dateNumber_inj in Heq. lia.
Qed.

(** Between years 0 and 9999, ISO date strings are ordered as the days
    they denote. *)
Lemma isoDate_chronological ta tb :
  0 <= YearFromDay (Day ta) <= 9999 -> 0 <= YearFromDay (Day tb) <= 9999 ->
  HolidayFetcher.localeCompare (isoDate ta) (isoDate tb) <= 0 <-> Day ta <= Day tb.
Proof.
  intros Ha Hb. pose proof (isoDate_order ta tb Ha Hb) as H.
  rewrite dateNumber_lt in H. lia.
Qed.

(* ================================================================== *)
(** * Parsing the holiday CSV (HolidayFetcher.parseCSV) *)
(* ================================================================== *)

Section ParseCSV.
Variables tza currentYear : Z.

(** The loop body never throws: it skips the line, or the line is a
    well-formed row of a year from [currentYear] on, and its entry is
    recorded under that year. *)
Lemma parseLine_cases rawLine :
  HolidayFetcher.parseLine tza currentYear rawLine = Normal None \/
  exists y m d nameStr,
    Spec.holidayRow rawLine y m d nameStr /\ currentYear <= y /\
    HolidayFetcher.parseLine tza currentYear rawLine =
      Normal (Some (intToString y, Spec.rowEntry tza y m d nameStr)).
Proof.
  unfold HolidayFetcher.parseLine.
  destruct (bool_decide (trim rawLine = [])); [by left |].
  destruct (split 44%N (trim rawLine)) as [| dateStr [| nameStr others]] eqn:Hfields;
    [by left | by left |].
  destruct (bool_decide_reflect (dateStr = [])) as [| Hdate]; [by left |].
  destruct (bool_decide_reflect (nameStr = [])) as [| Hname]; [by left |].
  cbn [orb].
  destruct (split 47%N (trim dateStr)) as [| p0 [| p1 [| p2 [| ? ?]]]] eqn:Hparts;
    try by left.
  destruct (parseInt p0) as [y |] eqn:Hy; [| by left].
  destruct (parseInt p1) as [m |] eqn:Hm;
    [| cbn [lessThan arith ofFields]; destruct (_ <? _); by left].
  destruct (parseInt p2) as [d |] eqn:Hd;
    [| cbn [lessThan arith ofFields]; destruct (_ <? _); by left].
  cbn [lessThan arith].
  destruct (Z.ltb_spec y currentYear) as [| Hyear]; [by left |].
  destruct (localDay_ofFields tza y (m - 1) d) as [-> Hloc].
  cbn [getFullYear getMonth getDate]. rewrite Hloc.
  set (D := MakeDay (Spec.constructedYear y) (m - 1) d) in *.
  unfold strictNe. cbn [strictEq].
  destruct (Z.eqb_spec (YearFromDay D) y) as [HY |]; [| by left].
  destruct (Z.eqb_spec (MonthFromDay D) (m - 1)) as [HM |]; [| by left].
  destruct (Z.eqb_spec (DateFromDay D) d) as [HD |]; [| by left].
  cbn [negb orb].
  destruct (toISOString_date (D * msPerDay - tza)) as (iso & -> & ->).
  right. exists y, m, d, nameStr.
  pose proof (MonthFromDay_range D) as Hmr.
  pose proof (DateFromDay_range D) as Hdr.
  rewrite HY, HM, HD in Hdr. replace (m - 1 + 1) with m in Hdr by lia.
  assert (HDeq : MakeDay y (m - 1) d = D).
  { pose proof (MakeDay_fields D) as HF. by rewrite HY, HM, HD in HF. }
  split; [| split; [exact Hyear |]].
  - exists dateStr, others, p0, p1, p2. repeat split; try done; lia.
  - unfold Spec.rowEntry. cbn [numberToString]. by rewrite HDeq.
Qed.

(** A well-formed row of a year from [currentYear] on, other than a
    year from 0 to 99, is recorded. *)
Lemma parseLine_complete rawLine y m d nameStr :
  Spec.holidayRow rawLine y m d nameStr -> currentYear <= y ->
  Spec.constructedYear y = y ->
  HolidayFetcher.parseLine tza currentYear rawLine =
    Normal (Some (intToString y, Spec.rowEntry tza y m d nameStr)).
Proof.
  intros (dateStr & others & p0 & p1 & p2 & Hfields & Hdate & Hname & Hparts &
          Hy & Hm & Hd & Hmr & Hdr) Hyear Hcy.
  unfold HolidayFetcher.parseLine.
  destruct (bool_decide_reflect (trim rawLine = [])) as [Hnil |].
  { rewrite Hnil in Hfields. by injection Hfields. }
  rewrite Hfields.
  rewrite (bool_decide_eq_false_2 _ Hdate), (bool_decide_eq_false_2 _ Hname). cbn [orb].
  rewrite Hparts, Hy, Hm, Hd. cbn [lessThan arith].
  rewrite (proj2 (Z.ltb_ge _ _) Hyear).
  destruct (localDay_ofFields tza y (m - 1) d) as [-> Hloc].
  cbn [getFullYear getMonth getDate]. rewrite Hloc, Hcy.
  destruct (fields_MakeDay y (m - 1) d) as (-> & -> & ->);
    [lia | by replace (m - 1 + 1) with m by lia |].
  unfold strictNe. cbn [strictEq]. rewrite !Z.eqb_refl. cbn [negb orb].
  destruct (toISOString_date (MakeDay y (m - 1) d * msPerDay - tza)) as (iso & -> & ->).
  reflexivity.
Qed.

Lemma recorded_empty key e : ~ Spec.recorded ∅ key e.
Proof. intros (entries & H & _). by rewrite lookup_empty in H. Qed.

(** What is recorded after a push: what was, and the pushed entry. *)
Lemma pushHoliday_recorded holidays key e key' e' :
  Spec.recorded (HolidayFetcher.pushHoliday holidays key e) key' e' <->
  Spec.recorded holidays key' e' \/ (key' = key /\ e' = e).
Proof.
  unfold Spec.recorded, HolidayFetcher.pushHoliday.
  destruct (holidays !! key) as [l |] eqn:Hl.
  - destruct (decide (key' = key)) as [-> | Hne].
    + rewrite lookup_insert_eq. split.
      * intros (entries & [= <-] & Hin). apply elem_of_app in Hin as [Hin | Hin].
        -- left. by exists l.
        -- right. by apply list_elem_of_singleton in Hin as ->.
      * intros [(entries & Hentries & Hin) | [_ ->]].
        -- rewrite Hl in Hentries. injection Hentries as <-.
           eexists. split; [done |]. apply elem_of_app. by left.
        -- eexists. split; [done |]. apply elem_of_app. right. by apply list_elem_of_singleton.
    + rewrite lookup_insert_ne by done. split; [by left |]. intros [H | [Heq _]]; done.
  - destruct (decide (key' = key)) as [-> | Hne].
    + rewrite lookup_insert_eq. split.
      * intros (entries & [= <-] & Hin). right. by apply list_elem_of_singleton in Hin as ->.
      * intros [(entries & Hentries & Hin) | [_ ->]]; [by rewrite Hl in Hentries |].
        eexists. split; [done |]. by apply list_elem_of_singleton.
    + rewrite lookup_insert_ne by done. split; [by left |]. intros [H | [Heq _]]; done.
Qed.

(** The loop never throws, and records exactly the entries of the lines
    that its body does not skip. *)
Lemma parseLines_recorded lines holidays :
  exists holidays',
    HolidayFetcher.parseLines tza currentYear lines holidays = Normal holidays' /\
    forall key e,
      Spec.recorded holidays' key e <->
      Spec.recorded holidays key e \/
      exists line, line ∈ lines /\
        HolidayFetcher.parseLine tza currentYear line = Normal (Some (key, e)).
Proof.
  revert holidays. induction lines as [| line lines IH]; intros holidays;
    cbn [HolidayFetcher.parseLines].
  - exists holidays. split; [done |]. intros key e. split; [by left |].
    intros [H | (line & Hin & _)]; [done | by apply elem_of_nil in Hin].
  - destruct (parseLine_cases line) as [Hskip | (y & m & d & nameStr & _ & _ & Hrow)].
    + rewrite Hskip. destruct (IH holidays) as (holidays' & -> & Hrec).
      exists holidays'. split; [done |]. intros key e. rewrite Hrec. split.
      * intros [H | (l & Hin & Hl)]; [by left |]. right. exists l. split; [by right | done].
      * intros [H | (l & Hin & Hl)]; [by left |].
        apply elem_of_cons in Hin as [-> | Hin]; [congruence |]. right. by exists l.
    + rewrite Hrow.
      destruct (IH (HolidayFetcher.pushHoliday holidays (intToString y)
                      (Spec.rowEntry tza y m d nameStr))) as (holidays' & -> & Hrec).
      exists holidays'. split; [done |]. intros key e.
      rewrite Hrec, pushHoliday_recorded. split.
      * intros [[H | [-> ->]] | (l & Hin & Hl)].
        -- by left.
        -- right. exists line. split; [left | done].
        -- right. exists l. split; [by right | done].
      * intros [H | (l & Hin & Hl)]; [by left; left |].
        apply elem_of_cons in Hin as [-> | Hin].
        -- left. right. rewrite Hrow in Hl. by injection Hl as -> ->.
        -- right. by exists l.
Qed.

(** The collation never ranks two strings both ways. *)
Lemma localeCompare_antisym a b :
  HolidayFetcher.localeCompare b a = - HolidayFetcher.localeCompare a b.
Proof.
  revert b. induction a as [| x a IH]; intros [| y b]; cbn [HolidayFetcher.localeCompare];
    try done.
  destruct (N.ltb_spec (HolidayFetcher.collationRank y) (HolidayFetcher.collationRank x));
  destruct (N.ltb_spec (HolidayFetcher.collationRank x) (HolidayFetcher.collationRank y));
    first [done | lia | apply IH].
Qed.

End ParseCSV.

(** C9.  For every CSV text and every current year, [parseCSV] returns
    normally (no row aborts it) a mapping from years to lists of
    entries such that: every recorded entry comes from a line after the
    header that is a well-formed row (a date field and a name field, a
    date of three parts, a genuine calendar date) whose year is at least
    the current year, and is recorded under that year; every such row
    (of a year that the [Date] constructor does not reinterpret, that is
    outside 0 to 99) is recorded; and each year's list is sorted
    ascending by the [date] strings of its entries, which is the order
    of the days they denote as long as these lie in the years 0 to
    9999. *)
Theorem parseCSV_spec (tza currentYear : Z) (csvText : jsstring) :
  exists holidays : gmap jsstring (list HolidayService.HolidayEntry),
    HolidayFetcher.parseCSV tza currentYear csvText = Normal holidays /\
    (forall key e,
       Spec.recorded holidays key e ->
       exists line y m d nameStr,
         line ∈ tail (split 10%N csvText) /\
         Spec.holidayRow line y m d nameStr /\
         currentYear <= y /\
         key = intToString y /\
         e = Spec.rowEntry tza y m d nameStr) /\
    (forall line y m d nameStr,
       line ∈ tail (split 10%N csvText) ->
       Spec.holidayRow line y m d nameStr ->
       currentYear <= y ->
       Spec.constructedYear y = y ->
       Spec.recorded holidays (intToString y) (Spec.rowEntry tza y m d nameStr)) /\
    (forall key entries,
       holidays !! key = Some entries ->
       Sorted (fun a b =>
                 HolidayFetcher.localeCompare (HolidayService.date a)
                                              (HolidayService.date b) <= 0 /\
                 forall ta tb,
                   HolidayService.date a = isoDate ta -> HolidayService.date b = isoDate tb ->
                   0 <= YearFromDay (Day ta) <= 9999 -> 0 <= YearFromDay (Day tb) <= 9999 ->
                   Day ta <= Day tb)
              entries).
Proof.
  unfold HolidayFetcher.parseCSV.
  destruct (parseLines_recorded tza currentYear (tail (split 10%N csvText)) ∅)
    as (parsed & -> & Hrec).
  set (gt := fun a b : HolidayService.HolidayEntry =>
               0 <? HolidayFetcher.localeCompare (HolidayService.date a) (HolidayService.date b)).
  eexists. split; [reflexivity |].
  assert (Hsorted : forall key e,
            Spec.recorded (sort gt <$> parsed) key e <-> Spec.recorded parsed key e).
  { intros key e. unfold Spec.recorded. split.
    - intros (entries & Hl & Hin). apply lookup_fmap_Some in Hl as (l & <- & Hl).
      exists l. split; [done |]. by rewrite sort_perm in Hin.
    - intros (l & Hl & Hin). exists (sort gt l). split.
      + by rewrite lookup_fmap, Hl.
      + by rewrite sort_perm. }
  split; [| split].
  - intros key e Hin. apply Hsorted, Hrec in Hin as [Hin | (line & Hline & Hparse)].
    + by apply recorded_empty in Hin.
    + destruct (parseLine_cases tza currentYear line)
        as [Hskip | (y & m & d & nameStr & Hrow & Hyear & Hparse')]; [congruence |].
      rewrite Hparse' in Hparse. injection Hparse as <- <-.
      by exists line, y, m, d, nameStr.
  - intros line y m d nameStr Hline Hrow Hyear Hcy.
    apply Hsorted, Hrec. right. exists line. split; [done |].
    by apply parseLine_complete.
  - intros key entries Hl. apply lookup_fmap_Some in Hl as (l & <- & _).
    eapply Sorted_weaken; [| apply sort_is_sorted].
    + cbv beta. intros a b Hab. apply Z.ltb_ge in Hab. split; [exact Hab |].
      intros ta tb Ha Hb Hya Hyb. apply isoDate_chronological; [done | done |].
      by rewrite <- Ha, <- Hb.
    + intros a b Hab. apply Z.ltb_lt in Hab. apply Z.ltb_ge.
      rewrite (localeCompare_antisym (HolidayService.date a)). lia.
Qed.

(** A run on a small file, in UTC and in the year 2025: the rows are out
    of order, one is quoted, one belongs to a past year, one names 30
    February and one has no date. *)
Example parseCSV_sample :
  match
    HolidayFetcher.parseCSV 0 2025
      (lit "date,name" ++ [10%N] ++
       lit "2025/1/13,Coming of Age Day" ++ [13%N; 10%N] ++
       lit "2025/1/1," ++ [34%N] ++ lit "New Year" ++ [34%N; 13%N; 10%N] ++
       lit "2024/12/31,Last year" ++ [10%N] ++
       lit "2025/2/30,No such day" ++ [10%N] ++
       lit "no date here" ++ [10%N])
  with
  | Normal holidays =>
      holidays !! lit "2025" =
        Some [HolidayService.mkHolidayEntry (lit "2025-01-01") (lit "New Year");
              HolidayService.mkHolidayEntry (lit "2025-01-13") (lit "Coming of Age Day")] /\
      holidays !! lit "2024" = None
  | Throw _ => False
  end.
Proof. vm_compute. split; reflexivity. Qed.

(* ================================================================== *)
(** * Moving between weeks (Scheduler.moveToPreviousWeek, moveToNextWeek, getWeekBoundaries, getDayName, isWeekend) *)
(* ================================================================== *)

Lemma setDate_relative tza d k :
  setDate tza d (arith Z.add (getDate tza d) (Some k)) = Spec.addDays k d.
Proof.
  destruct d as [t |]; [| reflexivity].
  cbn [getDate arith]. rewrite setDate_shift. unfold Spec.addDays. f_equal.
  unfold localDay. lia.
Qed.

Lemma setDate_relative_sub tza d k :
  setDate tza d (arith Z.sub (getDate tza d) (Some k)) = Spec.addDays (- k) d.
Proof.
  destruct d as [t |]; [| reflexivity].
  cbn [getDate arith]. rewrite setDate_shift. unfold Spec.addDays. f_equal.
  unfold localDay. lia.
Qed.

Lemma addDays_addDays j k d : Spec.addDays j (Spec.addDays k d) = Spec.addDays (j + k) d.
Proof. destruct d; [| reflexivity]. unfold Spec.addDays. f_equal. lia. Qed.

Lemma addDays_0 d : Spec.addDays 0 d = d.
Proof. destruct d; [| reflexivity]. unfold Spec.addDays. f_equal. lia. Qed.

Lemma getMonday_addDays tza d :
  Scheduler.getMonday tza (Spec.addDays 7 d) = Spec.addDays 7 (Scheduler.getMonday tza d).
Proof.
  destruct d as [t |]; [| reflexivity].
  unfold Spec.addDays at 1. rewrite !getMonday_shift. unfold Spec.addDays. f_equal.
  rewrite localDay_shift.
  replace (WeekDay (localDay tza t + 7)) with (WeekDay (localDay tza t))
    by (unfold WeekDay; Z.div_mod_to_equations; lia).
  lia.
Qed.

Lemma getWeekDates_addDays tza s :
  Scheduler.getWeekDates tza s =
  (fun i => Spec.addDays i (Scheduler.getMonday tza (Scheduler.currentWeek s))) <$> seqZ 0 7.
Proof.
  unfold Scheduler.getWeekDates. apply list_fmap_ext. intros _ i _.
  unfold copy. apply setDate_relative.
Qed.

(** X1.  Moving to the next week and then to the previous week, or the
    other way round, gives back the scheduler as it was, and the second
    call returns the dates of the original week (local time being at a
    fixed offset from UTC).  This holds for every current date, the
    Invalid Date included. *)
Theorem week_navigation_roundtrip (tza : Z) (s : Scheduler.t) :
  Scheduler.moveToPreviousWeek tza (Scheduler.moveToNextWeek tza s).1 =
    (s, Scheduler.getWeekDates tza s) /\
  Scheduler.moveToNextWeek tza (Scheduler.moveToPreviousWeek tza s).1 =
    (s, Scheduler.getWeekDates tza s).
Proof.
  unfold Scheduler.moveToPreviousWeek, Scheduler.moveToNextWeek.
  cbn [fst Scheduler.currentWeek Scheduler.timeRange].
  rewrite !setDate_relative, !setDate_relative_sub, !addDays_addDays.
  replace (- (7) + 7) with 0 by lia. replace (7 + - (7)) with 0 by lia. rewrite addDays_0.
  destruct s; split; reflexivity.
Qed.

(** X2.  [moveToNextWeek] moves the current date seven days forward and
    returns the dates of the week shown before, each seven days later;
    [moveToPreviousWeek] does the same seven days backward. *)
Theorem week_navigation_shift (tza : Z) (s : Scheduler.t) :
  Scheduler.currentWeek (Scheduler.moveToNextWeek tza s).1 = Spec.addDays 7 (Scheduler.currentWeek s) /\
  (Scheduler.moveToNextWeek tza s).2 = Spec.addDays 7 <$> Scheduler.getWeekDates tza s /\
  Scheduler.currentWeek (Scheduler.moveToPreviousWeek tza s).1 = Spec.addDays (-7) (Scheduler.currentWeek s) /\
  (Scheduler.moveToPreviousWeek tza s).2 = Spec.addDays (-7) <$> Scheduler.getWeekDates tza s.
Proof.
  unfold Scheduler.moveToPreviousWeek, Scheduler.moveToNextWeek.
  cbn [fst snd Scheduler.currentWeek].
  rewrite setDate_relative, setDate_relative_sub.
  assert (Hprev : forall d, Scheduler.getMonday tza (Spec.addDays (-7) d) =
                            Spec.addDays (-7) (Scheduler.getMonday tza d)).
  { intros d. rewrite <- (addDays_0 (Scheduler.getMonday tza (Spec.addDays (-7) d))).
    replace 0 with (-7 + 7) at 1 by lia. rewrite <- addDays_addDays, <- getMonday_addDays.
    rewrite addDays_addDays. replace (7 + -7) with 0 by lia. by rewrite addDays_0. }
  repeat split.
  - rewrite !getWeekDates_addDays. cbn [Scheduler.currentWeek].
    rewrite getMonday_addDays, <- list_fmap_compose. apply list_fmap_ext.
    intros _ i _. cbn. rewrite !addDays_addDays. f_equal. lia.
  - rewrite !getWeekDates_addDays. cbn [Scheduler.currentWeek].
    rewrite Hprev, <- list_fmap_compose. apply list_fmap_ext.
    intros _ i _. cbn. rewrite !addDays_addDays. f_equal. lia.
Qed.

(** X3.  [getWeekBoundaries] returns the first and the last of the seven
    dates of [getWeekDates], and its end is the date six days after its
    start. *)
Theorem getWeekBoundaries_spec (tza : Z) (s : Scheduler.t) :
  let b := Scheduler.getWeekBoundaries tza s in
  Scheduler.getWeekDates tza s !! 0%nat = Some (Scheduler.wb_start b) /\
  Scheduler.getWeekDates tza s !! 6%nat = Some (Scheduler.wb_end b) /\
  length (Scheduler.getWeekDates tza s) = 7%nat /\
  Scheduler.wb_end b = Spec.addDays 6 (Scheduler.wb_start b).
Proof.
  cbv zeta. rewrite getWeekDates_addDays.
  unfold Scheduler.getWeekBoundaries. cbn [Scheduler.wb_start Scheduler.wb_end].
  unfold copy. rewrite setDate_relative.
  change (seqZ 0 7) with [0; 1; 2; 3; 4; 5; 6]. cbn [fmap list_fmap lookup list_lookup length].
  rewrite addDays_0. done.
Qed.

Lemma getDay_week tza t i :
  getDay tza (Spec.addDays i (Scheduler.getMonday tza (TimeValue t))) = Some ((1 + i) mod 7).
Proof.
  rewrite getMonday_shift. unfold Spec.addDays. cbn [getDay]. f_equal.
  replace (t - (WeekDay (localDay tza t) + 6) mod 7 * msPerDay + i * msPerDay)
    with (t + (i - (WeekDay (localDay tza t) + 6) mod 7) * msPerDay) by lia.
  rewrite localDay_shift. unfold WeekDay. Z.div_mod_to_equations. lia.
Qed.

(** X4.  For a valid current date, the names that [getDayName] gives to
    the seven dates of [getWeekDates] are, in order, the entries of the
    array [weekdays] (Monday to Sunday), with either value of [short];
    [isSaturday] holds of the sixth date only, [isSunday] of the seventh
    only, and [isWeekend] of these two. *)
Theorem week_day_names (tza : Z) (s : Scheduler.t) (t : Z) :
  Scheduler.currentWeek s = TimeValue t ->
  (fun d => Scheduler.getDayName tza d true) <$> Scheduler.getWeekDates tza s =
    Some <$> Scheduler.weekdays /\
  (fun d => Scheduler.getDayName tza d false) <$> Scheduler.getWeekDates tza s =
    Some <$> Scheduler.weekdays /\
  Scheduler.isSaturday tza <$> Scheduler.getWeekDates tza s =
    [false; false; false; false; false; true; false] /\
  Scheduler.isSunday tza <$> Scheduler.getWeekDates tza s =
    [false; false; false; false; false; false; true] /\
  Scheduler.isWeekend tza <$> Scheduler.getWeekDates tza s =
    [false; false; false; false; false; true; true].
Proof.
  intros Ht. rewrite getWeekDates_addDays, Ht.
  change (seqZ 0 7) with [0; 1; 2; 3; 4; 5; 6].
  unfold Scheduler.getDayName, Scheduler.isSaturday, Scheduler.isSunday, Scheduler.isWeekend.
  cbn [fmap list_fmap]. rewrite !getDay_week.
  repeat split; reflexivity.
Qed.

Lemma week_day_names_witness :
  Scheduler.currentWeek (Scheduler.constructor (TimeValue 0)) = TimeValue 0 /\
  (fun d => Scheduler.getDayName 0 d true) <$>
     Scheduler.getWeekDates 0 (Scheduler.constructor (TimeValue 0)) =
    Some <$> Scheduler.weekdays /\
  (fun d => Scheduler.getDayName 0 d false) <$>
     Scheduler.getWeekDates 0 (Scheduler.constructor (TimeValue 0)) =
    Some <$> Scheduler.weekdays /\
  Scheduler.isSaturday 0 <$> Scheduler.getWeekDates 0 (Scheduler.constructor (TimeValue 0)) =
    [false; false; false; false; false; true; false] /\
  Scheduler.isSunday 0 <$> Scheduler.getWeekDates 0 (Scheduler.constructor (TimeValue 0)) =
    [false; false; false; false; false; false; true] /\
  Scheduler.isWeekend 0 <$> Scheduler.getWeekDates 0 (Scheduler.constructor (TimeValue 0)) =
    [false; false; false; false; false; true; true].
Proof.
  split; [reflexivity |].
  apply (week_day_names 0 (Scheduler.constructor (TimeValue 0)) 0). reflexivity.
Defined.


(* ================================================================== *)
(** * Today, the past, and minutes (Scheduler.isToday, isPast, timeToMinutes, minutesToTime) *)
(* ================================================================== *)

Lemma calendar_fields_inj D1 D2 :
  YearFromDay D1 = YearFromDay D2 -> MonthFromDay D1 = MonthFromDay D2 ->
  DateFromDay D1 = DateFromDay D2 -> D1 = D2.
Proof.
  intros HY HM HD. rewrite <- (MakeDay_fields D1), <- (MakeDay_fields D2).
  by rewrite HY, HM, HD.
Qed.

(** X5.  [isToday] returns true exactly for the valid dates that fall on
    the local calendar day of the instant of the call; it returns false
    for the Invalid Date. *)
Theorem isToday_same_day (tza now : Z) (date : Date) :
  Scheduler.isToday tza now date = true <->
  exists t, date = TimeValue t /\ localDay tza t = localDay tza now.
Proof.
  unfold Scheduler.isToday. destruct date as [t |]; cbn [getDate getMonth getFullYear strictEq].
  - rewrite !andb_true_iff, !Z.eqb_eq. split.
    + intros [[HD HM] HY]. exists t. split; [done |]. by apply calendar_fields_inj.
    + intros (t' & [= <-] & ->). done.
  - cbn [andb]. split; [done |]. by intros (t & [=] & _).
Qed.

Lemma setHours_midnight tza t :
  setHours tza (TimeValue t) 0 0 0 0 = TimeValue (localDay tza t * msPerDay - tza).
Proof. unfold setHours, UTC, MakeDate, MakeTime, localDay. f_equal. lia. Qed.

(** X6.  [isPast] returns true exactly for the valid dates whose local
    calendar day is before that of the instant of the call: no instant
    of the current day is past, and the Invalid Date is not past. *)
Theorem isPast_earlier_day (tza now : Z) (date : Date) :
  Scheduler.isPast tza now date = true <->
  exists t, date = TimeValue t /\ localDay tza t < localDay tza now.
Proof.
  unfold Scheduler.isPast, copy. rewrite setHours_midnight.
  destruct date as [t |].
  - rewrite setHours_midnight. cbn [getTime lessThan]. rewrite Z.ltb_lt. split.
    + intros H. exists t. split; [done |]. unfold msPerDay in H. lia.
    + intros (t' & [= <-] & H). unfold msPerDay. lia.
  - cbn [setHours getTime lessThan]. split; [done |]. by intros (t & [=] & _).
Qed.

(** X7.  [minutesToTime] followed by [timeToMinutes] gives back a number
    of minutes exactly when it is non-negative or a multiple of 60 (the
    hour is a floor, the minute a remainder that takes the sign of the
    dividend).  [timeToMinutes] followed by [minutesToTime] gives back an
    hour and a minute exactly when the minute is from 0 to 59 and the
    hour is non-negative or the minute is 0. *)
Theorem minutes_roundtrip (totalMinutes hour minute : Z) :
  (Scheduler.timeToMinutes (Scheduler.hm_hour (Scheduler.minutesToTime totalMinutes))
                           (Scheduler.hm_minute (Scheduler.minutesToTime totalMinutes))
     = totalMinutes <->
   0 <= totalMinutes \/ totalMinutes mod 60 = 0) /\
  (Scheduler.minutesToTime (Scheduler.timeToMinutes hour minute) =
     Scheduler.mkHourMinute hour minute <->
   0 <= minute < 60 /\ (0 <= hour \/ minute = 0)).
Proof.
  unfold Scheduler.timeToMinutes, Scheduler.minutesToTime.
  cbn [Scheduler.hm_hour Scheduler.hm_minute]. split.
  - split.
    + intros H. Z.to_euclidean_division_equations. lia.
    + intros H. Z.to_euclidean_division_equations. lia.
  - split.
    + intros [= H1 H2]. Z.to_euclidean_division_equations. lia.
    + intros H. f_equal; Z.to_euclidean_division_equations; lia.
Qed.

(* ================================================================== *)
(** * Time slots in general (Scheduler.generateTimeSlots, getTotalTimeSlots, getSelectableRange) *)
(* ================================================================== *)

Section TimeSlots.
Variable r : Scheduler.TimeRange.
Variable q : Z.
Hypothesis Hq : Scheduler.minuteInterval r * q = 60.
Hypothesis Hi : 0 < Scheduler.minuteInterval r.

#[local] Abbreviation i := (Scheduler.minuteInterval r).

Lemma minuteLoop_block fuel h j :
  h <> Scheduler.endHour r -> 0 <= j <= q -> q - j < Z.of_nat fuel ->
  Scheduler.minuteLoop fuel r h (j * i) =
  Some ((fun k => Spec.slotOf h (k * i)) <$> seqZ j (q - j)).
Proof.
  intros Hh. revert j. induction fuel as [| fuel IH]; intros j Hj Hfuel; [lia |].
  cbn [Scheduler.minuteLoop].
  destruct (Z.ltb_spec (j * i) 60) as [Hlt | Hge].
  - destruct (Z.eqb_spec h (Scheduler.endHour r)) as [| _]; [done |]. cbn [andb].
    assert (j < q) by nia.
    replace (j * i + i) with ((j + 1) * i) by lia.
    rewrite IH by lia. cbn [fmap option_fmap option_map].
    rewrite (seqZ_cons j (q - j)) by lia. cbn [fmap list_fmap].
    replace (Z.succ j) with (j + 1) by lia. replace (Z.pred (q - j)) with (q - (j + 1)) by lia.
    reflexivity.
  - assert (j = q) as -> by nia. by rewrite Z.sub_diag.
Qed.

Lemma minuteLoop_last fuel :
  (2 <= fuel)%nat ->
  Scheduler.minuteLoop fuel r (Scheduler.endHour r) 0 = Some [Spec.slotOf (Scheduler.endHour r) 0].
Proof.
  intros Hfuel. destruct fuel as [| [| fuel]]; [lia | lia |].
  cbn [Scheduler.minuteLoop]. change (0 <? 60) with true. cbv iota.
  rewrite Z.eqb_refl. change (0 <? 0) with false. cbn [andb]. cbv iota.
  rewrite Z.add_0_l. destruct (Z.ltb_spec i 60).
  - rewrite (proj2 (Z.ltb_lt 0 i)) by lia. reflexivity.
  - reflexivity.
Qed.

Lemma hourLoop_blocks fuel n h0 :
  q < Z.of_nat fuel -> (2 <= fuel)%nat ->
  h0 + Z.of_nat n = Scheduler.endHour r ->
  Scheduler.hourLoop fuel r (seqZ h0 (Z.of_nat n + 1)) =
  Some ((fun k => Spec.slotOf (h0 + k / q) (k mod q * i)) <$> seqZ 0 (Z.of_nat n * q + 1)).
Proof.
  intros Hfuel Hfuel2. assert (0 < q) by nia.
  revert h0. induction n as [| n IH]; intros h0 Hend.
  - change (Z.of_nat 0) with 0 in Hend. rewrite Z.add_0_r in Hend. subst h0.
    change (Z.of_nat 0 * q + 1) with 1. change (Z.of_nat 0 + 1) with 1.
    change (seqZ 0 1) with [0]. rewrite seqZ_cons by lia.
    change (Z.pred 1) with 0. rewrite seqZ_nil by lia.
    cbn [Scheduler.hourLoop]. rewrite minuteLoop_last by done.
    cbn [fmap option_fmap option_map list_fmap app].
    rewrite Z.div_0_l, Z.mod_0_l by lia. by rewrite Z.add_0_r.
  - rewrite (seqZ_cons h0) by lia. cbn [Scheduler.hourLoop].
    replace 0 with (0 * i) at 1 by lia.
    rewrite minuteLoop_block by lia.
    replace (Z.pred (Z.of_nat (S n) + 1)) with (Z.of_nat n + 1) by lia.
    rewrite IH by lia. cbn [fmap option_fmap option_map]. f_equal.
    replace (Z.of_nat (S n) * q + 1) with (q + (Z.of_nat n * q + 1)) by lia.
    rewrite (seqZ_app 0 q (Z.of_nat n * q + 1)) by lia. rewrite fmap_app. rewrite Z.sub_0_r, Z.add_0_l. f_equal.
    + apply list_fmap_ext. intros idx k Hk. apply lookup_seqZ in Hk as [-> Hk].
      rewrite Z.add_0_l. f_equal.
      * rewrite Z.div_small by lia. lia.
      * rewrite Z.mod_small by lia. done.
    + assert (seqZ q (Z.of_nat n * q + 1) = Z.add q <$> seqZ 0 (Z.of_nat n * q + 1)) as ->
        by (rewrite fmap_add_seqZ; f_equal; lia).
      rewrite <- list_fmap_compose.
      apply list_fmap_ext. intros _ k _. cbn. f_equal.
      * replace (q + k) with (k + 1 * q) by lia. rewrite Z.div_add by lia. lia.
      * replace (q + k) with (k + 1 * q) by lia. by rewrite Z.mod_add by lia.
Qed.

End TimeSlots.

(** X8.  When the start hour is non-negative and at most the end hour,
    and the interval is a positive divisor of 60, [generateTimeSlots]
    returns (61 iterations of each inner loop suffice) one slot more
    than [getTotalTimeSlots] counts; the slot at position [k] is the
    time that [getTimeSlotFromIndex] gives for [k], [getTimeSlotIndex]
    of its time is [k], and its label and hour mark are those of its
    time. *)
Theorem generateTimeSlots_by_index (s : Scheduler.t) (fuel : nat) (q : Z) :
  let r := Scheduler.timeRange s in
  0 <= Scheduler.startHour r <= Scheduler.endHour r ->
  0 < Scheduler.minuteInterval r ->
  Scheduler.minuteInterval r * q = 60 ->
  (61 <= fuel)%nat ->
  exists slots,
    Scheduler.generateTimeSlots fuel s = Some slots /\
    Scheduler.getTotalTimeSlots s = Finite (Z.of_nat (length slots) - 1) /\
    forall k slot,
      slots !! k = Some slot ->
      Scheduler.getTimeSlotFromIndex s (Z.of_nat k) =
        Scheduler.mkHourMinute (Scheduler.hour slot) (Scheduler.minute slot) /\
      Scheduler.getTimeSlotIndex s (Scheduler.hour slot) (Scheduler.minute slot) = Z.of_nat k /\
      slot = Spec.slotOf (Scheduler.hour slot) (Scheduler.minute slot).
Proof.
  intros r Hhours Hi Hq Hfuel. assert (0 < q <= 60) by nia.
  unfold Scheduler.generateTimeSlots. fold r.
  set (n := Z.to_nat (Scheduler.endHour r - Scheduler.startHour r)).
  replace (Scheduler.endHour r - Scheduler.startHour r + 1) with (Z.of_nat n + 1) by lia.
  rewrite (hourLoop_blocks r q Hq Hi) by lia.
  eexists. split; [reflexivity |]. split.
  - rewrite length_fmap, length_seqZ.
    unfold Scheduler.getTotalTimeSlots, ceilDiv. fold r.
    destruct (Z.eqb_spec (Scheduler.minuteInterval r) 0); [lia |]. f_equal.
    replace (Z.of_nat (Z.to_nat (Z.of_nat n * q + 1)) - 1) with (Z.of_nat n * q) by nia.
    replace (- ((Scheduler.endHour r - Scheduler.startHour r) * 60))
      with ((- Z.of_nat n * q) * Scheduler.minuteInterval r) by nia.
    rewrite Z.div_mul by lia. lia.
  - intros k slot Hk. apply list_lookup_fmap_Some in Hk as (j & -> & Hj).
    apply lookup_seqZ in Hj as [-> Hj]. rewrite Z.add_0_l.
    cbn [Spec.slotOf Scheduler.hour Scheduler.minute].
    set (K := Z.of_nat k) in *. set (i := Scheduler.minuteInterval r) in *.
    assert (HK : K = q * (K / q) + K mod q) by (apply Z.div_mod; lia).
    assert (Hmod : 0 <= K mod q < q) by (apply Z.mod_pos_bound; lia).
    assert (Hdiv : 0 <= K / q) by (apply Z.div_pos; lia).
    assert (Hhour : K / q <= Z.of_nat n).
    { apply Z.div_le_upper_bound; nia. }
    assert (Hlast : K / q = Z.of_nat n -> K mod q = 0) by nia.
    clearbody K. clear Hj k.
    set (d := K / q) in *. set (m := K mod q) in *. clearbody d m.
    assert (Hm60 : 0 <= m * i < 60) by nia.
    assert (Hrange : d < Z.of_nat n \/ m = 0) by lia.
    split; [| split; [| reflexivity]].
    + unfold Scheduler.getTimeSlotFromIndex, Scheduler.minutesToTime. fold r. fold i.
      assert (Htotal : Scheduler.startHour r * 60 + K * i =
                       (Scheduler.startHour r + d) * 60 + m * i) by nia.
      rewrite Htotal. f_equal.
      * rewrite Z.div_add_l by lia. rewrite Z.div_small by lia. lia.
      * rewrite Z.rem_mod_nonneg by lia.
        rewrite Z.add_comm, Z.mod_add by lia. apply Z.mod_small. lia.
    + unfold Scheduler.getTimeSlotIndex, Scheduler.isValidTime. fold r. fold i.
      unfold remainder. destruct (Z.eqb_spec i 0); [lia |].
      replace (Z.rem (m * i) i) with 0
        by (rewrite Z.rem_mod_nonneg by lia; by rewrite Z.mod_mul by lia).
      cbn [strictEq]. rewrite Z.eqb_refl.
      rewrite (proj2 (Z.leb_le _ _)) by lia.
      rewrite (proj2 (Z.leb_le _ _)) by lia.
      rewrite (proj2 (Z.leb_le _ _)) by lia.
      rewrite (proj2 (Z.ltb_lt _ _)) by lia.
      cbn [andb negb].
      replace ((Scheduler.startHour r + d) * 60 + m * i - Scheduler.startHour r * 60)
        with (K * i) by nia.
      by rewrite Z.div_mul by lia.
Qed.

Lemma generateTimeSlots_by_index_witness :
  0 <= Scheduler.startHour (Scheduler.timeRange (Scheduler.constructor (TimeValue 0)))
    <= Scheduler.endHour (Scheduler.timeRange (Scheduler.constructor (TimeValue 0))) /\
  0 < Scheduler.minuteInterval (Scheduler.timeRange (Scheduler.constructor (TimeValue 0))) /\
  Scheduler.minuteInterval (Scheduler.timeRange (Scheduler.constructor (TimeValue 0))) * 4 = 60 /\
  (61 <= 61)%nat /\
  exists slots,
    Scheduler.generateTimeSlots 61 (Scheduler.constructor (TimeValue 0)) = Some slots /\
    Scheduler.getTotalTimeSlots (Scheduler.constructor (TimeValue 0)) =
      Finite (Z.of_nat (length slots) - 1) /\
    forall k slot,
      slots !! k = Some slot ->
      Scheduler.getTimeSlotFromIndex (Scheduler.constructor (TimeValue 0)) (Z.of_nat k) =
        Scheduler.mkHourMinute (Scheduler.hour slot) (Scheduler.minute slot) /\
      Scheduler.getTimeSlotIndex (Scheduler.constructor (TimeValue 0))
        (Scheduler.hour slot) (Scheduler.minute slot) = Z.of_nat k /\
      slot = Spec.slotOf (Scheduler.hour slot) (Scheduler.minute slot).
Proof.
  split; [cbn; lia |]. split; [cbn; lia |]. split; [reflexivity |]. split; [lia |].
  apply (generateTimeSlots_by_index (Scheduler.constructor (TimeValue 0)) 61 4);
    [cbn; lia | cbn; lia | reflexivity | lia].
Defined.

Lemma minuteLoop_terminates r fuel h m :
  0 < Scheduler.minuteInterval r -> 60 - m < Z.of_nat fuel -> (1 <= fuel)%nat ->
  is_Some (Scheduler.minuteLoop fuel r h m).
Proof.
  intros Hi. revert m. induction fuel as [| fuel IH]; intros m Hfuel Hpos;
    cbn [Scheduler.minuteLoop]; [lia |].
  - destruct (Z.ltb_spec m 60); [| done].
    destruct ((h =? Scheduler.endHour r) && (0 <? m)); [done |].
    destruct (IH (m + Scheduler.minuteInterval r) ltac:(lia) ltac:(lia)) as [slots ->]. done.
Qed.

Lemma hourLoop_terminates r fuel hours :
  0 < Scheduler.minuteInterval r -> (61 <= fuel)%nat ->
  is_Some (Scheduler.hourLoop fuel r hours).
Proof.
  intros Hi Hfuel. induction hours as [| h hours IH]; cbn [Scheduler.hourLoop]; [done |].
  destruct (minuteLoop_terminates r fuel h 0 Hi ltac:(lia) ltac:(lia)) as [slots ->].
  destruct IH as [rest ->]. done.
Qed.

Lemma minuteLoop_diverges r fuel h m :
  Scheduler.minuteInterval r <= 0 -> m <= 0 ->
  Scheduler.minuteLoop fuel r h m = None.
Proof.
  intros Hi. revert m. induction fuel as [| fuel IH]; intros m Hm; cbn [Scheduler.minuteLoop];
    [done |].
  rewrite (proj2 (Z.ltb_lt m 60)) by lia.
  rewrite (proj2 (Z.ltb_ge 0 m)) by lia. rewrite andb_false_r.
  by rewrite IH by lia.
Qed.

(** X9.  [generateTimeSlots] returns the empty list when the end hour is
    before the start hour; it returns, within 61 iterations of each
    inner loop, for every positive interval; and when the start hour is
    at most the end hour and the interval is zero or negative, its inner
    loop never ends, whatever the number of iterations allowed. *)
Theorem generateTimeSlots_termination (s : Scheduler.t) :
  let r := Scheduler.timeRange s in
  (Scheduler.endHour r < Scheduler.startHour r ->
   forall fuel, Scheduler.generateTimeSlots fuel s = Some []) /\
  (0 < Scheduler.minuteInterval r ->
   forall fuel, (61 <= fuel)%nat -> is_Some (Scheduler.generateTimeSlots fuel s)) /\
  (Scheduler.startHour r <= Scheduler.endHour r -> Scheduler.minuteInterval r <= 0 ->
   forall fuel, Scheduler.generateTimeSlots fuel s = None).
Proof.
  intros r. unfold Scheduler.generateTimeSlots. fold r. repeat split.
  - intros Hh fuel. by rewrite seqZ_nil by lia.
  - intros Hi fuel Hfuel. by apply hourLoop_terminates.
  - intros Hh Hi fuel. rewrite seqZ_cons by lia. cbn [Scheduler.hourLoop].
    by rewrite minuteLoop_diverges.
Qed.

Lemma isValidTime_minutes s T :
  0 <= T ->
  Scheduler.isValidTime s (T / 60) (Z.rem T 60) = true <->
  Scheduler.minuteInterval (Scheduler.timeRange s) <> 0 /\
  Scheduler.startHour (Scheduler.timeRange s) * 60 <= T <
    (Scheduler.endHour (Scheduler.timeRange s) + 1) * 60 /\
  (Scheduler.minuteInterval (Scheduler.timeRange s) | T mod 60).
Proof.
  intros HT. unfold Scheduler.isValidTime, remainder.
  rewrite (Z.rem_mod_nonneg T 60) by lia.
  pose proof (Z.mod_pos_bound T 60 ltac:(lia)) as Hm.
  rewrite (proj2 (Z.leb_le 0 (T mod 60))) by lia.
  rewrite (proj2 (Z.ltb_lt (T mod 60) 60)) by lia.
  rewrite !andb_true_r, andb_true_iff, andb_true_iff, !Z.leb_le.
  destruct (Z.eqb_spec (Scheduler.minuteInterval (Scheduler.timeRange s)) 0) as [H0 | H0].
  - cbn [strictEq]. split; [intros [_ [=]] | intros [? _]; done].
  - cbn [strictEq]. rewrite Z.eqb_eq, Z.rem_divide by done.
    split.
    + intros [[H1 H2] H3]. split; [done |]. split; [| done].
      Z.to_euclidean_division_equations. lia.
    + intros (_ & H1 & H2). split; [| done].
      Z.to_euclidean_division_equations. lia.
Qed.

(** X10.  For a scheduler whose start hour is not negative,
    [getSelectableRange] reports a valid range exactly when the interval
    is not zero, the smaller time is at least the start hour, strictly
    before the larger time, the larger time is at most the end hour, and
    the minutes past the hour of both are multiples of the interval.  The
    result does not depend on the order of the two arguments; a valid
    result holds the two times, smaller first, and an invalid one holds
    [null] twice. *)
Theorem getSelectableRange_spec (s : Scheduler.t) (startTime endTime : Z) :
  let r := Scheduler.timeRange s in
  let lo := Z.min startTime endTime in
  let hi := Z.max startTime endTime in
  let range := Scheduler.getSelectableRange s startTime endTime in
  0 <= Scheduler.startHour r ->
  (Scheduler.sr_isValid range = true <->
   Scheduler.minuteInterval r <> 0 /\
   Scheduler.startHour r * 60 <= lo /\ lo < hi /\ hi <= Scheduler.endHour r * 60 /\
   (Scheduler.minuteInterval r | lo mod 60) /\ (Scheduler.minuteInterval r | hi mod 60)) /\
  Scheduler.getSelectableRange s endTime startTime = range /\
  (if Scheduler.sr_isValid range
   then exists st en,
          Scheduler.sr_start range = Some st /\ Scheduler.sr_end range = Some en /\
          Scheduler.timeToMinutes (Scheduler.hm_hour st) (Scheduler.hm_minute st) = lo /\
          Scheduler.timeToMinutes (Scheduler.hm_hour en) (Scheduler.hm_minute en) = hi
   else Scheduler.sr_start range = None /\ Scheduler.sr_end range = None).
Proof.
  intros r lo hi range Hstart.
  assert (Hvalid : Scheduler.isValidTimeRange s (lo / 60) (Z.rem lo 60) (hi / 60) (Z.rem hi 60)
                   = true <->
                   Scheduler.minuteInterval r <> 0 /\
                   Scheduler.startHour r * 60 <= lo /\ lo < hi /\
                   hi <= Scheduler.endHour r * 60 /\
                   (Scheduler.minuteInterval r | lo mod 60) /\
                   (Scheduler.minuteInterval r | hi mod 60)).
  { unfold Scheduler.isValidTimeRange. fold r.
    rewrite !andb_true_iff, orb_true_iff, andb_true_iff, !Z.ltb_lt, !Z.eqb_eq.
    unfold Scheduler.timeToMinutes. split.
    - intros [[[H1 H2] H3] H4].
      assert (Hlo : 0 <= lo).
      { unfold Scheduler.isValidTime in H1. fold r in H1.
        rewrite !andb_true_iff, !Z.leb_le in H1.
        Z.to_euclidean_division_equations. lia. }
      assert (Hhi : 0 <= hi) by lia.
      apply isValidTime_minutes in H1 as (Hi & H1 & H1'); [| done].
      apply isValidTime_minutes in H2 as (_ & H2 & H2'); [| done].
      fold r in Hi, H1, H1', H2, H2'.
      repeat split; try done; try lia.
      + rewrite Z.rem_mod_nonneg in H3 by lia. rewrite Z.rem_mod_nonneg in H3 by lia.
        Z.to_euclidean_division_equations. lia.
      + rewrite (Z.rem_mod_nonneg hi) in H4 by lia.
        Z.to_euclidean_division_equations. lia.
    - intros (Hi & H1 & H2 & H3 & H4 & H5).
      assert (Hlo : 0 <= lo) by lia. assert (Hhi : 0 <= hi) by lia.
      split; [split; [split |] |].
      + apply isValidTime_minutes; [done |]. fold r. repeat split; try done; lia.
      + apply isValidTime_minutes; [done |]. fold r. repeat split; try done; lia.
      + rewrite !Z.rem_mod_nonneg by lia. Z.to_euclidean_division_equations. lia.
      + rewrite (Z.rem_mod_nonneg hi) by lia. Z.to_euclidean_division_equations. lia. }
  assert (Hsym : Scheduler.getSelectableRange s endTime startTime = range).
  { unfold range, Scheduler.getSelectableRange.
    by rewrite (Z.min_comm endTime), (Z.max_comm endTime). }
  split; [| split; [exact Hsym |]].
  - unfold range, Scheduler.getSelectableRange, Scheduler.minutesToTime.
    cbn [Scheduler.hm_hour Scheduler.hm_minute]. fold lo hi.
    destruct (Scheduler.isValidTimeRange s (lo / 60) (Z.rem lo 60) (hi / 60) (Z.rem hi 60));
      cbn [Scheduler.sr_isValid]; [exact Hvalid |].
    rewrite <- Hvalid. done.
  - unfold range, Scheduler.getSelectableRange, Scheduler.minutesToTime.
    cbn [Scheduler.hm_hour Scheduler.hm_minute]. fold lo hi.
    destruct (Scheduler.isValidTimeRange s (lo / 60) (Z.rem lo 60) (hi / 60) (Z.rem hi 60))
      eqn:Hv; cbn [Scheduler.sr_isValid Scheduler.sr_start Scheduler.sr_end]; [| done].
    destruct (proj1 Hvalid eq_refl) as (_ & H1 & H2 & _).
    eexists _, _. split; [reflexivity |]. split; [reflexivity |].
    cbn [Scheduler.hm_hour Scheduler.hm_minute]. unfold Scheduler.timeToMinutes.
    rewrite !Z.rem_mod_nonneg by lia. split; Z.to_euclidean_division_equations; lia.
Qed.

Lemma getSelectableRange_spec_witness :
  0 <= Scheduler.startHour (Scheduler.timeRange (Scheduler.constructor (TimeValue 0))) /\
  let s := Scheduler.constructor (TimeValue 0) in
  let r := Scheduler.timeRange s in
  let lo := Z.min 600 540 in
  let hi := Z.max 600 540 in
  let range := Scheduler.getSelectableRange s 600 540 in
  (Scheduler.sr_isValid range = true <->
   Scheduler.minuteInterval r <> 0 /\
   Scheduler.startHour r * 60 <= lo /\ lo < hi /\ hi <= Scheduler.endHour r * 60 /\
   (Scheduler.minuteInterval r | lo mod 60) /\ (Scheduler.minuteInterval r | hi mod 60)) /\
  Scheduler.getSelectableRange s 540 600 = range /\
  (if Scheduler.sr_isValid range
   then exists st en,
          Scheduler.sr_start range = Some st /\ Scheduler.sr_end range = Some en /\
          Scheduler.timeToMinutes (Scheduler.hm_hour st) (Scheduler.hm_minute st) = lo /\
          Scheduler.timeToMinutes (Scheduler.hm_hour en) (Scheduler.hm_minute en) = hi
   else Scheduler.sr_start range = None /\ Scheduler.sr_end range = None).
Proof.
  split; [cbn; lia |].
  apply (getSelectableRange_spec (Scheduler.constructor (TimeValue 0)) 600 540). cbn. lia.
Defined.

(* ================================================================== *)
(** * The n-th weekday of a month (Scheduler.getNthWeekdayOfMonth) *)
(* ================================================================== *)

(** X11.  For a month from 1 to 12, a weekday from 0 to 6, [n] from 1 to
    4 and a year that the [Date] constructor does not reinterpret (a
    year outside 0 to 99), [Scheduler.getNthWeekdayOfMonth] returns the
    same date as [HolidayService._getNthWeekdayOfMonth]: local midnight
    of a day of that year and month that falls on the given weekday and
    whose day of the month lies from [7 (n - 1) + 1] to [7 n], that is,
    the [n]-th such weekday of the month. *)
Theorem getNthWeekdayOfMonth_spec (tza year month weekday n : Z) :
  let d := Scheduler.getNthWeekdayOfMonth tza year month weekday n in
  1 <= month <= 12 -> 0 <= weekday <= 6 -> 1 <= n <= 4 ->
  Spec.constructedYear year = year ->
  d = HolidayService._getNthWeekdayOfMonth tza (Some year) month weekday n /\
  exists k,
    7 * (n - 1) < k <= 7 * n /\
    d = ofFields tza (Some year) (Some (month - 1)) (Some k) /\
    getFullYear tza d = Some year /\
    getMonth tza d = Some (month - 1) /\
    getDate tza d = Some k /\
    getDay tza d = Some weekday.
Proof.
  intros d Hm Hw Hn Hy.
  assert (Hd : d = HolidayService._getNthWeekdayOfMonth tza (Some year) month weekday n)
    by reflexivity.
  split; [exact Hd |].
  rewrite getNthWeekdayOfMonth_value in Hd by done. rewrite Hy in Hd.
  set (k := Spec.nthWeekdayDate (Spec.firstDayWeekday year month) weekday n) in *.
  assert (Hk : 7 * (n - 1) < k <= 7 * n).
  { unfold k, Spec.nthWeekdayDate.
    pose proof (Z.mod_pos_bound (weekday - Spec.firstDayWeekday year month + 7) 7). lia. }
  exists k. split; [exact Hk |].
  destruct (localDay_ofFields tza year (month - 1) k) as [Hof Hloc].
  rewrite Hy in Hof, Hloc. rewrite Hof, Hd.
  split; [reflexivity |].
  cbn [getFullYear getMonth getDate getDay]. rewrite Hloc.
  destruct (fields_MakeDay year (month - 1) k) as (-> & -> & ->); [lia | |].
  { pose proof (daysInMonth_ge_28 year (month - 1 + 1)). lia. }
  repeat split. f_equal.
  rewrite MakeDay_date. unfold k, Spec.nthWeekdayDate, Spec.firstDayWeekday.
  generalize (MakeDay year (month - 1) 1). intros D. unfold WeekDay.
  Z.div_mod_to_equations. lia.
Qed.

Lemma getNthWeekdayOfMonth_spec_witness :
  1 <= 1 <= 12 /\ 0 <= 1 <= 6 /\ 1 <= 2 <= 4 /\ Spec.constructedYear 2025 = 2025 /\
  Scheduler.getNthWeekdayOfMonth 0 2025 1 1 2 =
    HolidayService._getNthWeekdayOfMonth 0 (Some 2025) 1 1 2 /\
  exists k,
    7 * (2 - 1) < k <= 7 * 2 /\
    Scheduler.getNthWeekdayOfMonth 0 2025 1 1 2 = ofFields 0 (Some 2025) (Some (1 - 1)) (Some k) /\
    getFullYear 0 (Scheduler.getNthWeekdayOfMonth 0 2025 1 1 2) = Some 2025 /\
    getMonth 0 (Scheduler.getNthWeekdayOfMonth 0 2025 1 1 2) = Some (1 - 1) /\
    getDate 0 (Scheduler.getNthWeekdayOfMonth 0 2025 1 1 2) = Some k /\
    getDay 0 (Scheduler.getNthWeekdayOfMonth 0 2025 1 1 2) = Some 1.
Proof.
  split; [lia |]. split; [lia |]. split; [lia |]. split; [reflexivity |].
  apply (getNthWeekdayOfMonth_spec 0 2025 1 1 2); [lia | lia | lia | reflexivity].
Defined.

(* ================================================================== *)
(** * The life of the holiday service (HolidayService.initialize, getStatus, getHolidays) *)
(* ================================================================== *)

(** Reachable instances. *)
Lemma run_snoc i events e :
  HolidayService.run i (events ++ [e]) = HolidayService.step (HolidayService.run i events) e.
Proof. unfold HolidayService.run. by rewrite foldl_app. Qed.

Lemma performInitialization_cases r :
  let s := HolidayService._performInitialization HolidayService.constructor r in
  HolidayService.isInitialized s = true /\
  ((exists data, HolidayService.holidayData s = Some data) \/
   (HolidayService.holidayData s = None /\ Spec.fallbackMode s /\
    HolidayService.fallbackHolidays s =
      HolidayService.fallbackHolidays
        (HolidayService._initializeFallbackHolidays HolidayService.constructor))).
Proof.
  cbv zeta. split.
  - unfold HolidayService._performInitialization.
    by destruct (HolidayService._loadHolidayJSON _ r) as [s' []].
  - destruct (HolidayService.holidayData
                (HolidayService._performInitialization HolidayService.constructor r))
      as [data |] eqn:Hdata; [left; by exists data | right].
    split; [done |]. split; [split; [exact Hdata | by exists r] |].
    revert Hdata. unfold HolidayService._performInitialization, HolidayService._loadHolidayJSON.
    destruct r as [reason | [] [[updated [hs |]] |]]; try reflexivity.
    destruct (HolidayService.totalHolidays hs); discriminate.
Qed.

(** A year that is [null] makes the statistics of the load throw. *)
Lemma totalHolidays_null hs year :
  hs !! year = Some None -> exists e, HolidayService.totalHolidays hs = Throw e.
Proof.
  intros Hyear. unfold HolidayService.totalHolidays.
  destruct (decide _) as [Hall | _]; [| by eexists].
  destruct (Hall year None Hyear) as [entries [=]].
Qed.

Lemma reachable_cases events :
  let i := HolidayService.run HolidayService.newServiceObject events in
  (HolidayService.service i = HolidayService.constructor /\
   HolidayService.requests i = (if HolidayService.initPromise i then 1 else 0)%nat) \/
  (HolidayService.initPromise i = true /\ HolidayService.requests i = 1%nat /\
   exists r, HolidayService.service i =
             HolidayService._performInitialization HolidayService.constructor r).
Proof.
  induction events as [| e events IH] using rev_ind; [by left |].
  cbv zeta in *. rewrite run_snoc.
  set (i := HolidayService.run HolidayService.newServiceObject events) in *.
  destruct IH as [[Hs Hr] | (Hp & Hr & r & Hs)].
  - assert (Hinit : HolidayService.isInitialized (HolidayService.service i) = false)
      by (by rewrite Hs).
    destruct e as [| r]; cbn [HolidayService.step].
    + unfold HolidayService.initialize. rewrite Hinit.
      destruct (HolidayService.initPromise i) eqn:Hp.
      * left. split; [exact Hs | by rewrite Hp].
      * left. cbn. split; [exact Hs | by rewrite Hr].
    + unfold HolidayService.settle. rewrite Hinit. cbn [negb]. rewrite andb_true_r.
      destruct (HolidayService.initPromise i) eqn:Hp.
      * right. cbn. rewrite Hs. split; [done |]. split; [done |]. by exists r.
      * left. split; [exact Hs | by rewrite Hp].
  - assert (Hinit : HolidayService.isInitialized (HolidayService.service i) = true).
    { rewrite Hs. apply performInitialization_cases. }
    right. destruct e as [| r']; cbn [HolidayService.step].
    + unfold HolidayService.initialize. rewrite Hinit. split; [done |]. split; [done |].
      by exists r.
    + unfold HolidayService.settle. rewrite Hinit, Hp. cbn [negb andb].
      split; [done |]. split; [done |]. by exists r.
Qed.

(** X12.  Whatever calls of [initialize] and settlements of the request
    follow one another on a new service object: the holiday file is
    requested at most once; as long as the service is not initialized
    its fields are those the constructor set; and once it is
    initialized nothing changes it any more, at least one of the two
    data sets is present, and the holiday data is absent exactly when
    the service is in fallback mode.  Both data sets are present after a
    file in which some year is [null]: the data is stored, the
    statistics throw, and the fallback holidays are set up beside it. *)
Theorem initialization_happens_once (events more : list HolidayService.event) :
  let i := HolidayService.run HolidayService.newServiceObject events in
  let s := HolidayService.service i in
  (HolidayService.requests i <= 1)%nat /\
  (HolidayService.isInitialized s = false -> s = HolidayService.constructor) /\
  (HolidayService.isInitialized s = true ->
   HolidayService.run i more = i /\
   HolidayService.st_hasJSONData (HolidayService.getStatus s) ||
     HolidayService.st_hasFallbackData (HolidayService.getStatus s) = true /\
   (HolidayService.holidayData s = None <-> Spec.fallbackMode s)) /\
  (forall updated hs year,
     hs !! year = Some None ->
     HolidayService.getStatus
       (HolidayService.service
          (HolidayService.run HolidayService.newServiceObject
             [HolidayService.Initialize;
              HolidayService.Settled
                (HolidayService.Response true (Some (updated, Some hs)))])) =
     HolidayService.mkStatus true true true (lit "JSON") (Some updated)).
Proof.
  cbv zeta.
  assert (Hnull : forall updated hs year,
     hs !! year = Some None ->
     HolidayService.getStatus
       (HolidayService.service
          (HolidayService.run HolidayService.newServiceObject
             [HolidayService.Initialize;
              HolidayService.Settled
                (HolidayService.Response true (Some (updated, Some hs)))])) =
     HolidayService.mkStatus true true true (lit "JSON") (Some updated)).
  { intros updated hs year Hyear.
    destruct (totalHolidays_null hs year Hyear) as [e He].
    cbn [HolidayService.run foldl HolidayService.step HolidayService.initialize
         HolidayService.settle HolidayService.newServiceObject HolidayService.service
         HolidayService.initPromise HolidayService.isInitialized HolidayService.constructor
         negb andb].
    unfold HolidayService._performInitialization, HolidayService._loadHolidayJSON.
    by rewrite He. }
  cbv zeta. set (i := HolidayService.run HolidayService.newServiceObject events).
  destruct (reachable_cases events) as [[Hs Hr] | (Hp & Hr & r & Hs)]; fold i in Hs, Hr |- *.
  - split; [rewrite Hr; destruct (HolidayService.initPromise i); lia |].
    split; [done |]. split; [by rewrite Hs | exact Hnull].
  - fold i in Hp. split; [lia |]. split; [| split; [| exact Hnull]].
    + rewrite Hs. intros H.
      by rewrite (proj1 (performInitialization_cases r)) in H.
    + intros Hinit. split; [| split].
      * induction more as [| e more IH] using rev_ind; [done |].
        rewrite run_snoc, IH. destruct e as [| r']; cbn [HolidayService.step].
        -- unfold HolidayService.initialize. by rewrite Hinit.
        -- unfold HolidayService.settle. by rewrite Hinit, andb_false_r.
      * rewrite Hs. unfold HolidayService.getStatus.
        cbn [HolidayService.st_hasJSONData HolidayService.st_hasFallbackData].
        destruct (performInitialization_cases r) as [_ [(data & ->) | (-> & _ & ->)]];
          reflexivity.
      * rewrite Hs. split; [| by intros [Hnone _]].
        intros Hnone.
        destruct (performInitialization_cases r) as [_ [(data & Hd) | (_ & Hmode & _)]];
          [congruence | exact Hmode].
Qed.

(** X13.  On the Invalid Date, [HolidayService.isHoliday] after the
    initialization throws a RangeError when the holiday file was loaded
    ([toISOString] throws) and returns false in fallback mode;
    [Scheduler.isHoliday] passes this on, and returns false with its
    warning when the service is absent or not initialized. *)
Theorem isHoliday_invalid_date (tza : Z) (r : HolidayService.fetched) :
  let s := HolidayService._performInitialization HolidayService.constructor r in
  HolidayService.isHoliday tza s InvalidDate =
    (if HolidayService.st_hasJSONData (HolidayService.getStatus s)
     then Throw "RangeError: Invalid time value" else Normal false, []) /\
  Scheduler.isHoliday tza (Some s) InvalidDate = HolidayService.isHoliday tza s InvalidDate /\
  Scheduler.isHoliday tza None InvalidDate =
    (Normal false, [ConsoleWarn "⚠️ HolidayService が未初期化、基本祝日のみで判定"]) /\
  Scheduler.isHoliday tza (Some HolidayService.constructor) InvalidDate =
    (Normal false, [ConsoleWarn "⚠️ HolidayService が未初期化、基本祝日のみで判定"]).
Proof.
  cbv zeta. split; [| split; [| split; reflexivity]].
  - unfold HolidayService._performInitialization, HolidayService._loadHolidayJSON.
    destruct r as [| [] [[updated [hs |]] |]]; try reflexivity.
    destruct (HolidayService.totalHolidays hs); reflexivity.
  - unfold Scheduler.isHoliday.
    by rewrite (proj1 (performInitialization_cases r)).
Qed.

(** No statistics throw on a file whose years all hold arrays. *)
Lemma totalHolidays_arrays (m : gmap jsstring (list HolidayService.HolidayEntry)) :
  exists n, HolidayService.totalHolidays (Some <$> m) = Normal n.
Proof.
  unfold HolidayService.totalHolidays.
  destruct (decide _) as [_ | Hnot]; [by eexists |].
  exfalso. apply Hnot. intros year entries Hyear.
  rewrite lookup_fmap in Hyear. apply fmap_Some in Hyear as (l & _ & ->). by exists l.
Qed.

Section Cache.
Variables tzaF tzaS currentYear : Z.

(** X14.  Every well-formed row [y/m/d] of the CSV, of a year from the
    current year on that the [Date] constructor does not reinterpret, is
    a holiday for the service that loaded the mapping [parseCSV] made of
    the file (each year of the written file holds its array):
    [isHoliday] returns true at each instant whose local year is [y]
    and whose UTC calendar day is that of the recorded entry; in
    particular at local midnight of the day, when the script and the
    service run in the same time zone. *)
Theorem cache_roundtrip (csvText line updated : jsstring) (y m d : Z) (nameStr : jsstring) :
  line ∈ tail (split 10%N csvText) ->
  Spec.holidayRow line y m d nameStr ->
  currentYear <= y ->
  Spec.constructedYear y = y ->
  exists holidays,
    HolidayFetcher.parseCSV tzaF currentYear csvText = Normal holidays /\
    let service :=
      HolidayService._performInitialization HolidayService.constructor
        (HolidayService.Response true (Some (updated, Some (Some <$> holidays)))) in
    (forall t,
       YearFromDay (localDay tzaS t) = y ->
       Day t = Day (MakeDay y (m - 1) d * msPerDay - tzaF) ->
       HolidayService.isHoliday tzaS service (TimeValue t) = (Normal true, [])) /\
    (tzaS = tzaF ->
     HolidayService.isHoliday tzaS service (ofFields tzaS (Some y) (Some (m - 1)) (Some d)) =
       (Normal true, [])).
Proof.
  intros Hline Hrow Hyear Hcy.
  unfold HolidayFetcher.parseCSV.
  destruct (parseLines_recorded tzaF currentYear (tail (split 10%N csvText)) ∅)
    as (parsed & -> & Hrec).
  eexists. split; [reflexivity |]. cbv zeta.
  set (gt := fun a b : HolidayService.HolidayEntry =>
               0 <? HolidayFetcher.localeCompare (HolidayService.date a) (HolidayService.date b)).
  assert (Hin : Spec.recorded parsed (intToString y) (Spec.rowEntry tzaF y m d nameStr)).
  { apply Hrec. right. exists line. split; [done |]. by apply parseLine_complete. }
  destruct Hin as (entries & Hentries & Hin).
  assert (Hlookup : forall t,
            YearFromDay (localDay tzaS t) = y ->
            Day t = Day (MakeDay y (m - 1) d * msPerDay - tzaF) ->
            HolidayService.isHoliday tzaS
              (HolidayService._performInitialization HolidayService.constructor
                 (HolidayService.Response true
                    (Some (updated, Some (Some <$> (sort gt <$> parsed))))))
              (TimeValue t) = (Normal true, [])).
  { intros t Ht HD.
    destruct (totalHolidays_arrays (sort gt <$> parsed)) as [n Hn].
    unfold HolidayService._performInitialization, HolidayService._loadHolidayJSON.
    rewrite Hn.
    cbn [HolidayService.isHoliday HolidayService.isInitialized HolidayService.holidayData
         HolidayService.constructor HolidayService.fallbackHolidays negb].
    unfold HolidayService._isHolidayFromJSON.
    destruct (toISOString_date t) as (iso & -> & ->).
    cbn [getFullYear numberToString HolidayService.holidays]. rewrite Ht.
    rewrite !lookup_fmap, Hentries. cbn [fmap option_fmap option_map]. do 2 f_equal.
    apply existsb_exists. exists (Spec.rowEntry tzaF y m d nameStr). split.
    - apply list_elem_of_In. by rewrite sort_perm.
    - apply bool_decide_eq_true. unfold Spec.rowEntry. cbn [HolidayService.date].
      unfold isoDate. by rewrite HD. }
  split; [exact Hlookup |].
  intros ->. destruct (localDay_ofFields tzaF y (m - 1) d) as [-> Hloc].
  rewrite Hcy in Hloc |- *. apply Hlookup; [| done].
  rewrite Hloc. destruct Hrow as (_ & _ & _ & _ & _ & _ & _ & _ & _ & _ & _ & _ & Hm & Hd).
  apply fields_MakeDay; [lia |]. by replace (m - 1 + 1) with m by lia.
Qed.

End Cache.

Lemma cache_roundtrip_witness :
  Spec.exampleRow ∈ tail (split 10%N Spec.exampleCSV) /\
  Spec.holidayRow Spec.exampleRow 2025 1 13 (lit "Coming of Age Day") /\
  2025 <= 2025 /\
  Spec.constructedYear 2025 = 2025 /\
  exists holidays,
    HolidayFetcher.parseCSV 0 2025 Spec.exampleCSV = Normal holidays /\
    let service :=
      HolidayService._performInitialization HolidayService.constructor
        (HolidayService.Response true
           (Some (lit "2025-01-01", Some (Some <$> holidays)))) in
    (forall t,
       YearFromDay (localDay 0 t) = 2025 ->
       Day t = Day (MakeDay 2025 (1 - 1) 13 * msPerDay - 0) ->
       HolidayService.isHoliday 0 service (TimeValue t) = (Normal true, [])) /\
    (0 = 0 ->
     HolidayService.isHoliday 0 service (ofFields 0 (Some 2025) (Some (1 - 1)) (Some 13)) =
       (Normal true, [])).
Proof.
  assert (Hline : Spec.exampleRow ∈ tail (split 10%N Spec.exampleCSV))
    by (apply list_elem_of_In; vm_compute; left; reflexivity).
  assert (Hrow : Spec.holidayRow Spec.exampleRow 2025 1 13 (lit "Coming of Age Day")).
  { exists (lit "2025/1/13"), [], (lit "2025"), (lit "1"), (lit "13").
    split; [reflexivity |]. split; [discriminate |]. split; [discriminate |].
    split; [reflexivity |]. split; [reflexivity |]. split; [reflexivity |].
    split; [reflexivity |]. split; [lia |]. split; [lia | vm_compute; discriminate]. }
  split; [exact Hline |]. split; [exact Hrow |]. split; [lia |]. split; [reflexivity |].
  apply (cache_roundtrip 0 0 2025 Spec.exampleCSV Spec.exampleRow (lit "2025-01-01")
           2025 1 13 (lit "Coming of Age Day") Hline Hrow); [lia | reflexivity].
Defined.

(** X15.  [getHolidays] returns the empty list as long as the service is
    not initialized or holds no holiday data.  When it holds the data
    and is initialized, [isHoliday] returns true for a valid date exactly
    when the calendar-date part of its ISO string is the [date] of an
    entry of the list that [getHolidays] returns for the local year of
    the date (the empty list, when the year is absent or [null]). *)
Theorem getHolidays_isHoliday (tza : Z) (s : HolidayService.t) (t : Z) :
  (HolidayService.st_hasJSONData (HolidayService.getStatus s) = false \/
   HolidayService.isInitialized s = false ->
   forall year, HolidayService.getHolidays s year = []) /\
  (HolidayService.st_hasJSONData (HolidayService.getStatus s) = true ->
   HolidayService.isInitialized s = true ->
   HolidayService.isHoliday tza s (TimeValue t) =
     (Normal (bool_decide
                (isoDate t ∈ HolidayService.date <$>
                   HolidayService.getHolidays s (getFullYear tza (TimeValue t)))), [])).
Proof.
  unfold HolidayService.getStatus, HolidayService.getHolidays, HolidayService.isHoliday.
  cbn [HolidayService.st_hasJSONData]. split.
  - intros [Hdata | Hinit] year.
    + rewrite Hdata. by rewrite orb_true_r.
    + by rewrite Hinit.
  - intros Hdata Hinit. rewrite Hinit, Hdata. cbn [negb orb].
    destruct (HolidayService.holidayData s) as [data |]; [| done].
    unfold HolidayService._isHolidayFromJSON.
    destruct (toISOString_date t) as (iso & -> & ->).
    destruct (HolidayService.holidays data !! numberToString (getFullYear tza (TimeValue t)))
      as [[l |] |]; cbn [default mjoin option_join]; f_equal; f_equal.
    apply Bool.eq_iff_eq_true.
      rewrite existsb_exists, bool_decide_eq_true, list_elem_of_fmap. split.
      * intros (h & Hin & Heq). apply bool_decide_eq_true in Heq.
        exists h. split; [done | by apply list_elem_of_In].
      * intros (h & -> & Hin). exists h.
        split; [by apply list_elem_of_In | by apply bool_decide_eq_true].
Qed.

(* ================================================================== *)
(** * Sorting, grouping and counting candidates (TextGenerator.sortCandidates, groupByDate, generateStats) *)
(* ================================================================== *)

(** Stability of the sort: the elements of a class whose members never
    compare greater than one another keep their order. *)
Lemma insertSorted_filter {A} (gt : A -> A -> bool) (P : A -> Prop) `{!forall x, Decision (P x)}
    x l :
  (forall a b, P a -> P b -> gt a b = false) ->
  filter P (insertSorted gt x l) = filter P (x :: l).
Proof.
  intros Hclass. induction l as [| y l IH]; [done |].
  cbn [insertSorted]. destruct (gt x y) eqn:Hgt; [| done].
  rewrite filter_cons, IH, !filter_cons.
  destruct (decide (P y)) as [Hy |]; [| done].
  destruct (decide (P x)) as [Hx |]; [| done].
  by rewrite Hclass in Hgt.
Qed.

Lemma sort_filter {A} (gt : A -> A -> bool) (P : A -> Prop) `{!forall x, Decision (P x)} l :
  (forall a b, P a -> P b -> gt a b = false) ->
  filter P (sort gt l) = filter P l.
Proof.
  intros Hclass. induction l as [| x l IH]; [done |].
  unfold sort in *. cbn [foldr]. rewrite insertSorted_filter by done.
  by rewrite !filter_cons, IH.
Qed.

Lemma Sorted_StronglySorted_trans {A} (R : A -> A -> Prop) l :
  (forall a b c, a ∈ l -> b ∈ l -> c ∈ l -> R a b -> R b c -> R a c) ->
  Sorted R l -> StronglySorted R l.
Proof.
  induction l as [| x l IH]; intros Htrans Hs; [constructor |].
  apply Sorted_inv in Hs as [Hs Hhd].
  assert (HSS : StronglySorted R l).
  { apply IH; [| done]. intros a b c Ha Hb Hc. apply Htrans; by right. }
  constructor; [done |].
  destruct l as [| y l]; [constructor |].
  apply HdRel_inv in Hhd.
  apply StronglySorted_inv in HSS as [_ Hall].
  constructor; [done |].
  rewrite List.Forall_forall in Hall |- *. intros z Hz.
  apply (Htrans x y z); [by left | by right; left | | done | by apply Hall].
  right. right. by apply list_elem_of_In.
Qed.

(** X16.  [sortCandidates] returns a rearrangement of its argument.  When
    every date is valid (the comparator is then consistent), each
    candidate of the result comes before all those that are later (date
    first, start next); sorting a second time changes nothing; and
    candidates of the same date and the same start keep the order they
    had (the sort is stable). *)
Theorem sortCandidates_spec (candidates : list TextGenerator.Candidate) :
  let sorted := TextGenerator.sortCandidates candidates in
  sorted ≡ₚ candidates /\
  (Forall (fun c => TextGenerator.date c <> InvalidDate) candidates ->
   StronglySorted Spec.earlier sorted /\
   TextGenerator.sortCandidates sorted = sorted /\
   (forall d m,
      filter (fun c => TextGenerator.date c = d /\ TextGenerator.startMinutes c = m) sorted =
      filter (fun c => TextGenerator.date c = d /\ TextGenerator.startMinutes c = m)
             candidates)).
Proof.
  cbv zeta. unfold TextGenerator.sortCandidates.
  set (gt := fun a b => lessThan (Some 0) (TextGenerator.compareCandidates a b)).
  assert (Hgt : forall a b, gt a b = false -> Spec.earlier a b).
  { intros a b. unfold gt, Spec.earlier, TextGenerator.compareCandidates, TextGenerator.startMinutes.
    destruct (TextGenerator.date a) as [ta |], (TextGenerator.date b) as [tb |];
      unfold strictNe; cbn [getTime arith strictEq lessThan negb]; try done.
    destruct (Z.eqb_spec (ta - tb) 0); cbn [negb lessThan]; rewrite Z.ltb_ge; lia. }
  assert (Hasym : forall a b, gt a b = true -> gt b a = false).
  { intros a b. unfold gt, TextGenerator.compareCandidates.
    destruct (TextGenerator.date a) as [ta |], (TextGenerator.date b) as [tb |];
      unfold strictNe; cbn [getTime arith strictEq lessThan negb]; try done.
    destruct (Z.eqb_spec (ta - tb) 0), (Z.eqb_spec (tb - ta) 0);
      cbn [negb lessThan]; rewrite Z.ltb_lt, Z.ltb_ge; lia. }
  assert (Hsorted : Sorted (fun a b => gt a b = false) (sort gt candidates))
    by (by apply sort_is_sorted).
  split; [apply sort_perm |]. intros Hvalid. split; [| split].
  - apply Sorted_StronglySorted_trans.
    + intros a b c Ha Hb Hc.
      rewrite sort_perm in Ha, Hb, Hc.
      rewrite Forall_forall in Hvalid.
      pose proof (Hvalid a Ha) as Va. pose proof (Hvalid b Hb) as Vb.
      pose proof (Hvalid c Hc) as Vc. unfold Spec.earlier.
      destruct (TextGenerator.date a), (TextGenerator.date b), (TextGenerator.date c);
        try done. cbn [getTime]. lia.
    + eapply Sorted_weaken; [| exact Hsorted]. exact Hgt.
  - by apply sort_sorted.
  - intros d m. apply sort_filter. intros a b [Ha Hsa] [Hb Hsb].
    unfold gt, TextGenerator.compareCandidates. rewrite Ha, Hb.
    unfold TextGenerator.startMinutes in Hsa, Hsb.
    destruct d as [t |]; unfold strictNe; cbn [getTime arith strictEq lessThan negb]; [| done].
    rewrite Z.sub_diag. cbn [Z.eqb negb lessThan]. apply Z.ltb_ge. lia.
Qed.

Lemma firstOccurrences_elem `{EqDecision A} (l : list A) x :
  x ∈ Spec.firstOccurrences l <-> x ∈ l.
Proof.
  induction l as [| y l IH]; cbn [Spec.firstOccurrences]; [done |].
  rewrite !elem_of_cons, list_elem_of_filter, IH.
  destruct (decide (x = y)); tauto.
Qed.

Lemma firstOccurrences_NoDup `{EqDecision A} (l : list A) : NoDup (Spec.firstOccurrences l).
Proof.
  induction l as [| y l IH]; cbn [Spec.firstOccurrences]; constructor.
  - rewrite list_elem_of_filter. tauto.
  - by apply NoDup_filter.
Qed.

Lemma firstOccurrences_snoc `{EqDecision A} (l : list A) x :
  Spec.firstOccurrences (l ++ [x]) =
  if decide (x ∈ l) then Spec.firstOccurrences l else Spec.firstOccurrences l ++ [x].
Proof.
  induction l as [| y l IH]; cbn [Spec.firstOccurrences app].
  - rewrite decide_False by apply not_elem_of_nil. done.
  - rewrite IH. destruct (decide (x ∈ l)) as [Hin | Hnin].
    + rewrite decide_True by (by right). done.
    + destruct (decide (x = y)) as [-> | Hne].
      * rewrite decide_True by left. rewrite filter_app.
        rewrite (filter_cons _ y), decide_False by (intros H; by apply H).
        by rewrite filter_nil, app_nil_r.
      * rewrite decide_False by (rewrite elem_of_cons; intros [-> | ?]; done).
        rewrite filter_app, (filter_cons _ x), decide_True by done.
        by rewrite filter_nil.
Qed.

Lemma filter_none {A} (P : A -> Prop) `{!forall x, Decision (P x)} (l : list A) :
  (forall x, x ∈ l -> ~ P x) -> filter P l = [].
Proof.
  induction l as [| y l IH]; intros Hall; [done |].
  rewrite filter_cons, decide_False by (apply Hall; left).
  apply IH. intros x Hx. apply Hall. by right.
Qed.

Section GroupsByDate.
Variable tza : Z.

#[local] Abbreviation key c := (TextGenerator.getDateKey tza (TextGenerator.date c)).

Lemma addToGroup_map k c (f : jsstring -> list TextGenerator.Candidate) ks :
  NoDup ks ->
  TextGenerator.addToGroup k c ((fun k' => (k', f k')) <$> ks) =
  if decide (k ∈ ks)
  then (fun k' => (k', if decide (k' = k) then f k' ++ [c] else f k')) <$> ks
  else ((fun k' => (k', f k')) <$> ks) ++ [(k, [c])].
Proof.
  induction 1 as [| k0 ks Hk0 Hnd IH]; cbn [fmap list_fmap TextGenerator.addToGroup].
  - by rewrite decide_False by apply not_elem_of_nil.
  - destruct (decide (k0 = k)) as [-> | Hne].
    + rewrite decide_True by left. cbn [fmap list_fmap].
      f_equal.
      apply list_fmap_ext. intros idx k' Hk'. apply list_elem_of_lookup_2 in Hk'.
      rewrite decide_False; [done |]. by intros ->.
    + rewrite IH.
      destruct (decide (k ∈ ks)) as [Hin | Hnin].
      * by rewrite decide_True by (by right).
      * rewrite decide_False by (rewrite elem_of_cons; intros [-> | ?]; done). done.
Qed.

Lemma groupByDate_first_occurrences (candidates : list TextGenerator.Candidate) :
  TextGenerator.groupByDate tza candidates =
  (fun k => (k, filter (fun c => key c = k) candidates)) <$>
    Spec.firstOccurrences ((fun c => key c) <$> candidates).
Proof.
  induction candidates as [| c l IH] using rev_ind; [done |].
  unfold TextGenerator.groupByDate in *. rewrite foldl_app. cbn [foldl]. rewrite IH.
  rewrite addToGroup_map by apply firstOccurrences_NoDup.
  rewrite fmap_app. cbn [fmap list_fmap]. rewrite firstOccurrences_snoc.
  destruct (decide (key c ∈ (fun c => key c) <$> l)) as [Hin | Hnin].
  - rewrite decide_True by (by apply firstOccurrences_elem).
    apply list_fmap_ext. intros idx k _. f_equal.
    rewrite filter_app, (filter_cons _ c), filter_nil.
    destruct (decide (k = key c)) as [-> | Hne].
    + by rewrite decide_True.
    + rewrite decide_False by done. by rewrite app_nil_r.
  - rewrite decide_False by (by rewrite firstOccurrences_elem).
    rewrite fmap_app. cbn [fmap list_fmap]. f_equal.
    + apply list_fmap_ext. intros idx k Hk. apply list_elem_of_lookup_2 in Hk.
      rewrite firstOccurrences_elem in Hk. f_equal.
      rewrite filter_app, (filter_cons _ c), filter_nil.
      rewrite decide_False; [by rewrite app_nil_r |].
      intros Heq. apply Hnin. by rewrite Heq.
    + f_equal. f_equal.
      rewrite filter_app, (filter_cons _ c), filter_nil, decide_True by done.
      replace (filter (fun c0 => key c0 = key c) l) with (@nil TextGenerator.Candidate); [done |].
      symmetry. apply filter_none. intros x Hx Heq.
      apply Hnin. rewrite <- Heq. apply list_elem_of_fmap. by exists x.
Qed.

(** X17.  [groupByDate] returns, for each distinct date key in the order
    of its first occurrence, the candidates of that key in the order of
    the argument: the keys are distinct, no group is empty, and the
    candidates of the groups are those of the argument. *)
Theorem groupByDate_spec (candidates : list TextGenerator.Candidate) :
  let groups := TextGenerator.groupByDate tza candidates in
  groups =
    (fun k => (k, filter (fun c => key c = k) candidates)) <$>
      Spec.firstOccurrences ((fun c => key c) <$> candidates) /\
  groups.*1 = Spec.firstOccurrences ((fun c => key c) <$> candidates) /\
  NoDup groups.*1 /\
  Forall (fun kg => kg.2 <> []) groups /\
  (forall c, c ∈ candidates <-> exists kg, kg ∈ groups /\ c ∈ kg.2).
Proof.
  cbv zeta. rewrite groupByDate_first_occurrences.
  set (keys := (fun c => key c) <$> candidates).
  assert (Hkeys : ((fun k => (k, filter (fun c => key c = k) candidates)) <$>
                     Spec.firstOccurrences keys).*1 = Spec.firstOccurrences keys).
  { rewrite <- list_fmap_compose. etransitivity; [| apply list_fmap_id].
    by apply list_fmap_ext. }
  split; [done |]. split; [exact Hkeys |]. split; [| split].
  - rewrite Hkeys. apply firstOccurrences_NoDup.
  - apply Forall_fmap, Forall_forall. intros k Hk. cbn [snd].
    rewrite firstOccurrences_elem in Hk. unfold keys in Hk.
    apply list_elem_of_fmap in Hk as (c & -> & Hc).
    intros Hnil. apply (filter_nil_not_elem_of _ _ c) in Hnil; done.
  - intros c. split.
    + intros Hc. exists (key c, filter (fun c0 => key c0 = key c) candidates). split.
      * apply list_elem_of_fmap. exists (key c). split; [done |].
        rewrite firstOccurrences_elem. apply list_elem_of_fmap. by exists c.
      * cbn [snd]. by apply list_elem_of_filter.
    + intros (kg & Hkg & Hc). apply list_elem_of_fmap in Hkg as (k & -> & _).
      cbn [snd] in Hc. by apply list_elem_of_filter in Hc as [_ Hc].
Qed.

End GroupsByDate.

Lemma remove_dups_length_le `{EqDecision A} (l : list A) :
  (length (remove_dups l) <= length l)%nat.
Proof.
  induction l as [| x l IH]; cbn [remove_dups length]; [done |].
  destruct (decide_rel elem_of x l); cbn [length]; lia.
Qed.

Lemma remove_dups_length_NoDup `{EqDecision A} (l : list A) :
  length (remove_dups l) = length l -> NoDup l.
Proof.
  induction l as [| x l IH]; cbn [remove_dups length]; [constructor |].
  pose proof (remove_dups_length_le l).
  destruct (decide_rel elem_of x l); cbn [length]; [lia |].
  intros Hlen. constructor; [done |]. apply IH. lia.
Qed.

Lemma NoDup_same_length `{EqDecision A} (l1 l2 : list A) :
  NoDup l1 -> NoDup l2 -> (forall x, x ∈ l1 <-> x ∈ l2) -> length l1 = length l2.
Proof. intros H1 H2 H. apply Permutation_length. by apply NoDup_Permutation. Qed.

Section Stats.
Variable tza : Z.

Lemma conflictsWith_length a later :
  (length (TextGenerator.conflictsWith tza a later) <= length later)%nat.
Proof.
  unfold TextGenerator.conflictsWith.
  induction later as [| b later IH]; cbn [flat_map length]; [done |].
  rewrite length_app. destruct (decide _); [| cbn [length]; lia].
  destruct (_ && _); cbn [length]; lia.
Qed.

Lemma conflictsWith_other_dates a later :
  TextGenerator.getDateKey tza (TextGenerator.date a) ∉
    (fun c => TextGenerator.getDateKey tza (TextGenerator.date c)) <$> later ->
  TextGenerator.conflictsWith tza a later = [].
Proof.
  unfold TextGenerator.conflictsWith.
  induction later as [| b later IH]; cbn [flat_map fmap list_fmap]; [done |].
  intros Hnin. rewrite not_elem_of_cons in Hnin. destruct Hnin as [Hne Hnin].
  rewrite decide_False by done. by rewrite IH.
Qed.

Lemma checkTimeConflicts_length candidates :
  2 * Z.of_nat (length (TextGenerator.checkTimeConflicts tza candidates)) <=
  Z.of_nat (length candidates) * (Z.of_nat (length candidates) - 1).
Proof.
  induction candidates as [| a later IH]; cbn [TextGenerator.checkTimeConflicts length];
    [done |].
  rewrite length_app. pose proof (conflictsWith_length a later). nia.
Qed.

Lemma checkTimeConflicts_distinct_dates candidates :
  NoDup ((fun c => TextGenerator.getDateKey tza (TextGenerator.date c)) <$> candidates) ->
  TextGenerator.checkTimeConflicts tza candidates = [].
Proof.
  induction candidates as [| a later IH]; cbn [TextGenerator.checkTimeConflicts fmap list_fmap];
    [done |].
  intros Hnd. apply NoDup_cons in Hnd as [Hnin Hnd].
  by rewrite conflictsWith_other_dates, IH.
Qed.

(** X18.  In the result of [generateStats], [total] is the number of
    candidates; [dates] is the number of groups of [groupByDate], at
    most [total] and at least 1 for a non-empty list; [totalDuration] is
    the sum of the lengths of the ranges; [conflicts] is the number of
    pairs that [checkTimeConflicts] reports, at most [total (total - 1) /
    2], and 0 when all dates differ; and [averageDuration] differs from
    the quotient of [totalDuration] by [total] by at most a half. *)
Theorem generateStats_spec (candidates : list TextGenerator.Candidate) :
  let stats := TextGenerator.generateStats tza candidates in
  TextGenerator.total stats = Z.of_nat (length candidates) /\
  TextGenerator.dates stats = Z.of_nat (length (TextGenerator.groupByDate tza candidates)) /\
  TextGenerator.dates stats <= TextGenerator.total stats /\
  (candidates <> [] -> 1 <= TextGenerator.dates stats) /\
  TextGenerator.totalDuration stats =
    foldr Z.add 0 ((fun c => TextGenerator.endMinutes c - TextGenerator.startMinutes c)
                     <$> candidates) /\
  TextGenerator.conflicts stats =
    Z.of_nat (length (TextGenerator.checkTimeConflicts tza candidates)) /\
  2 * TextGenerator.conflicts stats <=
    TextGenerator.total stats * (TextGenerator.total stats - 1) /\
  (TextGenerator.dates stats = TextGenerator.total stats -> TextGenerator.conflicts stats = 0) /\
  (candidates <> [] ->
   2 * TextGenerator.totalDuration stats - TextGenerator.total stats <
     2 * TextGenerator.total stats * TextGenerator.averageDuration stats <=
     2 * TextGenerator.totalDuration stats + TextGenerator.total stats).
Proof.
  cbv zeta. unfold TextGenerator.generateStats.
  destruct candidates as [| c0 l].
  { rewrite bool_decide_eq_true_2 by done. cbn. repeat split; done. }
  assert (Hpos : 0 < Z.of_nat (length (c0 :: l))) by (cbn [length]; lia).
  rewrite bool_decide_eq_false_2 by done.
  remember (c0 :: l) as candidates eqn:Hcandidates.
  remember ((fun c => TextGenerator.getDateKey tza (TextGenerator.date c)) <$> candidates)
    as keys eqn:Hkeys.
  cbn [TextGenerator.total TextGenerator.dates TextGenerator.totalDuration
       TextGenerator.conflicts TextGenerator.averageDuration].
  assert (Hdates : length (remove_dups keys) =
                   length (TextGenerator.groupByDate tza candidates)).
  { rewrite groupByDate_first_occurrences, length_fmap, <- Hkeys.
    apply NoDup_same_length;
      [apply NoDup_remove_dups | apply firstOccurrences_NoDup |].
    intros k. by rewrite elem_of_remove_dups, firstOccurrences_elem. }
  assert (Hle : (length (remove_dups keys) <= length candidates)%nat).
  { etransitivity; [apply remove_dups_length_le |]. by rewrite Hkeys, length_fmap. }
  split; [done |]. split; [by rewrite Hdates |]. split; [lia |].
  split; [| split; [| split; [| split; [| split]]]].
  - intros _. destruct (remove_dups keys) as [| k ks] eqn:Hk; [| cbn [length]; lia].
    exfalso. assert (Hin : TextGenerator.getDateKey tza (TextGenerator.date c0) ∈ remove_dups keys)
      by (apply elem_of_remove_dups; rewrite Hkeys, Hcandidates; left).
    rewrite Hk in Hin. by apply elem_of_nil in Hin.
  - generalize candidates. intros cs.
    assert (Hgen : forall acc,
              foldl (fun totalDuration candidate =>
                       totalDuration +
                       (TextGenerator.endHour candidate * 60 + TextGenerator.endMinute candidate -
                        (TextGenerator.startHour candidate * 60 +
                         TextGenerator.startMinute candidate))) acc cs =
              acc + foldr Z.add 0
                      ((fun c => TextGenerator.endMinutes c - TextGenerator.startMinutes c)
                         <$> cs)).
    { induction cs as [| c cs IH]; intros acc; cbn [foldl foldr fmap list_fmap]; [lia |].
      rewrite IH. unfold TextGenerator.endMinutes, TextGenerator.startMinutes. lia. }
    rewrite Hgen. lia.
  - done.
  - apply checkTimeConflicts_length.
  - intros Heq. rewrite checkTimeConflicts_distinct_dates; [done |].
    rewrite <- Hkeys. apply remove_dups_length_NoDup.
    assert (length keys = length candidates) by (by rewrite Hkeys, length_fmap). lia.
  - intros _. unfold roundDiv.
    generalize (foldl (fun (totalDuration : Z) (candidate : TextGenerator.Candidate) =>
                         totalDuration +
                         (TextGenerator.endHour candidate * 60 + TextGenerator.endMinute candidate -
                          (TextGenerator.startHour candidate * 60 +
                           TextGenerator.startMinute candidate))) 0 candidates).
    intros T. generalize dependent (Z.of_nat (length candidates)). intros n Hn.
    pose proof (Z.div_mod (2 * T + n) (2 * n) ltac:(lia)) as Hdm.
    pose proof (Z.mod_pos_bound (2 * T + n) (2 * n) ltac:(lia)) as Hmod.
    nia.
Qed.

End Stats.

(* ================================================================== *)
(** * Formatted texts (TextGenerator.formatCandidate, formatCandidates, Scheduler.getMonthName) *)
(* ================================================================== *)

Lemma numberToString_chars x : Forall Spec.numeralChar (numberToString x).
Proof.
  destruct x as [z |]; cbn [numberToString].
  - eapply Forall_impl; [apply intToString_chars |]. unfold Spec.numeralChar.
    cbv beta. intros c Hc. tauto.
  - unfold Spec.numeralChar. repeat constructor; cbv beta; tauto.
Qed.

Lemma numeral_pad n x : Forall Spec.numeralChar (padStart n 48%N (numberToString x)).
Proof.
  apply padStart_chars; [| apply numberToString_chars]. left. lia.
Qed.

Lemma intToString_numeral z : Forall Spec.numeralChar (intToString z).
Proof. apply (numberToString_chars (Some z)). Qed.

Lemma intToString_pad_numeral n z : Forall Spec.numeralChar (padStart n 48%N (intToString z)).
Proof. apply (numeral_pad n (Some z)). Qed.

(** The name of the day printed by the templates: one of the seven
    names, or the word [undefined]. *)
Lemma weekday_text x :
  orUndefined (index TextGenerator.weekdays x) ∈ lit "undefined" :: TextGenerator.weekdays.
Proof.
  unfold orUndefined, index. destruct x as [n |]; [| left].
  destruct (Z.ltb_spec n 0); [left |].
  destruct (TextGenerator.weekdays !! Z.to_nat n) as [w |] eqn:Hw; [| left].
  right. by apply list_elem_of_lookup_2 in Hw.
Qed.

Lemma weekday_text_chars (P : N -> Prop) x :
  Forall (Forall P) (lit "undefined" :: TextGenerator.weekdays) ->
  Forall P (orUndefined (index TextGenerator.weekdays x)).
Proof.
  intros H. rewrite Forall_forall in H. apply H, weekday_text.
Qed.

Lemma Forall_not_elem (c : N) (P : N -> Prop) s : Forall P s -> ~ P c -> c ∉ s.
Proof. intros H Hc Hin. rewrite Forall_forall in H. by apply Hc, H. Qed.

Lemma formatTime_chars h m p :
  Forall (fun c => Spec.numeralChar c \/ c = 58%N) (TextGenerator.formatTime h m p).
Proof.
  unfold TextGenerator.formatTime. cbv zeta. change (lit ":") with [58%N].
  apply Forall_app_2; [| apply Forall_cons_2; [by right |]].
  - destruct p; (eapply Forall_impl;
      [first [apply intToString_pad_numeral | apply intToString_numeral] | cbv beta; tauto]).
  - eapply Forall_impl; [apply intToString_pad_numeral | cbv beta; tauto].
Qed.

(** The characters of a formatted text, part by part. *)
Ltac text_step :=
  first
    [ assumption
    | apply Forall_nil_2
    | apply Forall_cons_2; [cbv beta; try (unfold Spec.numeralChar); lia |]
    | (eapply Forall_impl;
       [first [apply numberToString_chars | apply numeral_pad
              | apply intToString_numeral | apply intToString_pad_numeral
              | apply formatTime_chars] |
        unfold Spec.numeralChar; cbv beta; intros; lia])
    | (apply weekday_text_chars; vm_compute;
       repeat first [apply Forall_nil_2 | apply Forall_cons_2]; lia)
    | apply Forall_app_2 ].

Ltac text_chars := repeat text_step.

Ltac unfold_templates :=
  unfold TextGenerator.formatCandidate, TextGenerator.formatStandard, TextGenerator.formatSimple,
    TextGenerator.formatDetailed;
  change (lit "/") with [47%N].

Section FormatLines.
Variable tza : Z.

Lemma formatCandidate_chars c fmt :
  Forall (fun ch => ch <> 10%N) (TextGenerator.formatCandidate tza c fmt).
Proof. unfold_templates. repeat case_decide; cbv zeta; text_chars. Qed.

Lemma formatCandidate_not_empty c fmt : (0 < length (TextGenerator.formatCandidate tza c fmt))%nat.
Proof.
  unfold_templates. repeat case_decide; cbv zeta; rewrite !length_app; cbn [length]; lia.
Qed.

Lemma split_none sep s : Forall (fun c => c <> sep) s -> split sep s = [s].
Proof.
  induction 1 as [| c s Hc _ IH]; cbn [split]; [done |].
  rewrite IH. by destruct (N.eqb_spec c sep).
Qed.

Lemma split_join sep l :
  l <> [] -> Forall (Forall (fun c => c <> sep)) l -> split sep (join [sep] l) = l.
Proof.
  intros Hne Hall. induction Hall as [| s l Hs Hl IH]; [done |].
  cbn [join]. destruct l as [| s' l'].
  - by apply split_none.
  - cbn [app]. rewrite split_first by done. f_equal. by apply IH.
Qed.

(** X19.  With the line feed as separator, [formatCandidates] returns the
    empty string for the empty list, and otherwise a text whose lines
    are the formatted candidates, one line each, in the order of the
    list: no candidate is dropped, and no formatted candidate holds a
    line feed, whatever its date and its times. *)
Theorem formatCandidates_lines (candidates : list TextGenerator.Candidate) (format : jsstring) :
  TextGenerator.formatCandidates tza [] format [10%N] = [] /\
  (candidates <> [] ->
   split 10%N (TextGenerator.formatCandidates tza candidates format [10%N]) =
   (fun candidate => TextGenerator.formatCandidate tza candidate format) <$> candidates).
Proof.
  split; [reflexivity |]. intros Hne.
  unfold TextGenerator.formatCandidates. rewrite bool_decide_eq_false_2 by done.
  assert (Hfilter : forall l : list TextGenerator.Candidate,
            filter (fun text : jsstring => (0 < length text)%nat)
                   ((fun candidate => TextGenerator.formatCandidate tza candidate format) <$> l) =
            (fun candidate => TextGenerator.formatCandidate tza candidate format) <$> l).
  { induction l as [| c l IH]; [done |]. cbn [fmap list_fmap].
    rewrite filter_cons, decide_True by apply formatCandidate_not_empty.
    f_equal. exact IH. }
  rewrite Hfilter. apply split_join.
  - by destruct candidates.
  - apply Forall_fmap, Forall_forall. intros c _. apply formatCandidate_chars.
Qed.

End FormatLines.

Lemma app_sep_inj (c : N) s1 s2 r1 r2 :
  c ∉ s1 -> c ∉ s2 -> s1 ++ c :: r1 = s2 ++ c :: r2 -> s1 = s2 /\ r1 = r2.
Proof.
  revert s2. induction s1 as [| x s1 IH]; intros [| y s2] H1 H2 Heq; cbn [app] in Heq.
  - by injection Heq.
  - injection Heq as -> _. exfalso. apply H2. left.
  - injection Heq as -> _. exfalso. apply H1. left.
  - injection Heq as -> Heq. rewrite not_elem_of_cons in H1, H2.
    destruct (IH s2) as [-> ->]; [tauto | tauto | done | done].
Qed.

Lemma valueOf_pad n s : Spec.valueOf (padStart n 48%N s) = Spec.valueOf s.
Proof.
  unfold padStart, Spec.valueOf. rewrite fold_left_app.
  replace (fold_left (fun acc c => acc * 10 + (Z.of_N c - 48))
             (replicate (n - length s) 48%N) 0) with 0; [done |].
  induction (n - length s)%nat as [| k IH]; [done |]. cbn [replicate fold_left]. exact IH.
Qed.

Lemma intToString_value z : 0 <= z -> Spec.valueOf (intToString z) = z.
Proof.
  intros Hz. unfold intToString. destruct (Z.ltb_spec z 0); [lia |].
  by apply valueOf_intDigits.
Qed.

Lemma intToString_negative z :
  z < 0 -> exists s, intToString z = 45%N :: s /\ Spec.valueOf s = - z /\
                     Forall (fun c => (48 <= c <= 57)%N) s.
Proof.
  intros Hz. unfold intToString. destruct (Z.ltb_spec z 0); [| lia].
  eexists. split; [done |]. split; [apply valueOf_intDigits; lia | apply digitsOf_chars].
Qed.

Lemma intToString_digits z :
  0 <= z -> Forall (fun c => (48 <= c <= 57)%N) (intToString z).
Proof.
  intros Hz. unfold intToString. destruct (Z.ltb_spec z 0); [lia |]. apply digitsOf_chars.
Qed.

(** Padding with zeros keeps printed integers apart. *)
Lemma pad_intToString_inj n z1 z2 :
  padStart n 48%N (intToString z1) = padStart n 48%N (intToString z2) -> z1 = z2.
Proof.
  intros Heq.
  assert (Hzeros : forall k, (45%N : N) ∉ replicate k 48%N).
  { intros k Hin. apply elem_of_replicate in Hin as [[=] _]. }
  assert (Hmixed : forall a b, a < 0 -> 0 <= b ->
            padStart n 48%N (intToString a) <> padStart n 48%N (intToString b)).
  { intros a b Ha Hb H. destruct (intToString_negative a Ha) as (s & Hs & _).
    assert (Hin : (45%N : N) ∈ padStart n 48%N (intToString a)).
    { unfold padStart. rewrite Hs. apply elem_of_app. right. left. }
    rewrite H in Hin. unfold padStart in Hin. apply elem_of_app in Hin as [Hin | Hin].
    - by apply Hzeros in Hin.
    - pose proof (intToString_digits b Hb) as Hd. rewrite Forall_forall in Hd.
      apply Hd in Hin. lia. }
  destruct (Z.lt_ge_cases z1 0) as [H1 | H1], (Z.lt_ge_cases z2 0) as [H2 | H2].
  - destruct (intToString_negative z1 H1) as (s1 & Hs1 & Hv1 & _).
    destruct (intToString_negative z2 H2) as (s2 & Hs2 & Hv2 & _).
    unfold padStart in Heq. rewrite Hs1, Hs2 in Heq.
    apply app_sep_inj in Heq as [_ Heq]; [| apply Hzeros | apply Hzeros].
    rewrite Heq in Hv1. lia.
  - exfalso. by apply (Hmixed z1 z2).
  - exfalso. by apply (Hmixed z2 z1).
  - apply (f_equal Spec.valueOf) in Heq. rewrite !valueOf_pad in Heq.
    by rewrite !intToString_value in Heq.
Qed.

Ltac not_in_text :=
  match goal with
  | |- ?c ∉ _ =>
      apply (Forall_not_elem c (fun x => x <> c)); [solve [text_chars] | cbv beta; lia]
  end.

Lemma formatTime_inj h1 m1 h2 m2 p :
  TextGenerator.formatTime h1 m1 p = TextGenerator.formatTime h2 m2 p -> h1 = h2 /\ m1 = m2.
Proof.
  unfold TextGenerator.formatTime. cbv zeta. change (lit ":") with [58%N]. cbn [app].
  intros H. apply app_sep_inj in H as [Hh Hm];
    [| destruct p; not_in_text | destruct p; not_in_text].
  split; [| by apply pad_intToString_inj in Hm].
  destruct p; [by apply pad_intToString_inj in Hh | by apply intToString_inj].
Qed.

Lemma timeRange_inj c1 c2 p :
  TextGenerator.formatTime (TextGenerator.startHour c1) (TextGenerator.startMinute c1) p ++
    12316%N :: TextGenerator.formatTime (TextGenerator.endHour c1) (TextGenerator.endMinute c1) p =
  TextGenerator.formatTime (TextGenerator.startHour c2) (TextGenerator.startMinute c2) p ++
    12316%N :: TextGenerator.formatTime (TextGenerator.endHour c2) (TextGenerator.endMinute c2) p ->
  TextGenerator.startHour c1 = TextGenerator.startHour c2 /\
  TextGenerator.startMinute c1 = TextGenerator.startMinute c2 /\
  TextGenerator.endHour c1 = TextGenerator.endHour c2 /\
  TextGenerator.endMinute c1 = TextGenerator.endMinute c2.
Proof.
  intros H. apply app_sep_inj in H as [Hs He]; [| not_in_text | not_in_text].
  apply formatTime_inj in Hs as [? ?]. apply formatTime_inj in He as [? ?]. done.
Qed.

Section Unambiguous.
Variable tza : Z.

(** X20.  Two candidates with valid dates that [formatCandidate] prints
    alike, in any format, have the same start and end hours and minutes
    and fall on the same month and day of the month; except in the
    format [simple], which does not print the year, they fall on the
    same local calendar day. *)
Theorem formatCandidate_unambiguous (format : jsstring) (c1 c2 : TextGenerator.Candidate)
    (t1 t2 : Z) :
  TextGenerator.date c1 = TimeValue t1 ->
  TextGenerator.date c2 = TimeValue t2 ->
  TextGenerator.formatCandidate tza c1 format = TextGenerator.formatCandidate tza c2 format ->
  getMonth tza (TextGenerator.date c1) = getMonth tza (TextGenerator.date c2) /\
  getDate tza (TextGenerator.date c1) = getDate tza (TextGenerator.date c2) /\
  (format <> lit "simple" -> localDay tza t1 = localDay tza t2) /\
  TextGenerator.startHour c1 = TextGenerator.startHour c2 /\
  TextGenerator.startMinute c1 = TextGenerator.startMinute c2 /\
  TextGenerator.endHour c1 = TextGenerator.endHour c2 /\
  TextGenerator.endMinute c1 = TextGenerator.endMinute c2.
Proof.
  intros Hd1 Hd2. unfold_templates. rewrite Hd1, Hd2.
  cbn [getFullYear getMonth getDate getDay arith numberToString].
  set (D1 := localDay tza t1). set (D2 := localDay tza t2).
  assert (HW : forall x, Forall (fun c => c <> 65289%N)
                           (orUndefined (index TextGenerator.weekdays x)))
    by (intros x; text_chars).
  pose proof (HW (Some (WeekDay D1))) as HW1. pose proof (HW (Some (WeekDay D2))) as HW2.
  set (W1 := orUndefined (index TextGenerator.weekdays (Some (WeekDay D1)))) in *.
  set (W2 := orUndefined (index TextGenerator.weekdays (Some (WeekDay D2)))) in *.
  clearbody W1 W2. clear HW.
  assert (Hstd :
    intToString (YearFromDay D1) ++ [24180%N] ++ intToString (MonthFromDay D1 + 1) ++ [26376%N] ++
    intToString (DateFromDay D1) ++ [26085%N; 65288%N] ++
    W1 ++ [65289%N; 32%N] ++
    TextGenerator.formatTime (TextGenerator.startHour c1) (TextGenerator.startMinute c1) false ++
    [12316%N] ++
    TextGenerator.formatTime (TextGenerator.endHour c1) (TextGenerator.endMinute c1) false =
    intToString (YearFromDay D2) ++ [24180%N] ++ intToString (MonthFromDay D2 + 1) ++ [26376%N] ++
    intToString (DateFromDay D2) ++ [26085%N; 65288%N] ++
    W2 ++ [65289%N; 32%N] ++
    TextGenerator.formatTime (TextGenerator.startHour c2) (TextGenerator.startMinute c2) false ++
    [12316%N] ++
    TextGenerator.formatTime (TextGenerator.endHour c2) (TextGenerator.endMinute c2) false ->
    (Some (MonthFromDay D1) = Some (MonthFromDay D2) /\
     Some (DateFromDay D1) = Some (DateFromDay D2) /\
     (format <> lit "simple" -> D1 = D2) /\
     TextGenerator.startHour c1 = TextGenerator.startHour c2 /\
     TextGenerator.startMinute c1 = TextGenerator.startMinute c2 /\
     TextGenerator.endHour c1 = TextGenerator.endHour c2 /\
     TextGenerator.endMinute c1 = TextGenerator.endMinute c2)).
  { cbn [app]. intros H.
    apply app_sep_inj in H as [HY H]; [| not_in_text | not_in_text].
    apply app_sep_inj in H as [HM H]; [| not_in_text | not_in_text].
    apply app_sep_inj in H as [HD H]; [| not_in_text | not_in_text].
    injection H as H.
    apply app_sep_inj in H as [_ H]; [| not_in_text | not_in_text].
    injection H as H.
    apply timeRange_inj in H.
    apply intToString_inj in HY, HM, HD.
    assert (MonthFromDay D1 = MonthFromDay D2) by lia.
    split; [by f_equal |]. split; [by f_equal |].
    split; [intros _; by apply calendar_fields_inj | exact H]. }
  repeat case_decide; cbv zeta; try exact Hstd.
  - (* simple *)
    cbn [app]. intros Heq.
    apply app_sep_inj in Heq as [HM Heq]; [| not_in_text | not_in_text].
    apply app_sep_inj in Heq as [HD Heq]; [| not_in_text | not_in_text].
    apply app_sep_inj in Heq as [_ Heq]; [| not_in_text | not_in_text].
    injection Heq as Heq.
    apply timeRange_inj in Heq.
    apply intToString_inj in HM, HD.
    assert (MonthFromDay D1 = MonthFromDay D2) by lia.
    split; [by f_equal |]. split; [by f_equal |]. split; [done | exact Heq].
  - (* detailed *)
    cbn [app]. intros Heq.
    apply app_sep_inj in Heq as [HY Heq]; [| not_in_text | not_in_text].
    apply app_sep_inj in Heq as [HM Heq]; [| not_in_text | not_in_text].
    apply app_sep_inj in Heq as [HD Heq]; [| not_in_text | not_in_text].
    injection Heq as Heq.
    apply app_sep_inj in Heq as [_ Heq]; [| not_in_text | not_in_text].
    injection Heq as Heq.
    apply timeRange_inj in Heq.
    apply intToString_inj in HY. apply pad_intToString_inj in HM, HD.
    assert (MonthFromDay D1 = MonthFromDay D2) by lia.
    split; [by f_equal |]. split; [by f_equal |].
    split; [intros _; by apply calendar_fields_inj | exact Heq].
Qed.

End Unambiguous.

(** The theorem for two different candidates of 1 January 1970, an
    hour apart, that the standard format prints alike. *)
Lemma formatCandidate_unambiguous_witness :
  TextGenerator.date Spec.exampleCandidate = TimeValue 0 /\
  TextGenerator.date Spec.exampleTwin = TimeValue 3600000 /\
  Spec.exampleCandidate <> Spec.exampleTwin /\
  TextGenerator.formatCandidate 0 Spec.exampleCandidate (lit "standard") =
    TextGenerator.formatCandidate 0 Spec.exampleTwin (lit "standard") /\
  getMonth 0 (TextGenerator.date Spec.exampleCandidate) =
    getMonth 0 (TextGenerator.date Spec.exampleTwin) /\
  getDate 0 (TextGenerator.date Spec.exampleCandidate) =
    getDate 0 (TextGenerator.date Spec.exampleTwin) /\
  (lit "standard" <> lit "simple" -> localDay 0 0 = localDay 0 3600000) /\
  TextGenerator.startHour Spec.exampleCandidate = TextGenerator.startHour Spec.exampleTwin /\
  TextGenerator.startMinute Spec.exampleCandidate =
    TextGenerator.startMinute Spec.exampleTwin /\
  TextGenerator.endHour Spec.exampleCandidate = TextGenerator.endHour Spec.exampleTwin /\
  TextGenerator.endMinute Spec.exampleCandidate = TextGenerator.endMinute Spec.exampleTwin.
Proof.
  split; [reflexivity |]. split; [reflexivity |]. split; [discriminate |].
  assert (Htext : TextGenerator.formatCandidate 0 Spec.exampleCandidate (lit "standard") =
                  TextGenerator.formatCandidate 0 Spec.exampleTwin (lit "standard"))
    by (vm_compute; reflexivity).
  split; [exact Htext |].
  apply (formatCandidate_unambiguous 0 (lit "standard") Spec.exampleCandidate
           Spec.exampleTwin 0 3600000); [reflexivity | reflexivity | exact Htext].
Defined.

(** X21.  Two valid dates have the same month name, as [getMonthName]
    prints it, exactly when they fall in the same local year and
    month. *)
Theorem getMonthName_unambiguous (tza t1 t2 : Z) :
  Scheduler.getMonthName tza (TimeValue t1) = Scheduler.getMonthName tza (TimeValue t2) <->
  getFullYear tza (TimeValue t1) = getFullYear tza (TimeValue t2) /\
  getMonth tza (TimeValue t1) = getMonth tza (TimeValue t2).
Proof.
  unfold Scheduler.getMonthName. cbn [getFullYear getMonth arith numberToString app]. split.
  - intros H. apply app_sep_inj in H as [HY H]; [| not_in_text | not_in_text].
    apply app_sep_inj in H as [HM _]; [| not_in_text | not_in_text].
    apply intToString_inj in HY, HM. split; f_equal; lia.
  - intros [[= ->] [= ->]]. reflexivity.
Qed.

(* ================================================================== *)
(** * Reading numbers back (parseInt) and numbered lists (TextGenerator.formatForEmail, formatForChat) *)
(* ================================================================== *)

Lemma digit_cases (c : N) :
  (48 <= c <= 57)%N ->
  c = 48%N \/ c = 49%N \/ c = 50%N \/ c = 51%N \/ c = 52%N \/
  c = 53%N \/ c = 54%N \/ c = 55%N \/ c = 56%N \/ c = 57%N.
Proof. lia. Qed.

Ltac each_digit H :=
  apply digit_cases in H;
  repeat (destruct H as [H | H]); subst.

Lemma parseDigits_digits s seen acc :
  Forall (fun c => (48 <= c <= 57)%N) s ->
  parseDigits 10 s seen acc =
  if seen || negb (bool_decide (s = [])) then
    Some (fold_left (fun acc c => acc * 10 + (Z.of_N c - 48)) s acc)
  else NaN.
Proof.
  intros Hs. revert seen acc. induction Hs as [| c s Hc Hs IH]; intros seen acc.
  - cbn [parseDigits fold_left]. rewrite bool_decide_eq_true_2 by done.
    by rewrite orb_false_r.
  - cbn [parseDigits fold_left]. rewrite bool_decide_eq_false_2 by done.
    rewrite orb_true_r.
    assert (Hd : digitValue 10 c = Some (Z.of_N c - 48)).
    { unfold digitValue.
      rewrite (proj2 (N.leb_le 48 c)), (proj2 (N.leb_le c 57)) by lia. cbn [andb].
      by rewrite (proj2 (Z.ltb_lt _ _)) by lia. }
    rewrite Hd, IH. done.
Qed.

Lemma parseInt_digits s :
  s <> [] -> Forall (fun c => (48 <= c <= 57)%N) s ->
  parseInt s = Some (Spec.valueOf s) /\ parseInt (45%N :: s) = Some (- Spec.valueOf s).
Proof.
  intros Hne Hs. destruct s as [| a s]; [done |].
  pose proof Hs as Hs0. apply Forall_cons in Hs as [Ha Hs].
  assert (Hparse : parseDigits 10 (a :: s) false 0 = Some (Spec.valueOf (a :: s))).
  { rewrite parseDigits_digits by done. by rewrite bool_decide_eq_false_2. }
  assert (Hradix : (let '(radix, s2) :=
                      match a :: s with
                      | 48%N :: 120%N :: s' => (16, s')
                      | 48%N :: 88%N :: s' => (16, s')
                      | _ => (10, a :: s)
                      end in
                    parseDigits radix s2 false 0) = Some (Spec.valueOf (a :: s))).
  { destruct s as [| b s'].
    - each_digit Ha; exact Hparse.
    - apply Forall_cons in Hs as [Hb _]. each_digit Ha; try exact Hparse.
      each_digit Hb; exact Hparse. }
  unfold parseInt. split.
  - assert (Hw : trimStart (a :: s) = a :: s) by (each_digit Ha; reflexivity).
    rewrite Hw.
    assert (Hsign : match a :: s with
                    | 45%N :: s' => (-1, s')
                    | 43%N :: s' => (1, s')
                    | _ => (1, a :: s)
                    end = (1, a :: s)) by (each_digit Ha; reflexivity).
    rewrite Hsign. cbv zeta in Hradix.
    destruct (match a :: s with
              | 48%N :: 120%N :: s' => (16, s')
              | 48%N :: 88%N :: s' => (16, s')
              | _ => (10, a :: s)
              end) as [radix s2].
    rewrite Hradix. cbn [fmap option_fmap option_map]. f_equal; lia.
  - change (trimStart (45%N :: a :: s)) with (45%N :: a :: s). cbv iota.
    cbv zeta in Hradix.
    destruct (match a :: s with
              | 48%N :: 120%N :: s' => (16, s')
              | 48%N :: 88%N :: s' => (16, s')
              | _ => (10, a :: s)
              end) as [radix s2].
    rewrite Hradix. cbn [fmap option_fmap option_map]. f_equal; lia.
Qed.

(** Printing an integer and reading it back. *)
Lemma parseInt_intToString z : parseInt (intToString z) = Some z.
Proof.
  destruct (Z.lt_ge_cases z 0) as [Hz | Hz].
  - destruct (intToString_negative z Hz) as (s & -> & Hv & Hd).
    assert (s <> []).
    { intros ->. cbn in Hv. lia. }
    rewrite (proj2 (parseInt_digits s ltac:(done) Hd)). f_equal. lia.
  - rewrite (proj1 (parseInt_digits (intToString z) ltac:(unfold intToString;
      destruct (z <? 0); [done | apply digitsOf_not_nil]) (intToString_digits z Hz))).
    by rewrite intToString_value.
Qed.

Lemma intToString_not_nil z : intToString z <> [].
Proof. unfold intToString. destruct (z <? 0); [done | apply digitsOf_not_nil]. Qed.

Lemma digit_not_whiteSpace c : (48 <= c <= 57)%N -> isWhiteSpace c = false.
Proof. intros Hc. each_digit Hc; reflexivity. Qed.

Lemma trim_line s c0 s0 s1 d :
  s = c0 :: s0 -> s = s1 ++ [d] -> isWhiteSpace c0 = false -> isWhiteSpace d = false ->
  trim (s ++ [10%N]) = s.
Proof.
  intros H0 H1 Hc Hd. unfold trim.
  assert (Hfront : trimStart (s ++ [10%N]) = s ++ [10%N]).
  { rewrite H0. cbn [app trimStart]. by rewrite Hc. }
  rewrite Hfront, rev_app_distr. change (rev [10%N]) with [10%N]. cbn [app trimStart].
  change (isWhiteSpace 10) with true. cbv iota. clear Hfront H0.
  subst s. rewrite rev_app_distr. cbn [rev app trimStart]. rewrite Hd.
  cbn [rev]. by rewrite rev_involutive.
Qed.

Lemma join_cons sep s l : l <> [] -> join sep (s :: l) = s ++ sep ++ join sep l.
Proof. by destruct l. Qed.

Lemma unlines_join lines :
  lines <> [] -> concat ((fun s => s ++ [10%N]) <$> lines) = join [10%N] lines ++ [10%N].
Proof.
  induction lines as [| s lines IH]; [done |]. intros _.
  destruct lines as [| s' lines]; [cbn; by rewrite app_nil_r |].
  rewrite join_cons by done. cbn [fmap list_fmap concat] in *.
  rewrite IH by done. by rewrite <- !app_assoc.
Qed.

Lemma join_first sep c0 s0 l : exists s, join sep ((c0 :: s0) :: l) = c0 :: s.
Proof. destruct l; cbn [join app]; eauto. Qed.

Lemma join_last sep l s1 d : exists s, join sep (l ++ [s1 ++ [d]]) = s ++ [d].
Proof.
  induction l as [| x l [s IH]]; cbn [app].
  - by exists s1.
  - rewrite join_cons by (by destruct l). rewrite IH.
    exists (x ++ sep ++ s). by rewrite <- !app_assoc.
Qed.

Lemma intToString_last z : exists s d, intToString z = s ++ [d] /\ (48 <= d <= 57)%N.
Proof.
  assert (H : forall fuel n, exists s d, digitsOf (S fuel) n = s ++ [d] /\ (48 <= d <= 57)%N).
  { intros fuel n. cbn [digitsOf]. eexists _, _. split; [reflexivity |].
    unfold digitChar. pose proof (Z.mod_pos_bound n 10 ltac:(lia)). lia. }
  unfold intToString. destruct (z <? 0).
  - destruct (H (Z.to_nat (Z.log2 (- z))) (- z)) as (s & d & -> & Hd).
    by exists (45%N :: s), d.
  - apply H.
Qed.

Lemma intToString_first z :
  0 <= z -> exists c s, intToString z = c :: s /\ (48 <= c <= 57)%N.
Proof.
  intros Hz. pose proof (intToString_digits z Hz) as Hd.
  pose proof (intToString_not_nil z) as Hne.
  destruct (intToString z) as [| c s]; [done |].
  apply Forall_cons in Hd as [Hc _]. by exists c, s.
Qed.

Section Lists.
Variable tza : Z.

Lemma formatCandidate_last c fmt :
  exists s d, TextGenerator.formatCandidate tza c fmt = s ++ [d] /\ (48 <= d <= 57)%N.
Proof.
  assert (Htime : forall h m p, exists s d,
            TextGenerator.formatTime h m p = s ++ [d] /\ (48 <= d <= 57)%N).
  { intros h m p. unfold TextGenerator.formatTime, padStart. cbv zeta.
    destruct (intToString_last m) as (s & d & -> & Hd).
    eexists _, d. split; [| done]. by rewrite !app_assoc. }
  unfold_templates.
  repeat case_decide; cbv zeta;
    match goal with
    | |- context [[12316%N] ++ TextGenerator.formatTime ?h ?m ?p] =>
        destruct (Htime h m p) as (s & d & -> & Hd)
    end;
    (eexists _, d; split; [| done]; by rewrite !app_assoc).
Qed.

Lemma numberedFrom_lines fmt index (l : list TextGenerator.Candidate) :
  Forall (Forall (fun ch => ch <> 10%N))
         (Spec.numberedFrom (fun c => TextGenerator.formatCandidate tza c fmt) index l).
Proof.
  revert index. induction l as [| c l IH]; intros index; cbn [Spec.numberedFrom];
    constructor; [| apply IH].
  change (lit ". ") with [46%N; 32%N].
  pose proof (formatCandidate_chars tza c fmt). text_chars.
Qed.

Lemma emailEntries_lines fmt index l result :
  TextGenerator.emailEntries tza fmt index l result =
  result ++ concat ((fun s => s ++ [10%N]) <$>
                      Spec.numberedFrom (fun c => TextGenerator.formatCandidate tza c fmt)
                                        index l).
Proof.
  revert index result. induction l as [| c l IH]; intros index result;
    cbn [TextGenerator.emailEntries Spec.numberedFrom fmap list_fmap concat].
  - by rewrite app_nil_r.
  - rewrite IH. by rewrite <- !app_assoc.
Qed.

(** X22.  [formatForEmail] returns the empty string for the empty list,
    and otherwise a text (trimmed, so without the final line feed) whose
    lines are the header, when asked for, and then the candidates in the
    order of [sortCandidates], each after its number from 1 on, a full
    stop and a space. *)
Theorem formatForEmail_lines (currentFormat : jsstring)
    (candidates : list TextGenerator.Candidate) (includeHeader : bool) :
  TextGenerator.formatForEmail tza currentFormat [] includeHeader = [] /\
  (candidates <> [] ->
   split 10%N (TextGenerator.formatForEmail tza currentFormat candidates includeHeader) =
   (if includeHeader then [[20505%N; 35036%N; 26085%N; 26178%N; 65306%N]] else []) ++
   Spec.numberedFrom (fun c => TextGenerator.formatCandidate tza c currentFormat) 0
                     (TextGenerator.sortCandidates candidates)).
Proof.
  split; [reflexivity |]. intros Hne.
  unfold TextGenerator.formatForEmail. rewrite bool_decide_eq_false_2 by done. cbv zeta.
  rewrite emailEntries_lines.
  set (text := fun c => TextGenerator.formatCandidate tza c currentFormat).
  assert (Hsorted : TextGenerator.sortCandidates candidates <> []).
  { intros Hnil. apply Hne. apply Permutation_nil_r. rewrite <- Hnil.
    symmetry. apply sort_perm. }
  destruct (TextGenerator.sortCandidates candidates) as [| c0 sorted] eqn:Hs; [done |].
  set (title := [20505%N; 35036%N; 26085%N; 26178%N; 65306%N]).
  set (lines := (if includeHeader then [title] else []) ++ Spec.numberedFrom text 0 (c0 :: sorted)).
  assert (Hresult :
    (if includeHeader then title ++ [10%N] else []) ++
    concat ((fun s => s ++ [10%N]) <$> Spec.numberedFrom text 0 (c0 :: sorted)) =
    join [10%N] lines ++ [10%N]).
  { rewrite <- unlines_join by (unfold lines; destruct includeHeader; done).
    unfold lines. rewrite fmap_app, concat_app. by destruct includeHeader. }
  change [20505%N; 35036%N; 26085%N; 26178%N; 65306%N; 10%N] with (title ++ [10%N]).
  rewrite Hresult.
  assert (Hfirst : exists c s, join [10%N] lines = c :: s /\ isWhiteSpace c = false).
  { unfold lines. destruct includeHeader.
    - destruct (join_first [10%N] 20505%N [35036%N; 26085%N; 26178%N; 65306%N]
                  (Spec.numberedFrom text 0 (c0 :: sorted))) as [s Hj].
      exists 20505%N, s. split; [exact Hj | reflexivity].
    - cbn [app Spec.numberedFrom].
      destruct (intToString_first (0 + 1) ltac:(lia)) as (c & s & -> & Hc). cbn [app].
      destruct (join_first [10%N] c (s ++ lit ". " ++ text c0)
                  (Spec.numberedFrom text (0 + 1) sorted)) as [s' Hj].
      exists c, s'. split; [exact Hj | by apply digit_not_whiteSpace]. }
  assert (Hlast : exists s d, join [10%N] lines = s ++ [d] /\ isWhiteSpace d = false).
  { assert (Hnum : forall index (l : list TextGenerator.Candidate), l <> [] ->
              exists init s d, Spec.numberedFrom text index l = init ++ [s ++ [d]] /\
                               (48 <= d <= 57)%N).
    { intros index l. revert index. induction l as [| c l IH]; intros index Hl; [done |].
      cbn [Spec.numberedFrom]. destruct l as [| c' l].
      - destruct (formatCandidate_last c currentFormat) as (s & d & Hs' & Hd).
        exists [], (intToString (index + 1) ++ lit ". " ++ s), d. split; [| done].
        cbn [Spec.numberedFrom app]. unfold text. rewrite Hs'. by rewrite !app_assoc.
      - destruct (IH (index + 1) ltac:(done)) as (init & s & d & -> & Hd).
        by exists ((intToString (index + 1) ++ lit ". " ++ text c) :: init), s, d. }
    destruct (Hnum 0 (c0 :: sorted) ltac:(done)) as (init & s & d & Hn & Hd).
    unfold lines. rewrite Hn, app_assoc.
    destruct (join_last [10%N] ((if includeHeader then [title] else []) ++ init) s d)
      as [s' Hj].
    exists s', d. split; [exact Hj | by apply digit_not_whiteSpace]. }
  destruct Hfirst as (c & s & Hc & Hcw). destruct Hlast as (s' & d & Hd & Hdw).
  rewrite (trim_line _ c s s' d Hc Hd Hcw Hdw).
  apply split_join.
  - unfold lines. destruct includeHeader; done.
  - unfold lines. apply Forall_app. split.
    + destruct includeHeader; repeat constructor; done.
    + apply numberedFrom_lines.
Qed.

(** X23.  [formatForChat] returns the empty string for the empty list,
    and otherwise, for a bullet without line feed, a text whose lines
    are the candidates in the order of [sortCandidates], each after the
    bullet. *)
Theorem formatForChat_lines (currentFormat bullet : jsstring)
    (candidates : list TextGenerator.Candidate) :
  TextGenerator.formatForChat tza currentFormat [] bullet = [] /\
  (candidates <> [] -> Forall (fun ch => ch <> 10%N) bullet ->
   split 10%N (TextGenerator.formatForChat tza currentFormat candidates bullet) =
   (fun c => bullet ++ TextGenerator.formatCandidate tza c currentFormat) <$>
     TextGenerator.sortCandidates candidates).
Proof.
  split; [reflexivity |]. intros Hne Hbullet.
  unfold TextGenerator.formatForChat. rewrite bool_decide_eq_false_2 by done. cbv zeta.
  apply split_join.
  - intros Hnil. apply fmap_nil_inv in Hnil. apply Hne. apply Permutation_nil_r.
    rewrite <- Hnil. symmetry. apply sort_perm.
  - apply Forall_fmap, Forall_forall. intros c _. cbv beta.
    apply Forall_app. split; [done | apply formatCandidate_chars].
Qed.

End Lists.

(* ================================================================== *)
(** * Selecting on the grid (ScheduleApp.startSelection, updateSelection, markSelectedCells) *)
(* ================================================================== *)

Lemma readCell_renderCell d slot :
  ScheduleApp.readCell (ScheduleApp.renderCell d slot) =
  (Some d, Some (Scheduler.hour slot), Some (Scheduler.minute slot)).
Proof.
  unfold ScheduleApp.readCell, ScheduleApp.renderCell.
  cbn [ScheduleApp.data_day ScheduleApp.data_hour ScheduleApp.data_minute].
  by rewrite !parseInt_intToString.
Qed.

Lemma startSelection_renderCell app d slot :
  ScheduleApp.startSelection app (ScheduleApp.renderCell d slot) =
  Some (ScheduleApp.mkApp (ScheduleApp.scheduler app) (ScheduleApp.selectedCandidates app)
          true (Some (Spec.placeOf d slot)) (Some (Spec.placeOf d slot))).
Proof.
  unfold ScheduleApp.startSelection. rewrite readCell_renderCell. reflexivity.
Qed.

(** X24.  Every cell of the grid that [renderDaysGrid] builds lies in one
    of seven columns and stands for a slot of [generateTimeSlots]; the
    numbers that [startSelection] reads back from its [dataset] are its
    column, and the hour and the minute of its slot; and pressing it
    starts a selection that begins and ends at that place, the
    candidates being kept. *)
Theorem startSelection_rendered_cell (app : ScheduleApp.t) (fuel : nat)
    (grid : list (list ScheduleApp.TimeCell)) (column : list ScheduleApp.TimeCell)
    (cell : ScheduleApp.TimeCell) (i k : nat) :
  ScheduleApp.renderDaysGrid fuel app = Some grid ->
  grid !! i = Some column ->
  column !! k = Some cell ->
  (i < 7)%nat /\
  exists slots slot,
    Scheduler.generateTimeSlots fuel (ScheduleApp.scheduler app) = Some slots /\
    slots !! k = Some slot /\
    ScheduleApp.readCell cell =
      (Some (Z.of_nat i), Some (Scheduler.hour slot), Some (Scheduler.minute slot)) /\
    ScheduleApp.startSelection app cell =
      Some (ScheduleApp.mkApp (ScheduleApp.scheduler app) (ScheduleApp.selectedCandidates app)
              true (Some (Spec.placeOf (Z.of_nat i) slot))
              (Some (Spec.placeOf (Z.of_nat i) slot))).
Proof.
  unfold ScheduleApp.renderDaysGrid. intros Hgrid Hcol Hcell.
  apply fmap_Some in Hgrid as (slots & Hslots & ->).
  apply list_lookup_fmap_Some in Hcol as (d & -> & Hd).
  apply lookup_seqZ in Hd as [-> Hi].
  apply list_lookup_fmap_Some in Hcell as (slot & -> & Hslot).
  split; [lia |]. exists slots, slot. rewrite Z.add_0_l.
  split; [exact Hslots |]. split; [done |].
  split; [apply readCell_renderCell | apply startSelection_renderCell].
Qed.

Lemma startSelection_rendered_cell_witness :
  let app := Spec.exampleEmpty in
  let grid := default [] (ScheduleApp.renderDaysGrid 61 app) in
  let column := default [] (grid !! 0%nat) in
  let cell := default Spec.exampleMarkedCell (column !! 0%nat) in
  ScheduleApp.renderDaysGrid 61 app = Some grid /\
  grid !! 0%nat = Some column /\
  column !! 0%nat = Some cell /\
  (0 < 7)%nat /\
  exists slots slot,
    Scheduler.generateTimeSlots 61 (ScheduleApp.scheduler app) = Some slots /\
    slots !! 0%nat = Some slot /\
    ScheduleApp.readCell cell =
      (Some (Z.of_nat 0), Some (Scheduler.hour slot), Some (Scheduler.minute slot)) /\
    ScheduleApp.startSelection app cell =
      Some (ScheduleApp.mkApp (ScheduleApp.scheduler app) (ScheduleApp.selectedCandidates app)
              true (Some (Spec.placeOf (Z.of_nat 0) slot))
              (Some (Spec.placeOf (Z.of_nat 0) slot))).
Proof.
  cbv zeta. split; [reflexivity |]. split; [reflexivity |]. split; [reflexivity |].
  apply (startSelection_rendered_cell Spec.exampleEmpty 61
           (default [] (ScheduleApp.renderDaysGrid 61 Spec.exampleEmpty))
           (default [] (default [] (ScheduleApp.renderDaysGrid 61 Spec.exampleEmpty) !! 0%nat))
           (default Spec.exampleMarkedCell
              (default [] (default [] (ScheduleApp.renderDaysGrid 61 Spec.exampleEmpty)
                             !! 0%nat) !! 0%nat))
           0 0); reflexivity.
Defined.

(** X25.  Pressing a cell that carries the class [selected] and the
    identifier of a candidate of the list removes from the list every
    candidate with that identifier, keeps the others, and starts no
    selection. *)
Theorem startSelection_marked_cell (app : ScheduleApp.t) (cell : ScheduleApp.TimeCell)
    (c : TextGenerator.Candidate) :
  c ∈ ScheduleApp.selectedCandidates app ->
  ScheduleApp.selected cell = true ->
  ScheduleApp.candidateId cell = Some (intToString (TextGenerator.id c)) ->
  ScheduleApp.startSelection app cell =
    Some (ScheduleApp.removeCandidate app (TextGenerator.id c)) /\
  (forall x, x ∈ ScheduleApp.selectedCandidates
                   (ScheduleApp.removeCandidate app (TextGenerator.id c)) <->
             x ∈ ScheduleApp.selectedCandidates app /\ TextGenerator.id x <> TextGenerator.id c) /\
  ScheduleApp.isSelecting (ScheduleApp.removeCandidate app (TextGenerator.id c)) =
    ScheduleApp.isSelecting app.
Proof.
  intros Hin Hsel Hid. split; [| split; [| reflexivity]].
  - unfold ScheduleApp.startSelection, ScheduleApp.isSelectedCell.
    rewrite Hsel, Hid. rewrite bool_decide_eq_false_2 by apply intToString_not_nil.
    cbn [andb negb]. unfold ScheduleApp.findCandidateByCell. rewrite Hid, parseInt_intToString.
    destruct (List.find _ _) as [c0 |] eqn:Hfind.
    + apply List.find_some in Hfind as [_ H0]. cbn [strictEq] in H0.
      apply Z.eqb_eq in H0. by rewrite H0.
    + exfalso. apply list_elem_of_In in Hin.
      pose proof (List.find_none _ _ Hfind c Hin) as H0. cbn [strictEq] in H0.
      by rewrite Z.eqb_refl in H0.
  - intros x. unfold ScheduleApp.removeCandidate. cbn [ScheduleApp.selectedCandidates].
    rewrite list_elem_of_filter. tauto.
Qed.

Lemma startSelection_marked_cell_witness :
  Spec.exampleCandidate ∈ ScheduleApp.selectedCandidates Spec.exampleList /\
  ScheduleApp.selected Spec.exampleMarkedCell = true /\
  ScheduleApp.candidateId Spec.exampleMarkedCell =
    Some (intToString (TextGenerator.id Spec.exampleCandidate)) /\
  ScheduleApp.startSelection Spec.exampleList Spec.exampleMarkedCell =
    Some (ScheduleApp.removeCandidate Spec.exampleList (TextGenerator.id Spec.exampleCandidate)) /\
  (forall x, x ∈ ScheduleApp.selectedCandidates
                   (ScheduleApp.removeCandidate Spec.exampleList
                      (TextGenerator.id Spec.exampleCandidate)) <->
             x ∈ ScheduleApp.selectedCandidates Spec.exampleList /\
             TextGenerator.id x <> TextGenerator.id Spec.exampleCandidate) /\
  ScheduleApp.isSelecting
    (ScheduleApp.removeCandidate Spec.exampleList (TextGenerator.id Spec.exampleCandidate)) =
    ScheduleApp.isSelecting Spec.exampleList.
Proof.
  assert (Hin : Spec.exampleCandidate ∈ ScheduleApp.selectedCandidates Spec.exampleList)
    by (apply list_elem_of_In; left; reflexivity).
  split; [exact Hin |]. split; [reflexivity |]. split; [reflexivity |].
  apply (startSelection_marked_cell Spec.exampleList Spec.exampleMarkedCell
           Spec.exampleCandidate Hin); reflexivity.
Defined.

Section Drag.
Variable tza : Z.



Lemma cellTime_renderCell d slot :
  ScheduleApp.cellTime (ScheduleApp.renderCell d slot) =
  Some (Scheduler.hour slot * 60 + Scheduler.minute slot).
Proof.
  unfold ScheduleApp.cellTime, ScheduleApp.renderCell.
  cbn [ScheduleApp.data_hour ScheduleApp.data_minute].
  by rewrite !parseInt_intToString.
Qed.

(** X27.  On a grid of quarter hours (the times of the two ends of the
    selection, not negative, and that of the cell are multiples of 15
    minutes), the cells that [markSelectedCells] marks for the candidate
    that [addCandidate] creates are the cells that
    [updateSelectionDisplay] highlighted during the drag: those of the
    column of the selection from its earlier to its later end.  A marked
    cell carries the identifier of the candidate. *)
Theorem marked_cells_match_selection (app : ScheduleApp.t) (now dayOffset : Z)
    (slot : Scheduler.TimeSlot) (first last : ScheduleApp.Cell) :
  let cell := ScheduleApp.renderCell dayOffset slot in
  let candidate := ScheduleApp.newCandidate tza app now first last in
  ScheduleApp.selectionStart app = Some first ->
  ScheduleApp.selectionEnd app = Some last ->
  0 <= ScheduleApp.hour first * 60 + ScheduleApp.minute first ->
  0 <= ScheduleApp.hour last * 60 + ScheduleApp.minute last ->
  (15 | ScheduleApp.hour first * 60 + ScheduleApp.minute first) ->
  (15 | ScheduleApp.hour last * 60 + ScheduleApp.minute last) ->
  (15 | Scheduler.hour slot * 60 + Scheduler.minute slot) ->
  ScheduleApp.selected (ScheduleApp.markSelectedCells candidate cell) =
    ScheduleApp.selecting (ScheduleApp.updateSelectionDisplay app cell) /\
  (ScheduleApp.selected (ScheduleApp.markSelectedCells candidate cell) = true ->
   ScheduleApp.candidateId (ScheduleApp.markSelectedCells candidate cell) =
     Some (intToString now)) /\
  (ScheduleApp.selected (ScheduleApp.markSelectedCells candidate cell) = true <->
   dayOffset = ScheduleApp.day first /\
   Z.min (ScheduleApp.hour first * 60 + ScheduleApp.minute first)
         (ScheduleApp.hour last * 60 + ScheduleApp.minute last)
     <= Scheduler.hour slot * 60 + Scheduler.minute slot
     <= Z.max (ScheduleApp.hour first * 60 + ScheduleApp.minute first)
              (ScheduleApp.hour last * 60 + ScheduleApp.minute last)).
Proof.
  intros cell candidate Hfirst Hlast H1 H2 [k1 D1] [k2 D2] [k D].
  unfold ScheduleApp.markSelectedCells, ScheduleApp.updateSelectionDisplay.
  rewrite Hfirst, Hlast. unfold cell. rewrite cellTime_renderCell.
  unfold candidate, ScheduleApp.newCandidate.
  cbn [TextGenerator.startHour TextGenerator.startMinute TextGenerator.endHour
       TextGenerator.endMinute TextGenerator.dayOffset TextGenerator.id
       ScheduleApp.renderCell ScheduleApp.data_day].
  set (T := Scheduler.hour slot * 60 + Scheduler.minute slot) in *.
  set (a := ScheduleApp.hour first * 60 + ScheduleApp.minute first) in *.
  set (b := ScheduleApp.hour last * 60 + ScheduleApp.minute last) in *.
  assert (Hstart : Z.min a b / 60 * 60 + Z.rem (Z.min a b) 60 = Z.min a b).
  { rewrite Z.rem_mod_nonneg by lia. Z.div_mod_to_equations. lia. }
  set (e := if a =? b then Z.min a b + 15 else Z.max a b + 15).
  assert (He : e = Z.max a b + 15) by (unfold e; destruct (Z.eqb_spec a b); lia).
  assert (Hend : e / 60 * 60 + Z.rem e 60 = e).
  { rewrite Z.rem_mod_nonneg by lia. Z.div_mod_to_equations. lia. }
  rewrite Hstart, Hend. unfold greaterEq, lessEq, lessThan.
  assert (Hcmp : (T <? e) = (T <=? Z.max a b)).
  { destruct (Z.ltb_spec T e), (Z.leb_spec T (Z.max a b)); try done; lia. }
  rewrite Hcmp.
  destruct (bool_decide_reflect (intToString dayOffset = intToString (ScheduleApp.day first)))
    as [Hday | Hday]; cbn [andb].
  - apply intToString_inj in Hday.
    destruct (Z.leb_spec (Z.min a b) T), (Z.leb_spec T (Z.max a b));
      cbn [andb ScheduleApp.selected ScheduleApp.selecting ScheduleApp.candidateId];
      (split; [done |]); (split; [done |]); split; try done; try lia.
  - cbn [ScheduleApp.selected ScheduleApp.selecting ScheduleApp.candidateId].
    split; [done |]. split; [done |]. split; [done |].
    intros [-> _]. done.
Qed.

End Drag.

Lemma marked_cells_match_selection_witness :
  let first := ScheduleApp.mkCell 0 9 30 in
  let last := ScheduleApp.mkCell 0 9 0 in
  let cell := ScheduleApp.renderCell 0 (Spec.slotOf 9 15) in
  let candidate := ScheduleApp.newCandidate 0 Spec.exampleDrag 1 first last in
  ScheduleApp.selectionStart Spec.exampleDrag = Some first /\
  ScheduleApp.selectionEnd Spec.exampleDrag = Some last /\
  0 <= ScheduleApp.hour first * 60 + ScheduleApp.minute first /\
  0 <= ScheduleApp.hour last * 60 + ScheduleApp.minute last /\
  (15 | ScheduleApp.hour first * 60 + ScheduleApp.minute first) /\
  (15 | ScheduleApp.hour last * 60 + ScheduleApp.minute last) /\
  (15 | Scheduler.hour (Spec.slotOf 9 15) * 60 + Scheduler.minute (Spec.slotOf 9 15)) /\
  ScheduleApp.selected (ScheduleApp.markSelectedCells candidate cell) =
    ScheduleApp.selecting (ScheduleApp.updateSelectionDisplay Spec.exampleDrag cell) /\
  (ScheduleApp.selected (ScheduleApp.markSelectedCells candidate cell) = true ->
   ScheduleApp.candidateId (ScheduleApp.markSelectedCells candidate cell) =
     Some (intToString 1)) /\
  (ScheduleApp.selected (ScheduleApp.markSelectedCells candidate cell) = true <->
   0 = ScheduleApp.day first /\
   Z.min (ScheduleApp.hour first * 60 + ScheduleApp.minute first)
         (ScheduleApp.hour last * 60 + ScheduleApp.minute last)
     <= Scheduler.hour (Spec.slotOf 9 15) * 60 + Scheduler.minute (Spec.slotOf 9 15)
     <= Z.max (ScheduleApp.hour first * 60 + ScheduleApp.minute first)
              (ScheduleApp.hour last * 60 + ScheduleApp.minute last)).
Proof.
  cbv zeta.
  assert (H1 : (15 | ScheduleApp.hour (ScheduleApp.mkCell 0 9 30) * 60 +
                     ScheduleApp.minute (ScheduleApp.mkCell 0 9 30)))
    by (exists 38; reflexivity).
  assert (H2 : (15 | ScheduleApp.hour (ScheduleApp.mkCell 0 9 0) * 60 +
                     ScheduleApp.minute (ScheduleApp.mkCell 0 9 0)))
    by (exists 36; reflexivity).
  assert (H3 : (15 | Scheduler.hour (Spec.slotOf 9 15) * 60 +
                     Scheduler.minute (Spec.slotOf 9 15)))
    by (exists 37; reflexivity).
  split; [reflexivity |]. split; [reflexivity |].
  split; [cbn; lia |]. split; [cbn; lia |].
  split; [exact H1 |]. split; [exact H2 |]. split; [exact H3 |].
  apply (marked_cells_match_selection 0 Spec.exampleDrag 1 0 (Spec.slotOf 9 15)
           (ScheduleApp.mkCell 0 9 30) (ScheduleApp.mkCell 0 9 0));
    [reflexivity | reflexivity | cbn; lia | cbn; lia | exact H1 | exact H2 | exact H3].
Defined.

(* ================================================================== *)
(** * Removing candidates and full days (ScheduleApp.removeMergedCandidate, selectFullDay, renderTimeColumn) *)
(* ================================================================== *)

Lemma filter_ext_in {A} (P Q : A -> Prop) `{!forall x, Decision (P x)}
    `{!forall x, Decision (Q x)} (l : list A) :
  (forall x, x ∈ l -> P x <-> Q x) -> filter P l = filter Q l.
Proof.
  induction l as [| y l IH]; intros Hall; [done |].
  rewrite !filter_cons. rewrite IH by (intros x Hx; apply Hall; by right).
  destruct (decide (P y)) as [Hp | Hp], (decide (Q y)) as [Hq | Hq]; try done;
    exfalso; apply (Hall y ltac:(left)) in Hp || apply Hp, (Hall y ltac:(left)); done.
Qed.

Lemma filter_all {A} (P : A -> Prop) `{!forall x, Decision (P x)} (l : list A) :
  Forall P l -> filter P l = l.
Proof.
  induction 1 as [| x l Hx _ IH]; [done |].
  by rewrite filter_cons, decide_True, IH.
Qed.

Section Removal.
Variable tza : Z.

(** X28.  [removeMergedCandidate] keeps, in their order, the candidates
    that are not within the given one (same local calendar date, start
    not earlier, end not later), and nothing else of the application
    changes.  The given candidate itself is never kept, so the list
    gets shorter when it holds it. *)
Theorem removeMergedCandidate_spec (app : ScheduleApp.t) (merged : TextGenerator.Candidate) :
  let app' := ScheduleApp.removeMergedCandidate tza app merged in
  ScheduleApp.selectedCandidates app' =
    filter (fun c => ~ Spec.within tza merged c) (ScheduleApp.selectedCandidates app) /\
  (merged ∉ ScheduleApp.selectedCandidates app') /\
  (merged ∈ ScheduleApp.selectedCandidates app ->
   (length (ScheduleApp.selectedCandidates app') <
    length (ScheduleApp.selectedCandidates app))%nat) /\
  ScheduleApp.scheduler app' = ScheduleApp.scheduler app /\
  ScheduleApp.isSelecting app' = ScheduleApp.isSelecting app /\
  ScheduleApp.selectionStart app' = ScheduleApp.selectionStart app /\
  ScheduleApp.selectionEnd app' = ScheduleApp.selectionEnd app.
Proof.
  cbv zeta. unfold ScheduleApp.removeMergedCandidate.
  cbn [ScheduleApp.selectedCandidates ScheduleApp.scheduler ScheduleApp.isSelecting
       ScheduleApp.selectionStart ScheduleApp.selectionEnd].
  set (l := ScheduleApp.selectedCandidates app).
  assert (Hfilter :
    filter (fun candidate => candidate ∉
              filter (fun candidate0 =>
                        TextGenerator.getDateKey tza (TextGenerator.date candidate0) =
                        TextGenerator.getDateKey tza (TextGenerator.date merged) /\
                        TextGenerator.startHour merged * 60 + TextGenerator.startMinute merged <=
                        TextGenerator.startHour candidate0 * 60 +
                        TextGenerator.startMinute candidate0 /\
                        TextGenerator.endHour candidate0 * 60 + TextGenerator.endMinute candidate0 <=
                        TextGenerator.endHour merged * 60 + TextGenerator.endMinute merged) l) l =
    filter (fun c => ~ Spec.within tza merged c) l).
  { apply filter_ext_in. intros c Hc. rewrite list_elem_of_filter.
    unfold Spec.within, TextGenerator.startMinutes, TextGenerator.endMinutes.
    rewrite getDateKey_inj. tauto. }
  rewrite Hfilter.
  assert (Hself : Spec.within tza merged merged).
  { unfold Spec.within. split; [done | lia]. }
  split; [done |]. split; [| split; [| repeat split; reflexivity]].
  - rewrite list_elem_of_filter. tauto.
  - intros Hin. by apply (length_filter_lt _ _ merged); [| tauto].
Qed.

Lemma getWeekDates_lookup s i :
  0 <= i < 7 ->
  exists d, index (Scheduler.getWeekDates tza s) (Some i) = Some d.
Proof.
  intros Hi. unfold index. rewrite (proj2 (Z.ltb_ge i 0)) by lia.
  unfold Scheduler.getWeekDates. rewrite list_lookup_fmap.
  assert (Hs : seqZ 0 7 !! Z.to_nat i = Some i).
  { apply lookup_seqZ. lia. }
  rewrite Hs. by eexists.
Qed.

(** X29.  For a day of the week shown, when the list holds no full-day
    candidate of that column and date and no candidate whose identifier
    is the current instant, [selectFullDay] appends the full-day
    candidate of the day (09:00 to 18:00), and a second call for the
    same day gives back the application as it was. *)
Theorem selectFullDay_toggle (app : ScheduleApp.t) (now now' dayIndex : Z) (d : Date) :
  index (Scheduler.getWeekDates tza (ScheduleApp.scheduler app)) (Some dayIndex) = Some d ->
  Forall (fun c => TextGenerator.id c <> now) (ScheduleApp.selectedCandidates app) ->
  Forall (fun c => ~ (TextGenerator.isFullDay c = true /\
                      TextGenerator.dayOffset c = Some dayIndex /\
                      Spec.calendarDate tza (TextGenerator.date c) = Spec.calendarDate tza d))
         (ScheduleApp.selectedCandidates app) ->
  exists app1,
    ScheduleApp.selectFullDay tza app now dayIndex = Some app1 /\
    ScheduleApp.selectedCandidates app1 =
      ScheduleApp.selectedCandidates app ++ [Spec.fullDayCandidate now d dayIndex] /\
    ScheduleApp.selectFullDay tza app1 now' dayIndex = Some app.
Proof.
  intros Hd Hfresh Hnone.
  assert (Hfind : List.find
            (fun candidate =>
               TextGenerator.isFullDay candidate &&
               bool_decide (TextGenerator.dayOffset candidate = Some dayIndex) &&
               bool_decide (TextGenerator.getDateKey tza (TextGenerator.date candidate) =
                            TextGenerator.getDateKey tza d))
            (ScheduleApp.selectedCandidates app) = None).
  { induction Hnone as [| c l Hc _ IH]; [done |]. cbn [List.find].
    apply Forall_cons in Hfresh as [_ Hfresh]. rewrite (IH Hfresh).
    destruct (TextGenerator.isFullDay c) eqn:Hfull; [| done]. cbn [andb].
    destruct (bool_decide_reflect (TextGenerator.dayOffset c = Some dayIndex)); [| done].
    cbn [andb]. rewrite bool_decide_eq_false_2; [done |].
    rewrite getDateKey_inj. tauto. }
  eexists. split; [| split].
  - unfold ScheduleApp.selectFullDay. rewrite Hd, Hfind. reflexivity.
  - reflexivity.
  - unfold ScheduleApp.selectFullDay. cbn [ScheduleApp.scheduler ScheduleApp.selectedCandidates].
    rewrite Hd.
    assert (Hfound : List.find
              (fun candidate =>
                 TextGenerator.isFullDay candidate &&
                 bool_decide (TextGenerator.dayOffset candidate = Some dayIndex) &&
                 bool_decide (TextGenerator.getDateKey tza (TextGenerator.date candidate) =
                              TextGenerator.getDateKey tza d))
              (ScheduleApp.selectedCandidates app ++
               [{| TextGenerator.id := now; TextGenerator.date := d;
                   TextGenerator.startHour := 9; TextGenerator.startMinute := 0;
                   TextGenerator.endHour := 18; TextGenerator.endMinute := 0;
                   TextGenerator.isFullDay := true;
                   TextGenerator.dayOffset := Some dayIndex |}]) =
              Some (Spec.fullDayCandidate now d dayIndex)).
    { revert Hfind. generalize (ScheduleApp.selectedCandidates app). intros l.
      induction l as [| c l IH]; cbn [List.find List.app].
      - intros _. cbn [TextGenerator.isFullDay TextGenerator.dayOffset TextGenerator.date andb].
        by rewrite !bool_decide_eq_true_2.
      - destruct (_ && _); [done | exact IH]. }
    rewrite Hfound. cbn [Spec.fullDayCandidate TextGenerator.id].
    rewrite filter_app, filter_cons, decide_False by (intros H; by apply H).
    rewrite filter_nil, app_nil_r.
    assert (Hkeep : filter (fun c => TextGenerator.id c <> now)
                           (ScheduleApp.selectedCandidates app) =
                    ScheduleApp.selectedCandidates app) by (by apply filter_all).
    rewrite Hkeep. by destruct app.
Qed.

End Removal.

Lemma selectFullDay_toggle_witness :
  index (Scheduler.getWeekDates 0 (ScheduleApp.scheduler Spec.exampleEmpty)) (Some 0) =
    Some (TimeValue (-259200000)) /\
  Forall (fun c => TextGenerator.id c <> 1) (ScheduleApp.selectedCandidates Spec.exampleEmpty) /\
  Forall (fun c => ~ (TextGenerator.isFullDay c = true /\
                      TextGenerator.dayOffset c = Some 0 /\
                      Spec.calendarDate 0 (TextGenerator.date c) =
                        Spec.calendarDate 0 (TimeValue (-259200000))))
         (ScheduleApp.selectedCandidates Spec.exampleEmpty) /\
  exists app1,
    ScheduleApp.selectFullDay 0 Spec.exampleEmpty 1 0 = Some app1 /\
    ScheduleApp.selectedCandidates app1 =
      ScheduleApp.selectedCandidates Spec.exampleEmpty ++
      [Spec.fullDayCandidate 1 (TimeValue (-259200000)) 0] /\
    ScheduleApp.selectFullDay 0 app1 2 0 = Some Spec.exampleEmpty.
Proof.
  split; [reflexivity |]. split; [constructor |]. split; [constructor |].
  apply (selectFullDay_toggle 0 Spec.exampleEmpty 1 2 0 (TimeValue (-259200000)));
    [reflexivity | constructor | constructor].
Defined.

Section TimeColumn.

Lemma timeColumnRows_hour h rest :
  ScheduleApp.timeColumnRows
    (((fun k => Spec.slotOf h (k * 15)) <$> [0; 1; 2; 3]) ++ rest) 0 =
  Some (intToString h ++ lit ":00") :: ScheduleApp.timeColumnRows rest 0.
Proof. reflexivity. Qed.

Lemma hourLoop_quarters r fuel n h0 :
  Scheduler.minuteInterval r = 15 -> (61 <= fuel)%nat ->
  h0 + Z.of_nat n = Scheduler.endHour r ->
  exists slots,
    Scheduler.hourLoop fuel r (seqZ h0 (Z.of_nat n + 1)) = Some slots /\
    ScheduleApp.timeColumnRows slots 0 =
      (fun h => Some (intToString h ++ lit ":00")) <$> seqZ h0 (Z.of_nat n + 1).
Proof.
  intros Hi Hfuel. revert h0. induction n as [| n IH]; intros h0 Hend.
  - change (Z.of_nat 0) with 0 in *. rewrite Z.add_0_r in Hend. subst h0.
    change (0 + 1) with 1. rewrite seqZ_cons by lia. change (Z.pred 1) with 0.
    rewrite seqZ_nil by lia. cbn [Scheduler.hourLoop].
    rewrite minuteLoop_last by lia. eexists. split; [reflexivity |]. reflexivity.
  - rewrite seqZ_cons by lia. cbn [Scheduler.hourLoop].
    replace (Z.pred (Z.of_nat (S n) + 1)) with (Z.of_nat n + 1) by lia.
    replace (Z.succ h0) with (h0 + 1) by lia.
    pose proof (minuteLoop_block r 4 ltac:(lia) ltac:(lia) fuel h0 0 ltac:(lia) ltac:(lia)
                  ltac:(lia)) as Hblock.
    rewrite Hi in Hblock. change (0 * 15) with 0 in Hblock. rewrite Hblock.
    destruct (IH (h0 + 1) ltac:(lia)) as (slots & -> & Hrows).
    eexists. split; [reflexivity |].
    change (seqZ 0 (4 - 0)) with [0; 1; 2; 3].
    rewrite timeColumnRows_hour, Hrows. reflexivity.
Qed.

(** X30.  With an interval of 15 minutes and a start hour at most the end
    hour, the time column that [renderTimeColumn] builds has one row for
    each hour from the start hour to the end hour, labelled [h:00], and
    no other row. *)
Theorem renderTimeColumn_hours (app : ScheduleApp.t) (fuel : nat) :
  let r := Scheduler.timeRange (ScheduleApp.scheduler app) in
  Scheduler.minuteInterval r = 15 ->
  Scheduler.startHour r <= Scheduler.endHour r ->
  (61 <= fuel)%nat ->
  ScheduleApp.renderTimeColumn fuel app =
  Some ((fun h => Some (intToString h ++ lit ":00")) <$>
          seqZ (Scheduler.startHour r) (Scheduler.endHour r - Scheduler.startHour r + 1)).
Proof.
  intros r Hi Hh Hfuel. unfold ScheduleApp.renderTimeColumn, Scheduler.generateTimeSlots.
  fold r.
  destruct (hourLoop_quarters r fuel
              (Z.to_nat (Scheduler.endHour r - Scheduler.startHour r))
              (Scheduler.startHour r) Hi Hfuel ltac:(lia)) as (slots & Hslots & Hrows).
  replace (Z.of_nat (Z.to_nat (Scheduler.endHour r - Scheduler.startHour r)) + 1)
    with (Scheduler.endHour r - Scheduler.startHour r + 1) in Hslots, Hrows by lia.
  rewrite Hslots. cbn [fmap option_fmap option_map]. by rewrite Hrows.
Qed.

End TimeColumn.

Lemma renderTimeColumn_hours_witness :
  Scheduler.minuteInterval (Scheduler.timeRange (ScheduleApp.scheduler Spec.exampleEmpty)) = 15 /\
  Scheduler.startHour (Scheduler.timeRange (ScheduleApp.scheduler Spec.exampleEmpty)) <=
    Scheduler.endHour (Scheduler.timeRange (ScheduleApp.scheduler Spec.exampleEmpty)) /\
  (61 <= 61)%nat /\
  ScheduleApp.renderTimeColumn 61 Spec.exampleEmpty =
  Some ((fun h => Some (intToString h ++ lit ":00")) <$>
          seqZ (Scheduler.startHour (Scheduler.timeRange (ScheduleApp.scheduler Spec.exampleEmpty)))
               (Scheduler.endHour (Scheduler.timeRange (ScheduleApp.scheduler Spec.exampleEmpty)) -
                Scheduler.startHour (Scheduler.timeRange (ScheduleApp.scheduler Spec.exampleEmpty))
                + 1)).
Proof.
  split; [reflexivity |]. split; [cbn; lia |]. split; [lia |].
  apply (renderTimeColumn_hours Spec.exampleEmpty 61); [reflexivity | cbn; lia | lia].
Defined.
